(** * LyncFormula task pane (src/excel_addin/taskpane/taskpane.js)

    A shallow embedding of the task-pane controller: its module-level
    variables, the DOM elements it reads and writes, browser local storage,
    and its event handlers, with the asynchronous handlers cut at their
    [await] points into tasks that the event loop resumes.

    Conventions of the model.
    - JavaScript strings are Rocq strings whose characters stand for the
      code units U+0000..U+00FF.
    - JavaScript numbers are integers (the safe-integer range of a double).
      A string that the comparison [length > 0] converts to a number is read
      by the full grammar of numeric strings, and compared by the real number
      it denotes.
    - The payloads received from the service, and the history read back from
      local storage, are untyped JSON values ([jsval]); property reads,
      truthiness, conversions to string and the [TypeError]s of the language
      are written out.  [undefined] is what the read of a missing property
      gives; it does not occur inside a payload.
    - Local storage holds, under the history key, nothing, text that
      [JSON.parse] rejects, or the text of any JSON value, whoever wrote it;
      under the settings key, nothing, text that [JSON.parse] rejects, or
      what the add-in wrote there.  [JSON.stringify] followed by [JSON.parse]
      gives a value back as it was.
    - Logging ([console.*]) and scrolling have no effect on the state. *)

From Stdlib Require Import Bool Ascii String List ZArith Lia PeanoNat.
From Stdlib Require Import DecimalString.
Import ListNotations.

Set Warnings "-register-all".

Open Scope string_scope.
Open Scope list_scope.

(** ** Strings *)

(** [String.prototype.toLowerCase] on one code unit of the Latin-1 range:
    A-Z and U+00C0..U+00DE (but the multiplication sign U+00D7) move up by
    32; every other unit of the range is its own lower case. *)
Definition toLowerUnit (c : ascii) : ascii :=
  let n := nat_of_ascii c in
  if (((65 <=? n) && (n <=? 90)) || ((192 <=? n) && (n <=? 222) && negb (n =? 215)))%nat
  then ascii_of_nat (n + 32)
  else c.

Fixpoint toLowerCase (s : string) : string :=
  match s with
  | EmptyString => EmptyString
  | String c s' => String (toLowerUnit c) (toLowerCase s')
  end.

(** [s.includes(kw)]: [kw] occurs in [s] as a contiguous substring. *)
Fixpoint includes (s kw : string) : bool :=
  String.prefix kw s ||
  match s with
  | EmptyString => false
  | String _ s' => includes s' kw
  end.

(** White space and line terminators that [trim] strips, in the Latin-1 range:
    TAB, LF, VT, FF, CR, SPACE and NBSP. *)
Definition isWhiteSpace (c : ascii) : bool :=
  let n := nat_of_ascii c in
  (((9 <=? n) && (n <=? 13)) || (n =? 32) || (n =? 160))%nat.

Fixpoint trimStart (s : string) : string :=
  match s with
  | EmptyString => EmptyString
  | String c s' => if isWhiteSpace c then trimStart s' else s
  end.

Fixpoint trimEnd (s : string) : string :=
  match s with
  | EmptyString => EmptyString
  | String c s' =>
      match trimEnd s' with
      | EmptyString => if isWhiteSpace c then EmptyString else String c EmptyString
      | t => String c t
      end
  end.

Definition trim (s : string) : string := trimEnd (trimStart s).

Definition isEmpty (s : string) : bool :=
  match s with EmptyString => true | _ => false end.

Fixpoint join (sep : string) (l : list string) : string :=
  match l with
  | [] => ""
  | [x] => x
  | x :: l' => x ++ sep ++ join sep l'
  end.

(** Decimal rendering of an integer, as [String(n)] gives it. *)
Definition Z_to_string (n : Z) : string := NilZero.string_of_int (Z.to_int n).

Definition nat_to_string (n : nat) : string := Z_to_string (Z.of_nat n).

(** ** Exceptions *)

(** A thrown value: an [Error] with its [message]. *)
Record thrown := Thrown { message : string }.

Definition Exc (A : Type) : Type := (thrown + A)%type.

Definition ret {A : Type} (a : A) : Exc A := inr a.

Definition throw {A : Type} (e : thrown) : Exc A := inl e.

Definition bind {A B : Type} (m : Exc A) (k : A -> Exc B) : Exc B :=
  match m with
  | inl e => inl e
  | inr a => k a
  end.

Notation "x <- m ;; k" := (bind m (fun x => k))
  (at level 61, m at next level, right associativity).

(** The computation ends normally. *)
Definition succeeds {A : Type} (m : Exc A) : bool :=
  match m with
  | inr _ => true
  | inl _ => false
  end.

(** The engine's [TypeError]; its message text is the engine's own and only
    ever shown to the user. *)
Definition TypeError (what : string) : thrown := Thrown ("TypeError: " ++ what).

(** ** JSON values *)

Inductive jsval : Type :=
| JUndefined
| JNull
| JBool (b : bool)
| JNum (n : Z)
| JStr (s : string)
| JArr (elems : list jsval)
| JObj (fields : list (string * jsval)).

Fixpoint lookup (k : string) (fields : list (string * jsval)) : option jsval :=
  match fields with
  | [] => None
  | (k', v) :: rest => if String.eqb k k' then Some v else lookup k rest
  end.

Definition hasOwn (k : string) (fields : list (string * jsval)) : bool :=
  match lookup k fields with Some _ => true | None => false end.

(** [o.k = v] on an object: an own field is overwritten in place, a new one
    goes last. *)
Fixpoint setField (k : string) (v : jsval) (fields : list (string * jsval))
  : list (string * jsval) :=
  match fields with
  | [] => [(k, v)]
  | (k', v') :: rest =>
      if String.eqb k k' then (k, v) :: rest else (k', v') :: setField k v rest
  end.

(** ToBoolean. *)
Definition truthy (v : jsval) : bool :=
  match v with
  | JUndefined | JNull => false
  | JBool b => b
  | JNum n => negb (n =? 0)%Z
  | JStr s => negb (isEmpty s)
  | JArr _ | JObj _ => true
  end.

(** [a || b]. *)
Definition jsOr (a b : jsval) : jsval := if truthy a then a else b.

(** [v.p] for a data property [p]: reading from [undefined] or [null] throws;
    [length] is the one name the source reads that strings and arrays have;
    an object gives its own field; everything else gives [undefined]. *)
Definition getProp (v : jsval) (p : string) : Exc jsval :=
  match v with
  | JUndefined => throw (TypeError ("cannot read properties of undefined, reading " ++ p))
  | JNull => throw (TypeError ("cannot read properties of null, reading " ++ p))
  | JBool _ | JNum _ => ret JUndefined
  | JStr s =>
      if String.eqb p "length" then ret (JNum (Z.of_nat (String.length s)))
      else ret JUndefined
  | JArr l =>
      if String.eqb p "length" then ret (JNum (Z.of_nat (List.length l)))
      else ret JUndefined
  | JObj fs =>
      match lookup p fs with
      | Some x => ret x
      | None => ret JUndefined
      end
  end.

(** [v?.p]. *)
Definition getPropOpt (v : jsval) (p : string) : Exc jsval :=
  match v with
  | JUndefined | JNull => ret JUndefined
  | _ => getProp v p
  end.

(** ToString, as a template literal applies it. An array joins its elements
    with a comma, [null] and [undefined] elements giving the empty string; a
    plain object gives [[object Object]], unless an own field shadows
    [toString], in which case the conversion has no callable method left that
    returns a primitive and throws. *)
Fixpoint toStr (v : jsval) : Exc string :=
  match v with
  | JUndefined => ret "undefined"
  | JNull => ret "null"
  | JBool true => ret "true"
  | JBool false => ret "false"
  | JNum n => ret (Z_to_string n)
  | JStr s => ret s
  | JArr l =>
      let elems :=
        fix elems (l : list jsval) : Exc (list string) :=
          match l with
          | [] => ret []
          | x :: l' =>
              s <- match x with
                   | JUndefined | JNull => ret ""
                   | _ => toStr x
                   end ;;
              ss <- elems l' ;;
              ret (s :: ss)
          end in
      ss <- elems l ;;
      ret (join "," ss)
  | JObj fs =>
      if hasOwn "toString" fs
      then throw (TypeError "cannot convert object to primitive value")
      else ret "[object Object]"
  end.

Definition isDigit (c : ascii) : bool :=
  let n := nat_of_ascii c in ((48 <=? n) && (n <=? 57))%nat.

(** The value of a digit of the radix (at most 16), in either letter case. *)
Definition digitValue (radix : Z) (c : ascii) : option Z :=
  let n := Z.of_nat (nat_of_ascii c) in
  let d := (if (48 <=? n) && (n <=? 57) then n - 48
            else if (97 <=? n) && (n <=? 102) then n - 87
            else if (65 <=? n) && (n <=? 70) then n - 55
            else radix)%Z in
  if (d <? radix)%Z then Some d else None.

Fixpoint digitsValue (radix : Z) (s : string) (acc : Z) : option Z :=
  match s with
  | EmptyString => Some acc
  | String c s' =>
      match digitValue radix c with
      | Some d => digitsValue radix s' (radix * acc + d)%Z
      | None => None
      end
  end.

(** One or more digits of the radix, and nothing else. *)
Definition numeral (radix : Z) (s : string) : option Z :=
  if isEmpty s then None else digitsValue radix s 0.

(** The longest prefix of decimal digits, and what follows it. *)
Fixpoint spanDigits (s : string) : string * string :=
  match s with
  | EmptyString => (EmptyString, EmptyString)
  | String c s' =>
      if isDigit c
      then let (ds, rest) := spanDigits s' in (String c ds, rest)
      else (EmptyString, s)
  end.

(** What a numeric string denotes, before it is rounded to a double: not a
    number, an infinity, or plus or minus [digits] x 10^[exponent] with
    [digits] not negative. *)
Inductive number : Type :=
| NaN
| Infinite (negative : bool)
| Finite (negative : bool) (digits : Z) (exponent : Z).

(** The exponent part that may end a decimal literal: nothing, or [e] or [E]
    and a signed integer. *)
Definition exponentPart (s : string) : option Z :=
  match s with
  | EmptyString => Some 0%Z
  | String c s' =>
      if (Ascii.eqb c "e" || Ascii.eqb c "E")%char
      then match s' with
           | String "+" ds => numeral 10 ds
           | String "-" ds => option_map Z.opp (numeral 10 ds)
           | ds => numeral 10 ds
           end
      else None
  end.

(** StrUnsignedDecimalLiteral: [Infinity], or digits with an optional
    fraction and exponent, or a fraction that starts with the point. *)
Definition unsignedDecimal (negative : bool) (s : string) : number :=
  if String.eqb s "Infinity" then Infinite negative
  else
    let (whole, afterWhole) := spanDigits s in
    let (fraction, afterFraction) :=
      match afterWhole with
      | String "." s' => spanDigits s'
      | _ => (EmptyString, afterWhole)
      end in
    if isEmpty whole && isEmpty fraction then NaN
    else
      match digitsValue 10 (whole ++ fraction) 0, exponentPart afterFraction with
      | Some digits, Some exponent =>
          Finite negative digits (exponent - Z.of_nat (String.length fraction))
      | _, _ => NaN
      end.

Definition nonDecimal (radix : Z) (ds : string) : number :=
  match numeral radix ds with
  | Some digits => Finite false digits 0
  | None => NaN
  end.

(** StringToNumber. White space around the literal is dropped and the empty
    string is 0; a literal is a decimal literal with an optional sign, or an
    unsigned binary, octal or hexadecimal integer with its prefix; anything
    else is [NaN]. *)
Definition stringToNumber (s : string) : number :=
  match trim s with
  | EmptyString => Finite false 0 0
  | String "+" u => unsignedDecimal false u
  | String "-" u => unsignedDecimal true u
  | String "0" (String c ds) =>
      if (Ascii.eqb c "x" || Ascii.eqb c "X")%char then nonDecimal 16 ds
      else if (Ascii.eqb c "o" || Ascii.eqb c "O")%char then nonDecimal 8 ds
      else if (Ascii.eqb c "b" || Ascii.eqb c "B")%char then nonDecimal 2 ds
      else unsignedDecimal false (String "0" (String c ds))
  | u => unsignedDecimal false u
  end.

(** ToNumber. An array or an object goes through its string (see [toStr]). *)
Definition toNumber (v : jsval) : Exc number :=
  match v with
  | JUndefined => ret NaN
  | JNull => ret (Finite false 0 0)
  | JBool b => ret (Finite false (if b then 1 else 0) 0)
  | JNum n => ret (Finite (n <? 0)%Z (Z.abs n) 0)
  | JStr s => ret (stringToNumber s)
  | JArr _ | JObj _ => s <- toStr v ;; ret (stringToNumber s)
  end.

(** Whether the double nearest to the number is above zero: what is not
    above 2^-1075, half the smallest double, rounds to zero. *)
Definition positive (n : number) : bool :=
  match n with
  | NaN => false
  | Infinite negative => negb negative
  | Finite negative digits exponent =>
      negb negative &&
      (if (0 <=? exponent)%Z then (0 <? digits)%Z
       else (10 ^ (- exponent) <? digits * 2 ^ 1075)%Z)
  end.

(** [v > 0]. *)
Definition gt0 (v : jsval) : Exc bool :=
  n <- toNumber v ;;
  ret (positive n).

(** The values that ToString does not throw on: an object must not shadow
    [toString], an array must hold such values. *)
Fixpoint printable (v : jsval) : bool :=
  match v with
  | JArr l => forallb printable l
  | JObj fs => negb (hasOwn "toString" fs)
  | _ => true
  end.

(** [v === s] for a string literal [s]. *)
Definition strictEqStr (v : jsval) (s : string) : bool :=
  match v with
  | JStr t => String.eqb t s
  | _ => false
  end.

(** [a.join(sep)]: only an array has the method. *)
Definition arrayJoin (a : jsval) (sep : string) : Exc string :=
  match a with
  | JArr l =>
      ss <- (fix elems (l : list jsval) : Exc (list string) :=
               match l with
               | [] => ret []
               | x :: l' =>
                   s <- match x with
                        | JUndefined | JNull => ret ""
                        | _ => toStr x
                        end ;;
                   ss <- elems l' ;;
                   ret (s :: ss)
               end) l ;;
      ret (join sep ss)
  | JUndefined | JNull => throw (TypeError "cannot read properties of null or undefined, reading join")
  | _ => throw (TypeError "join is not a function")
  end.

(** ** Markup *)

(** What an [innerHTML] template or [createElement] builds: elements with
    their attributes and children, the interpolated text as it was spliced in
    (markup inside it is not parsed further), and the pretty-printed JSON of
    the generic renderer, kept as the value it prints. White-space text
    between the tags of a template is left out. *)
Inductive node : Type :=
| Text (s : string)
| Elem (tag : string) (attrs : list (string * string)) (children : list node)
| JsonDump (v : jsval).

Definition el (tag cls : string) (children : list node) : node :=
  Elem tag [("class", cls)] children.

Definition el0 (tag : string) (children : list node) : node :=
  Elem tag [] children.

(** ** Data model *)

Record File := mkFile { file_name : string; file_path : string }.

Record Settings := mkSettings {
  settings_serviceUrl : string;
  settings_llmModel : string;
  settings_autoBackup : bool
}.

(** One DOM element of the task pane, by the properties the script touches. *)
Record Element := mkElement {
  value : string;
  checked : bool;
  disabled : bool;
  className : string;
  display : string;           (* style.display *)
  innerHTML : list node       (* also what textContent sets *)
}.

(** The document: every id the script asks for names an element. *)
Definition Document := string -> Element.

(** What [localStorage.getItem] returns for one of the add-in's keys: text
    that [JSON.parse] turns into a value, or text that it rejects (the empty
    string included, which the loaders skip as falsy). A missing key is
    [None]. *)
Inductive stored (A : Type) : Type :=
| Parses (a : A)
| Unparsable.
Arguments Parses {A} a.
Arguments Unparsable {A}.

Record Storage := mkStorage {
  lyncformula_settings : option (stored Settings);
  lyncformula_history : option (stored jsval)
}.

(** An asynchronous handler suspended at an [await], with what its closure
    holds. *)
Inductive task : Type :=
| AwaitContext (query : string)
    (* handleSubmitRequest at [await getCurrentExcelContext()] *)
| AwaitFetch (query : string) (url : string) (body : jsval)
    (* handleSubmitRequest at [await fetch(...)]: the request is on the wire *)
| AwaitJson (query : string)
    (* handleSubmitRequest at [await response.json()] *)
| AwaitHealth (url : string)
    (* checkServiceConnection at [await fetch(.../health)] *)
| AwaitHealthJson.
    (* checkServiceConnection at [await response.json()] *)

(** The module-level variables, the document, local storage, the notifications
    appended to the body, and the suspended handlers. *)
Record App := mkApp {
  serviceUrl : string;
  connectionStatus : string;
  selectedFiles : list File;
  operationHistory : jsval;      (* an array, until [loadHistory] assigns something else *)
  document : Document;
  localStorage : Storage;
  notifications : list string;
  pending : list task
}.

(** ** State updates *)

Definition setValue (v : string) (e : Element) : Element :=
  mkElement v (checked e) (disabled e) (className e) (display e) (innerHTML e).

Definition setChecked (b : bool) (e : Element) : Element :=
  mkElement (value e) b (disabled e) (className e) (display e) (innerHTML e).

Definition setDisabled (b : bool) (e : Element) : Element :=
  mkElement (value e) (checked e) b (className e) (display e) (innerHTML e).

Definition setClassName (c : string) (e : Element) : Element :=
  mkElement (value e) (checked e) (disabled e) c (display e) (innerHTML e).

Definition setDisplay (d : string) (e : Element) : Element :=
  mkElement (value e) (checked e) (disabled e) (className e) d (innerHTML e).

Definition setInnerHTML (h : list node) (e : Element) : Element :=
  mkElement (value e) (checked e) (disabled e) (className e) (display e) h.

Definition setTextContent (s : string) (e : Element) : Element :=
  setInnerHTML [Text s] e.

Definition update (doc : Document) (id : string) (f : Element -> Element) : Document :=
  fun i => if String.eqb i id then f (doc i) else doc i.

Definition with_serviceUrl (u : string) (st : App) : App :=
  mkApp u (connectionStatus st) (selectedFiles st) (operationHistory st)
        (document st) (localStorage st) (notifications st) (pending st).

Definition with_connectionStatus (c : string) (st : App) : App :=
  mkApp (serviceUrl st) c (selectedFiles st) (operationHistory st)
        (document st) (localStorage st) (notifications st) (pending st).

Definition with_selectedFiles (fs : list File) (st : App) : App :=
  mkApp (serviceUrl st) (connectionStatus st) fs (operationHistory st)
        (document st) (localStorage st) (notifications st) (pending st).

Definition with_operationHistory (h : jsval) (st : App) : App :=
  mkApp (serviceUrl st) (connectionStatus st) (selectedFiles st) h
        (document st) (localStorage st) (notifications st) (pending st).

Definition with_document (d : Document) (st : App) : App :=
  mkApp (serviceUrl st) (connectionStatus st) (selectedFiles st) (operationHistory st)
        d (localStorage st) (notifications st) (pending st).

Definition with_localStorage (s : Storage) (st : App) : App :=
  mkApp (serviceUrl st) (connectionStatus st) (selectedFiles st) (operationHistory st)
        (document st) s (notifications st) (pending st).

Definition with_notifications (n : list string) (st : App) : App :=
  mkApp (serviceUrl st) (connectionStatus st) (selectedFiles st) (operationHistory st)
        (document st) (localStorage st) n (pending st).

Definition with_pending (p : list task) (st : App) : App :=
  mkApp (serviceUrl st) (connectionStatus st) (selectedFiles st) (operationHistory st)
        (document st) (localStorage st) (notifications st) p.

(** [document.getElementById(id)]. *)
Definition getElementById (st : App) (id : string) : Element := document st id.

(** [document.getElementById(id).<property> = ...] *)
Definition setEl (id : string) (f : Element -> Element) (st : App) : App :=
  with_document (update (document st) id f) st.

(** ** Small handlers *)

Definition showLoading (show : bool) (st : App) : App :=
  setEl "loading-overlay" (setDisplay (if show then "flex" else "none")) st.

Definition showError (msg : string) (st : App) : App :=
  setEl "results-content"
    (setInnerHTML
       [el "div" "result-item result-error"
          [el "div" "result-header" [el0 "strong" [Text "Error"]];
           el "div" "result-content" [Text msg]]])
    st.

Definition showFileSelection (st : App) : App :=
  setEl "file-selection-section" (setDisplay "block") st.

Definition hideFileSelection (st : App) : App :=
  setEl "file-selection-section" (setDisplay "none") st.

Definition showSettings (st : App) : App :=
  setEl "settings-panel" (setDisplay "block") st.

Definition hideSettings (st : App) : App :=
  setEl "settings-panel" (setDisplay "none") st.

(** The notification is appended to the body; the timer that removes it three
    seconds later is not followed. *)
Definition showNotification (msg : string) (st : App) : App :=
  with_notifications (notifications st ++ [msg]) st.

Definition validateInput (st : App) : App :=
  let input := getElementById st "natural-language-input" in
  let hasInput := (0 <? String.length (trim (value input)))%nat in
  let isConnected := String.eqb (connectionStatus st) "connected" in
  setEl "btn-submit" (setDisabled (negb hasInput || negb isConnected)) st.

(** ** Intent router *)

Definition determineEndpoint (st : App) (query : string) : string :=
  let lowerQuery := toLowerCase query in
  if includes lowerQuery "audit" || includes lowerQuery "check" || includes lowerQuery "analyze"
  then
    if (0 <? List.length (selectedFiles st))%nat || includes lowerQuery "file"
    then "/smart_analysis"
    else "/audit_formulas"
  else if includes lowerQuery "explain" || includes lowerQuery "describe"
  then "/explain_sheet"
  else if includes lowerQuery "consolidate" || includes lowerQuery "merge"
          || includes lowerQuery "combine"
  then "/consolidate_files"
  else if includes lowerQuery "fix" || includes lowerQuery "repair"
  then "/apply_fixes"
  else "/natural_language".

(** ** Excel context *)

Record SheetInfo := mkSheetInfo {
  worksheet_name : string;
  usedRange_address : string;
  usedRange_rowCount : Z;
  usedRange_columnCount : Z
}.

(** What the host does during one [Excel.run] batch, call by call:
    - [queueSheet]: [getActiveWorksheet()], [load('name')], [getUsedRange()],
      [load('address, rowCount, columnCount')];
    - [syncSheet]: the first [await context.sync()] and the reads of the
      loaded properties;
    - [queueSelection]: [getSelectedRange()] and [load('address')];
    - [syncSelection]: the second [await context.sync()] and the read of
      [selectedRange.address].
    [Excel.run] itself calls the batch function it is given. *)
Record HostRun := mkHostRun {
  queueSheet : Exc unit;
  syncSheet : Exc SheetInfo;
  queueSelection : Exc unit;
  syncSelection : Exc string
}.

(** How a promise ends. *)
Inductive settled (A : Type) : Type :=
| Resolved (a : A)
| Rejected (e : thrown)
| NeverSettled.
Arguments Resolved {A} a.
Arguments Rejected {A} e.
Arguments NeverSettled {A}.

(** The selection lookup of the batch: the inner [try] with its empty
    [catch]. *)
Definition trySelection (h : HostRun) (contextInfo : list (string * jsval))
  : list (string * jsval) :=
  match (_ <- queueSelection h ;; syncSelection h) with
  | inr address =>
      setField "hasSelection" (JBool true)
        (setField "selectedRange" (JStr address) contextInfo)
  | inl _ => contextInfo
  end.

(** The batch function passed to [Excel.run]: the values it passes to
    [resolve], in order, and how its own promise ends. *)
Definition excelContextBatch (h : HostRun) : list jsval * Exc unit :=
  let attempt : Exc jsval :=
    _ <- queueSheet h ;;
    info <- syncSheet h ;;
    let contextInfo :=
      [("worksheetName", JStr (worksheet_name info));
       ("usedRange", JStr (usedRange_address info));
       ("rowCount", JNum (usedRange_rowCount info));
       ("columnCount", JNum (usedRange_columnCount info));
       ("hasSelection", JBool false)] in
    ret (JObj (trySelection h contextInfo)) in
  match attempt with
  | inr contextInfo => ([contextInfo], ret tt)
  | inl error =>
      ([JObj [("worksheetName", JStr "Unknown"); ("error", JStr (message error))]],
       ret tt)
  end.

(** [new Promise((resolve) => { Excel.run(batch) })]: the promise takes the
    first value passed to [resolve]; the executor has no [reject], so a batch
    that ended without resolving would leave it pending. *)
Definition getCurrentExcelContext (h : HostRun) : settled jsval :=
  match excelContextBatch h with
  | (v :: _, _) => Resolved v
  | ([], _) => NeverSettled
  end.

(** ** Result renderers *)

(** A renderer works on the children of its container: it leaves them as far
    as it got, and ends normally or by throwing. *)
Definition Render : Type := list node -> list node * Exc unit.

Definition appendChild (n : node) : Render :=
  fun container => (container ++ [n], ret tt).

(** Builds a node (which may throw) and appends it. *)
Definition appendBuilt (n : Exc node) : Render :=
  fun container =>
    match n with
    | inr item => (container ++ [item], ret tt)
    | inl e => (container, throw e)
    end.

Definition andThen (a b : Render) : Render :=
  fun container =>
    match a container with
    | (container', inr _) => b container'
    | (container', inl e) => (container', throw e)
    end.

(** [l.forEach(item => { ...; container.appendChild(...) })] on an array. *)
Fixpoint forEachAppend (build : jsval -> Exc node) (l : list jsval) : Render :=
  match l with
  | [] => fun container => (container, ret tt)
  | x :: l' => andThen (appendBuilt (build x)) (forEachAppend build l')
  end.

(** [a.forEach(...)]: only an array has the method. *)
Definition forEach (a : jsval) (build : jsval -> Exc node) : Render :=
  match a with
  | JArr l => forEachAppend build l
  | _ => fun container => (container, throw (TypeError "forEach is not a function"))
  end.

(** The interpolation [${v.p}]. *)
Definition interp (v : jsval) (p : string) : Exc string :=
  x <- getProp v p ;; toStr x.

(** [a && a.length > 0]. *)
Definition nonEmpty (a : jsval) : Exc bool :=
  if truthy a then (len <- getProp a "length" ;; gt0 len) else ret false.

Definition explanationItem (explanation : jsval) : Exc node :=
  address <- interp explanation "address" ;;
  complexity <- interp explanation "complexity" ;;
  formula <- interp explanation "formula" ;;
  text <- interp explanation "explanation" ;;
  functions <- getProp explanation "functions" ;;
  listed <- nonEmpty functions ;;
  functionsDiv <-
    (if listed
     then (names <- arrayJoin functions ", " ;;
           ret [el "div" "result-functions" [el0 "small" [Text ("Functions: " ++ names)]]])
     else ret []) ;;
  ret (el "div" "result-item result-success"
         ([el "div" "result-header"
             [el0 "strong" [Text (address ++ ":")];
              el "span" "result-complexity" [Text complexity]];
           el "div" "result-formula" [el0 "code" [Text formula]];
           el "div" "result-content" [Text text]]
          ++ functionsDiv)).

Definition showFormulaExplanations (explanations : jsval) : Render :=
  andThen (appendChild (el "h4" "result-title" [Text "Formula Explanations"]))
          (forEach explanations explanationItem).

Definition auditSummary (summary : jsval) : Exc node :=
  total_issues <- getProp summary "total_issues" ;;
  total <- toStr (jsOr total_issues (JNum 0)) ;;
  breakdown <- getProp summary "severity_breakdown" ;;
  high <- getPropOpt breakdown "high" ;;
  highText <- toStr (jsOr high (JNum 0)) ;;
  medium <- getPropOpt breakdown "medium" ;;
  mediumText <- toStr (jsOr medium (JNum 0)) ;;
  low <- getPropOpt breakdown "low" ;;
  lowText <- toStr (jsOr low (JNum 0)) ;;
  ret (el "div" "result-item"
         [el "div" "result-header" [el0 "strong" [Text "Audit Summary"]];
          el "div" "result-content"
            [el0 "p" [Text ("Total Issues: " ++ total)];
             el0 "p" [Text ("High Priority: " ++ highText)];
             el0 "p" [Text ("Medium Priority: " ++ mediumText)];
             el0 "p" [Text ("Low Priority: " ++ lowText)]]]).

Definition severityClass (severity : jsval) : string :=
  if strictEqStr severity "high" then "result-error"
  else if strictEqStr severity "medium" then "result-warning"
  else "result-success".

Definition issueItem (issue : jsval) : Exc node :=
  severity <- getProp issue "severity" ;;
  title <- interp issue "title" ;;
  severityText <- toStr severity ;;
  description <- interp issue "description" ;;
  cell_address <- interp issue "cell_address" ;;
  suggested_fix <- interp issue "suggested_fix" ;;
  ret (el "div" ("result-item " ++ severityClass severity)
         [el "div" "result-header"
            [el0 "strong" [Text title];
             el "span" "severity-badge" [Text severityText]];
          el "div" "result-content"
            [el0 "p" [Text description];
             el0 "p" [el0 "strong" [Text "Cell:"]; Text (" " ++ cell_address)];
             el0 "p" [el0 "strong" [Text "Suggested Fix:"]; Text (" " ++ suggested_fix)]]]).

(** [issues.slice(0, 5).forEach(...)]: an array gives its first five
    elements; a string gives a string, which has no [forEach]; nothing else
    has [slice]. *)
Definition sliceForEach5 (issues : jsval) (build : jsval -> Exc node) : Render :=
  match issues with
  | JArr l => forEachAppend build (firstn 5 l)
  | JStr _ => fun container => (container, throw (TypeError "forEach is not a function"))
  | _ => fun container => (container, throw (TypeError "slice is not a function"))
  end.

(** The last part of [showAuditResults]: the items of the issues. *)
Definition showIssues (result : jsval) : Render :=
  fun container =>
    match (issues <- getProp result "issues" ;;
           some <- nonEmpty issues ;;
           ret (issues, some)) with
    | inl e => (container, throw e)
    | inr (issues, true) => sliceForEach5 issues issueItem container
    | inr (_, false) => (container, ret tt)
    end.

Definition showAuditResults (result : jsval) : Render :=
  fun container =>
    match getProp result "audit_summary" with
    | inl e => (container, throw e)
    | inr audit_summary =>
        let summary := jsOr audit_summary (JObj []) in
        andThen (appendChild (el0 "h4" [Text "Formula Audit Results"]))
          (andThen (appendBuilt (auditSummary summary)) (showIssues result))
          container
    end.

Definition analysisItem (analysis : jsval) : Exc node :=
  has_errors <- getProp analysis "has_errors" ;;
  address <- interp analysis "address" ;;
  confidence <- interp analysis "confidence" ;;
  original_formula <- interp analysis "original_formula" ;;
  explanation <- interp analysis "explanation" ;;
  issuesP <-
    (if truthy has_errors
     then (error_details <- interp analysis "error_details" ;;
           ret [el0 "p" [el0 "strong" [Text "Issues:"]; Text (" " ++ error_details)]])
     else ret []) ;;
  suggestions <- getProp analysis "suggestions" ;;
  suggested <- nonEmpty suggestions ;;
  suggestionsP <-
    (if suggested
     then (joined <- arrayJoin suggestions ", " ;;
           ret [el0 "p" [el0 "strong" [Text "Suggestions:"]; Text (" " ++ joined)]])
     else ret []) ;;
  improved_formula <- getProp analysis "improved_formula" ;;
  improvedP <-
    (if truthy improved_formula
     then (improved <- toStr improved_formula ;;
           ret [el0 "p" [el0 "strong" [Text "Improved Formula:"];
                         el0 "code" [Text improved]]])
     else ret []) ;;
  ret (el "div"
         ("result-item " ++ (if truthy has_errors then "result-error" else "result-success"))
         [el "div" "result-header"
            [el0 "strong" [Text address];
             el "span" "confidence-badge" [Text (confidence ++ "% confidence")]];
          el "div" "result-content"
            ([el0 "p" [el0 "strong" [Text "Formula:"]; el0 "code" [Text original_formula]];
              el0 "p" [el0 "strong" [Text "Analysis:"]; Text (" " ++ explanation)]]
             ++ issuesP ++ suggestionsP ++ improvedP)]).

Definition showSmartAnalysis (analysisResults : jsval) : Render :=
  andThen (appendChild (el0 "h4" [Text "Smart Formula Analysis"]))
          (forEach analysisResults analysisItem).

Definition consolidationItem (result : jsval) : Exc node :=
  consolidated_file <- interp result "consolidated_file" ;;
  rows_merged <- interp result "rows_merged" ;;
  files_processed <- interp result "files_processed" ;;
  ret (el "div" "result-item result-success"
         [el "div" "result-header" [el0 "strong" [Text "File Consolidation Complete"]];
          el "div" "result-content"
            [el0 "p" [el0 "strong" [Text "Output File:"]; Text (" " ++ consolidated_file)];
             el0 "p" [el0 "strong" [Text "Rows Merged:"]; Text (" " ++ rows_merged)];
             el0 "p" [el0 "strong" [Text "Files Processed:"];
                      Text (" " ++ files_processed)]]]).

Definition showConsolidationResults (result : jsval) : Render :=
  appendBuilt (consolidationItem result).

(** [results.map(r => `<li>${r.result || r.action}</li>`)] on an array. *)
Fixpoint resultLines (l : list jsval) : Exc (list node) :=
  match l with
  | [] => ret []
  | r :: l' =>
      first <- getProp r "result" ;;
      shown <- (if truthy first then ret first else getProp r "action") ;;
      line <- toStr shown ;;
      rest <- resultLines l' ;;
      ret (el0 "li" [Text line] :: rest)
  end.

Definition naturalLanguageItem (result : jsval) : Exc node :=
  operation_type <- interp result "operation_type" ;;
  summary <- interp result "summary" ;;
  results <- getProp result "results" ;;
  some <- nonEmpty results ;;
  listing <-
    (if some
     then match results with
          | JArr l => (lines <- resultLines l ;; ret [el0 "ul" lines])
          | _ => throw (TypeError "map is not a function")
          end
     else ret []) ;;
  ret (el "div" "result-item result-success"
         [el "div" "result-header"
            [el0 "strong" [Text (operation_type ++ " Operation Complete")]];
          el "div" "result-content" (el0 "p" [Text summary] :: listing)]).

Definition showNaturalLanguageResults (result : jsval) : Render :=
  appendBuilt (naturalLanguageItem result).

Definition showGenericResults (result : jsval) : Render :=
  appendChild
    (el "div" "result-item"
       [el "div" "result-header" [el0 "strong" [Text "Operation Result"]];
        el "div" "result-content" [el0 "pre" [JsonDump result]]]).

(** The dispatch of [showResults] on the shape of the payload. *)
Definition renderResult (result : jsval) : Render :=
  fun container =>
    match getProp result "explanations" with
    | inl e => (container, throw e)
    | inr explanations =>
    if truthy explanations then showFormulaExplanations explanations container else
    match getProp result "issues" with
    | inl e => (container, throw e)
    | inr issues =>
    if truthy issues then showAuditResults result container else
    match getProp result "analysis_results" with
    | inl e => (container, throw e)
    | inr analysis_results =>
    if truthy analysis_results then showSmartAnalysis analysis_results container else
    match getProp result "consolidated_file" with
    | inl e => (container, throw e)
    | inr consolidated_file =>
    if truthy consolidated_file then showConsolidationResults result container else
    match getProp result "operation_type" with
    | inl e => (container, throw e)
    | inr operation_type =>
    if truthy operation_type then showNaturalLanguageResults result container
    else showGenericResults result container
    end end end end end.

(** [showResults(result, originalQuery)]: the results panel is emptied, then
    filled by the renderer; the state carries whatever was rendered before a
    throw. *)
Definition showResults (result : jsval) (originalQuery : string) (st : App)
  : App * Exc unit :=
  let rendered := renderResult result [] in
  (setEl "results-content" (setInnerHTML (fst rendered)) st, snd rendered).

(** ** Local storage *)

(** [localStorage.setItem] throws when the store refuses the write (quota
    exceeded, storage disabled); the model takes that from the event. *)
Definition setItem_history (accepted : bool) (h : jsval) (s : Storage)
  : Exc Storage :=
  if accepted
  then ret (mkStorage (lyncformula_settings s) (Some (Parses h)))
  else throw (Thrown "QuotaExceededError").

Definition setItem_settings (accepted : bool) (v : Settings) (s : Storage)
  : Exc Storage :=
  if accepted
  then ret (mkStorage (Some (Parses v)) (lyncformula_history s))
  else throw (Thrown "QuotaExceededError").

(** ** Selected files *)

Definition mockFiles : list File :=
  [mkFile "Q1_Sales.xlsx" "C:\Reports\Q1_Sales.xlsx";
   mkFile "Q2_Sales.xlsx" "C:\Reports\Q2_Sales.xlsx";
   mkFile "Budget_2024.xlsx" "C:\Finance\Budget_2024.xlsx"].

(** [selectedFiles.find(f => f.path === file.path)] found something. *)
Definition findByPath (files : list File) (p : string) : bool :=
  existsb (fun f => String.eqb (file_path f) p) files.

(** One round of the [forEach] of [browseFiles]. *)
Definition addIfAbsent (files : list File) (file : File) : list File :=
  if negb (findByPath files (file_path file)) then files ++ [file] else files.

Fixpoint fileItems (index : nat) (files : list File) : list node :=
  match files with
  | [] => []
  | file :: rest =>
      el "div" "file-item"
        [el "div" "file-info"
           [el "div" "file-name" [Text (file_name file)];
            el "div" "file-path" [Text (file_path file)]];
         Elem "div"
           [("class", "file-remove");
            ("onclick", ("removeFile(" ++ nat_to_string index ++ ")")%string)]
           [el "i" "ms-Icon ms-Icon--Cancel" []]]
      :: fileItems (S index) rest
  end.

Definition updateSelectedFilesList (st : App) : App :=
  setEl "selected-files" (setInnerHTML (fileItems 0 (selectedFiles st))) st.

Definition browseFiles (st : App) : App :=
  updateSelectedFilesList
    (with_selectedFiles (fold_left addIfAbsent mockFiles (selectedFiles st)) st).

(** [l.splice(index, 1)]: a negative index counts from the end (and stops at
    the front), an index past the end removes nothing. *)
Definition splice1 {A : Type} (index : Z) (l : list A) : list A :=
  let len := Z.of_nat (List.length l) in
  let start := (if index <? 0 then Z.max (len + index) 0 else Z.min index len)%Z in
  firstn (Z.to_nat start) l ++ skipn (S (Z.to_nat start)) l.

Definition removeFile (index : Z) (st : App) : App :=
  updateSelectedFilesList (with_selectedFiles (splice1 index (selectedFiles st)) st).

(** ** History *)

(** The object that [addToHistory] builds, from the clock readings it
    takes. *)
Definition historyItem (id : Z) (query : string) (result : jsval) (timestamp : string)
  : jsval :=
  JObj [("id", JNum id);               (* Date.now() *)
        ("query", JStr query);
        ("result", result);
        ("timestamp", JStr timestamp)  (* new Date().toLocaleString() *)].

(** The template that [updateHistoryDisplay] fills in for one item. *)
Definition historyEntry (item : jsval) : Exc node :=
  query <- interp item "query" ;;
  timestamp <- interp item "timestamp" ;;
  ret (Elem "div"
         [("class", "history-item");
          ("onclick", ("repeatOperation('" ++ query ++ "')")%string)]
         [el "div" "history-query" [Text query];
          el "div" "history-timestamp" [Text timestamp]]).

(** [items.map(item => `...`)]. *)
Fixpoint historyEntries (items : list jsval) : Exc (list node) :=
  match items with
  | [] => ret []
  | item :: rest =>
      entry <- historyEntry item ;;
      entries <- historyEntries rest ;;
      ret (entry :: entries)
  end.

(** [v === 0]. *)
Definition strictEqZero (v : jsval) : bool :=
  match v with
  | JNum 0 => true
  | _ => false
  end.

(** What [updateHistoryDisplay] assigns to the panel: the placeholder when
    [operationHistory.length === 0], and otherwise the mapped items; only an
    array has [map]. *)
Definition historyMarkup (history : jsval) : Exc (list node) :=
  len <- getProp history "length" ;;
  if strictEqZero len
  then ret [el "p" "ms-fontColor-neutralSecondary" [Text "No operations yet"]]
  else match history with
       | JArr items => historyEntries items
       | _ => throw (TypeError "operationHistory.map is not a function")
       end.

(** [updateHistoryDisplay]: the panel is assigned once the markup is built. *)
Definition updateHistoryDisplay (st : App) : App * Exc unit :=
  match historyMarkup (operationHistory st) with
  | inr markup => (setEl "history-content" (setInnerHTML markup) st, ret tt)
  | inl e => (st, throw e)
  end.

(** [saveHistory]: the write is tried and a failure only logged. *)
Definition saveHistory (accepted : bool) (st : App) : App :=
  match setItem_history accepted (operationHistory st) (localStorage st) with
  | inr s => with_localStorage s st
  | inl _ => st
  end.

(** [addToHistory(query, result)], with the clock readings it takes and
    whether the store accepts the write: [unshift], which only an array has,
    the cut at twenty, the display and the write.  The state is left as far
    as the function got. *)
Definition addToHistory (query : string) (result : jsval)
           (now : Z) (nowText : string) (accepted : bool) (st : App) : App * Exc unit :=
  match operationHistory st with
  | JArr items =>
      let unshifted := historyItem now query result nowText :: items in
      let kept :=
        if (20 <? List.length unshifted)%nat then firstn 20 unshifted else unshifted in
      match updateHistoryDisplay (with_operationHistory (JArr kept) st) with
      | (st1, inr _) => (saveHistory accepted st1, ret tt)
      | (st1, inl e) => (st1, throw e)
      end
  | JUndefined | JNull =>
      (st, throw (TypeError "cannot read properties of null, reading unshift"))
  | _ => (st, throw (TypeError "operationHistory.unshift is not a function"))
  end.

Definition repeatOperation (query : string) (st : App) : App :=
  validateInput (setEl "natural-language-input" (setValue query) st).

(** [clearHistory]; an exception would leave the handler before the write. *)
Definition clearHistory (accepted : bool) (st : App) : App :=
  match updateHistoryDisplay (with_operationHistory (JArr []) st) with
  | (st1, inr _) => saveHistory accepted st1
  | (st1, inl _) => st1
  end.

(** [loadHistory]: whatever the stored text parses to is assigned before the
    display is tried; an exception is only logged. *)
Definition loadHistory (st : App) : App :=
  match lyncformula_history (localStorage st) with
  | Some (Parses h) => fst (updateHistoryDisplay (with_operationHistory h st))
  | Some Unparsable => st
  | None => st
  end.

(** ** Connection monitor *)

(** [checkServiceConnection] up to its [await fetch(...)]. *)
Definition checkServiceConnection (st : App) : App :=
  with_pending (pending st ++ [AwaitHealth (serviceUrl st ++ "/health")]) st.

(** The [catch] block of [checkServiceConnection]. *)
Definition connectionFailed (st : App) : App :=
  setEl "btn-submit" (setDisabled true)
    (setEl "status-text"
       (setTextContent "Service unavailable - Check if Python service is running")
       (setEl "status-indicator" (setClassName "status-indicator error")
          (with_connectionStatus "error" st))).

(** What a [fetch] gives: a rejection, or a response with its status line. *)
Inductive fetched : Type :=
| NetworkError (e : thrown)
| Response (status : Z) (statusText : string).

(** [response.ok]. *)
Definition ok (status : Z) : bool := ((200 <=? status) && (status <=? 299))%Z.

(** [checkServiceConnection] after the body of an ok response was read. *)
Definition connectionChecked (body : Exc jsval) (st : App) : App :=
  match body with
  | inl _ => connectionFailed st
  | inr data =>
      let st1 :=
        setEl "status-indicator" (setClassName "status-indicator connected")
          (with_connectionStatus "connected" st) in
      match (service <- interp data "service" ;;
             version <- interp data "version" ;;
             ret ("Connected to " ++ service ++ " v" ++ version)%string) with
      | inr text => validateInput (setEl "status-text" (setTextContent text) st1)
      | inl _ => connectionFailed st1
      end
  end.

(** ** Settings *)

Definition loadSettings (st : App) : App :=
  match lyncformula_settings (localStorage st) with
  | Some (Parses settings) =>
      let st1 :=
        if negb (isEmpty (settings_serviceUrl settings))
        then setEl "service-url" (setValue (settings_serviceUrl settings))
               (with_serviceUrl (settings_serviceUrl settings) st)
        else st in
      let st2 :=
        if negb (isEmpty (settings_llmModel settings))
        then setEl "llm-model" (setValue (settings_llmModel settings)) st1
        else st1 in
      (* settings.autoBackup !== undefined: the stored object always has it *)
      setEl "auto-backup" (setChecked (settings_autoBackup settings)) st2
  | Some Unparsable => st
  | None => st
  end.

Definition saveSettings (accepted : bool) (st : App) : App :=
  let settings :=
    mkSettings (value (getElementById st "service-url"))
               (value (getElementById st "llm-model"))
               (checked (getElementById st "auto-backup")) in
  match setItem_settings accepted settings (localStorage st) with
  | inr s =>
      showNotification "Settings saved successfully"
        (hideSettings
           (checkServiceConnection
              (with_serviceUrl (settings_serviceUrl settings)
                 (with_localStorage s st))))
  | inl _ => showError "Failed to save settings" st
  end.

(** ** Submit flow *)

(** [handleSubmitRequest] up to its first [await]: the call of
    [getCurrentExcelContext()] is made and the handler suspends on it. *)
Definition handleSubmitRequest (st : App) : App :=
  let input := getElementById st "natural-language-input" in
  let query := trim (value input) in
  if isEmpty query
  then showError "Please enter a request" st
  else with_pending (pending st ++ [AwaitContext query]) (showLoading true st).

(** The [catch] block followed by the [finally] block. *)
Definition requestFailed (error : thrown) (st : App) : App :=
  showLoading false (showError ("Request failed: " ++ message error) st).

Definition fileJson (f : File) : jsval :=
  JObj [("name", JStr (file_name f)); ("path", JStr (file_path f))].

(** From the resolved context to the [await fetch(...)]: the request is built
    from the query captured at the start and from the selected files and the
    service URL as they are now. *)
Definition sendRequest (query : string) (context : jsval) (st : App) : task :=
  let requestData :=
    JObj [("query", JStr query);
          ("files", JArr (map fileJson (selectedFiles st)));
          ("context", context)] in
  let endpoint := determineEndpoint st query in
  AwaitFetch query (serviceUrl st ++ endpoint) requestData.

(** From the settled [fetch] to the [await response.json()], or to the
    [catch]. *)
Definition onResponse (query : string) (r : fetched) (st : App) : App * option task :=
  match r with
  | NetworkError e => (requestFailed e st, None)
  | Response status statusText =>
      if ok status
      then (st, Some (AwaitJson query))
      else (requestFailed
              (Thrown ("HTTP " ++ Z_to_string status ++ ": " ++ statusText)) st,
            None)
  end.

(** From the parsed body to the end of the handler. *)
Definition onResult (query : string) (body : Exc jsval)
           (now : Z) (nowText : string) (accepted : bool) (st : App) : App :=
  match body with
  | inl e => requestFailed e st
  | inr result =>
      match getProp result "success" with
      | inl e => requestFailed e st
      | inr success =>
          if truthy success
          then
            match showResults result query st with
            | (st1, inr _) =>
                match addToHistory query result now nowText accepted st1 with
                | (st2, inr _) =>
                    showLoading false
                      (hideFileSelection
                         (validateInput
                            (setEl "natural-language-input" (setValue "") st2)))
                | (st2, inl e) => requestFailed e st2
                end
            | (st1, inl e) => requestFailed e st1
            end
          else
            match (error <- getProp result "error" ;;
                   toStr (jsOr error (JStr "Operation failed"))) with
            | inr msg => showLoading false (showError msg st)
            | inl e => requestFailed e st
            end
      end
  end.

(** ** Start-up *)

Definition initialApp (doc : Document) (store : Storage) : App :=
  mkApp "http://127.0.0.1:8700" "connecting" [] (JArr []) doc store [] [].

Definition initializeTaskPane (st : App) : App :=
  loadHistory (loadSettings (checkServiceConnection st)).

(** ** Event loop *)

Fixpoint removeAt {A : Type} (i : nat) (l : list A) : list A :=
  match l, i with
  | [], _ => []
  | _ :: l', O => l'
  | x :: l', S i' => x :: removeAt i' l'
  end.

Fixpoint replaceAt {A : Type} (i : nat) (y : A) (l : list A) : list A :=
  match l, i with
  | [], _ => []
  | _ :: l', O => y :: l'
  | x :: l', S i' => x :: replaceAt i' y l'
  end.

(** What the event loop can deliver: the user's actions, the timers, and the
    settling of the promise the [i]-th suspended handler waits for, together
    with what the environment supplies at that moment (the host's answers, the
    response, the clock, whether local storage takes a write).  The help
    button, which only replaces the results panel by a fixed text, is left
    out. *)
Inductive event : Type :=
| ClickSubmit
| ClickAuditSheet
| ClickExplainFormulas
| ClickConsolidateFiles
| ClickBrowseFiles
| ClickRemoveFile (index : Z)
| ClickClearHistory (accepted : bool)
| ClickHistoryItem (query : string)
| ClickSettings
| ClickCloseSettings
| ClickSaveSettings (accepted : bool)
| EditSettings (url model : string) (backup : bool)
| TypeInput (text : string)
| KeyCtrlEnter
| InputMonitorTimer
| HealthTimer
| ContextSettles (i : nat) (h : HostRun)
| FetchSettles (i : nat) (r : fetched)
| JsonSettles (i : nat) (body : Exc jsval) (now : Z) (nowText : string) (accepted : bool).

(** The debounced callback of [setupInputMonitoring]. *)
Definition inputMonitor (st : App) : App :=
  let text := toLowerCase (trim (value (getElementById st "natural-language-input"))) in
  if includes text "file" || includes text "consolidate" || includes text "merge"
  then match selectedFiles st with
       | [] => showFileSelection st
       | _ => st
       end
  else st.

(** One turn of the event loop; [None] when the event cannot happen in this
    state (a click on a disabled button, a promise nobody waits for). *)
Definition step (st : App) (ev : event) : option App :=
  match ev with
  | ClickSubmit =>
      if disabled (getElementById st "btn-submit") then None
      else Some (handleSubmitRequest st)
  | ClickAuditSheet =>
      Some (handleSubmitRequest
              (setEl "natural-language-input"
                 (setValue "Audit all formulas in the current sheet for errors and issues")
                 st))
  | ClickExplainFormulas =>
      Some (handleSubmitRequest
              (setEl "natural-language-input"
                 (setValue "Explain all formulas in the current sheet in plain English")
                 st))
  | ClickConsolidateFiles =>
      Some (showFileSelection
              (setEl "natural-language-input"
                 (setValue "Consolidate multiple Excel files into a single summary report")
                 st))
  | ClickBrowseFiles => Some (browseFiles st)
  | ClickRemoveFile index => Some (removeFile index st)
  | ClickClearHistory accepted => Some (clearHistory accepted st)
  | ClickHistoryItem query => Some (repeatOperation query st)
  | ClickSettings => Some (showSettings st)
  | ClickCloseSettings => Some (hideSettings st)
  | ClickSaveSettings accepted => Some (saveSettings accepted st)
  | EditSettings url model backup =>
      Some (setEl "auto-backup" (setChecked backup)
              (setEl "llm-model" (setValue model)
                 (setEl "service-url" (setValue url) st)))
  | TypeInput text =>
      Some (validateInput (setEl "natural-language-input" (setValue text) st))
  | KeyCtrlEnter => Some (handleSubmitRequest st)
  | InputMonitorTimer => Some (inputMonitor st)
  | HealthTimer => Some (checkServiceConnection st)
  | ContextSettles i h =>
      match nth_error (pending st) i with
      | Some (AwaitContext query) =>
          match getCurrentExcelContext h with
          | Resolved context =>
              Some (with_pending (replaceAt i (sendRequest query context st) (pending st)) st)
          | Rejected e =>
              Some (requestFailed e (with_pending (removeAt i (pending st)) st))
          | NeverSettled => None
          end
      | _ => None
      end
  | FetchSettles i r =>
      match nth_error (pending st) i with
      | Some (AwaitFetch query _ _) =>
          match onResponse query r st with
          | (st1, Some t) => Some (with_pending (replaceAt i t (pending st1)) st1)
          | (st1, None) => Some (with_pending (removeAt i (pending st1)) st1)
          end
      | Some (AwaitHealth _) =>
          match r with
          | NetworkError _ =>
              Some (connectionFailed (with_pending (removeAt i (pending st)) st))
          | Response status _ =>
              if ok status
              then Some (with_pending (replaceAt i AwaitHealthJson (pending st)) st)
              else Some (connectionFailed (with_pending (removeAt i (pending st)) st))
          end
      | _ => None
      end
  | JsonSettles i body now nowText accepted =>
      match nth_error (pending st) i with
      | Some (AwaitJson query) =>
          Some (onResult query body now nowText accepted
                  (with_pending (removeAt i (pending st)) st))
      | Some AwaitHealthJson =>
          Some (connectionChecked body (with_pending (removeAt i (pending st)) st))
      | _ => None
      end
  end.

Fixpoint run (st : App) (evs : list event) : option App :=
  match evs with
  | [] => Some st
  | ev :: rest =>
      match step st ev with
      | Some st' => run st' rest
      | None => None
      end
  end.

(** The main-action requests on the wire: sent, and their handler not yet
    through with the response. *)
Definition isInFlight (t : task) : bool :=
  match t with
  | AwaitFetch _ _ _ | AwaitJson _ => true
  | _ => false
  end.

Definition inFlight (st : App) : nat := List.length (filter isInFlight (pending st)).

Definition loadingShown (st : App) : bool :=
  String.eqb (display (getElementById st "loading-overlay")) "flex".

(** ** Sequences of operations *)

(** One call of [addToHistory] with everything it reads. *)
Record Addition := mkAddition {
  add_query : string;
  add_result : jsval;
  add_now : Z;
  add_nowText : string;
  add_accepted : bool
}.

(** The entry that an addition creates. *)
Definition entryOf (a : Addition) : jsval :=
  historyItem (add_now a) (add_query a) (add_result a) (add_nowText a).

(** The state after one addition, however it ended. *)
Definition added (a : Addition) (st : App) : App :=
  fst (addToHistory (add_query a) (add_result a) (add_now a) (add_nowText a)
                    (add_accepted a) st).

Definition addAll (adds : list Addition) (st : App) : App :=
  fold_left (fun s a => added a s) adds st.

(** A page reload: the script starts again on a fresh document, with its
    variables at their initial values; local storage is what it was. *)
Definition reloadPage (fresh : Document) (st : App) : App :=
  initialApp fresh (localStorage st).

(** The snapshot built from the sheet when no selection could be read. *)
Definition snapshotWithoutSelection (info : SheetInfo) : jsval :=
  JObj [("worksheetName", JStr (worksheet_name info));
        ("usedRange", JStr (usedRange_address info));
        ("rowCount", JNum (usedRange_rowCount info));
        ("columnCount", JNum (usedRange_columnCount info));
        ("hasSelection", JBool false)].

(** The degraded context of the outer [catch]. *)
Definition unknownContext (error : thrown) : jsval :=
  JObj [("worksheetName", JStr "Unknown"); ("error", JStr (message error))].

(** ** What the user sees *)

Definition inputText (st : App) : string :=
  value (getElementById st "natural-language-input").

Definition submitEnabled (st : App) : bool :=
  negb (disabled (getElementById st "btn-submit")).

Definition statusText (st : App) : list node :=
  innerHTML (getElementById st "status-text").

(** The body was read and its [success] field is truthy. *)
Definition reportsSuccess (body : Exc jsval) : bool :=
  match body with
  | inr result =>
      match getProp result "success" with
      | inr success => truthy success
      | inl _ => false
      end
  | inl _ => false
  end.

(** The renderer gets through the body without throwing. *)
Definition rendersCleanly (body : Exc jsval) : bool :=
  match body with
  | inr result =>
      match snd (renderResult result []) with
      | inr _ => true
      | inl _ => false
      end
  | inl _ => false
  end.

(** ** Reading rendered markup *)

(** The text of a node: its text leaves, in document order. *)
Fixpoint textOf (n : node) : string :=
  match n with
  | Text s => s
  | Elem _ _ children =>
      (fix texts (l : list node) : string :=
         match l with
         | [] => ""
         | x :: l' => (textOf x ++ texts l')%string
         end) children
  | JsonDump _ => ""
  end.

(** The [class] attribute of an element. *)
Definition classOf (n : node) : string :=
  match n with
  | Elem _ attrs _ =>
      match find (fun kv => String.eqb (fst kv) "class") attrs with
      | Some (_, cls) => cls
      | None => ""
      end
  | _ => ""
  end.

(** The paragraphs of a panel made of a header and a content block. *)
Definition contentLines (panel : node) : list string :=
  match panel with
  | Elem _ _ [_; Elem _ _ paragraphs] => map textOf paragraphs
  | _ => []
  end.

(** ** Well-shaped payloads *)

Definition primitive (v : jsval) : bool :=
  match v with
  | JArr _ | JObj _ => false
  | _ => true
  end.

(** [o.k], for an object given by its fields. *)
Definition field (k : string) (fields : list (string * jsval)) : jsval :=
  match lookup k fields with
  | Some v => v
  | None => JUndefined
  end.

Definition nullish (v : jsval) : bool :=
  match v with
  | JUndefined | JNull => true
  | _ => false
  end.

Definition isArray (v : jsval) : bool :=
  match v with
  | JArr _ => true
  | _ => false
  end.

(** The elements of an array; nothing else has any. *)
Definition elements (v : jsval) : list jsval :=
  match v with
  | JArr l => l
  | _ => []
  end.

(** [v.p], for a [v] that is neither null nor undefined. *)
Definition propOf (v : jsval) (p : string) : jsval :=
  match getProp v p with
  | inr x => x
  | inl _ => JUndefined
  end.

(** [v?.p]. *)
Definition optPropOf (v : jsval) (p : string) : jsval :=
  match getPropOpt v p with
  | inr x => x
  | inl _ => JUndefined
  end.

(** The interpolation [${v.p}] can be evaluated: [v] is neither null nor
    undefined, and what the property holds can be printed. *)
Definition prints (v : jsval) (p : string) : bool :=
  negb (nullish v) && printable (propOf v p).

(** An issue of which the audit renderer can build the item: it is neither
    null nor undefined, and the five properties that the item shows can be
    printed.  Nothing is asked of any other property. *)
Definition issueShaped (issue : jsval) : bool :=
  prints issue "title" && prints issue "severity" && prints issue "description" &&
  prints issue "cell_address" && prints issue "suggested_fix".

(** [x || 0] can be printed. *)
Definition countPrints (x : jsval) : bool := printable (jsOr x (JNum 0)).

(** A summary of which the audit renderer can build the panel: the four
    counts that the panel shows can be printed. *)
Definition summaryShaped (summary : jsval) : bool :=
  negb (nullish summary) &&
  countPrints (propOf summary "total_issues") &&
  countPrints (optPropOf (propOf summary "severity_breakdown") "high") &&
  countPrints (optPropOf (propOf summary "severity_breakdown") "medium") &&
  countPrints (optPropOf (propOf summary "severity_breakdown") "low").

(** A history item that [updateHistoryDisplay] can show. *)
Definition entryDisplays (item : jsval) : bool :=
  prints item "query" && prints item "timestamp".

(** The histories that take a new entry: arrays (only they have [unshift])
    of which the first nineteen entries, the ones that stay in the list next
    to the new one, can be shown. *)
Definition acceptsEntry (history : jsval) : bool :=
  match history with
  | JArr items => forallb entryDisplays (firstn 19 items)
  | _ => false
  end.

(** What a page reload would assign to the history from local storage. *)
Definition storedHistory (s : Storage) : jsval :=
  match lyncformula_history s with
  | Some (Parses h) => h
  | _ => JArr []
  end.

(** [k] submissions by Ctrl+Enter, the context of each arriving before the
    next key press, and no response arriving; [base] handlers were suspended
    before the first. *)
Fixpoint overlapping (h : HostRun) (base k : nat) : list event :=
  match k with
  | O => []
  | S k' => overlapping h base k' ++ [KeyCtrlEnter; ContextSettles (base + k') h]
  end.

(** No two of the files have the same path. *)
Definition distinctPaths (files : list File) : Prop := NoDup (map file_path files).

(** [item] is what the audit renderer makes of [issue]: the issue is
    rendered, and the item is styled by the issue's severity, "high" as an
    error, "medium" as a warning and anything else as a success. *)
Definition rendersAs (issue : jsval) (item : node) : Prop :=
  issueItem issue = ret item /\
  (propOf issue "severity" = JStr "high" ->
   classOf item = "result-item result-error") /\
  (propOf issue "severity" = JStr "medium" ->
   classOf item = "result-item result-warning") /\
  (propOf issue "severity" <> JStr "high" ->
   propOf issue "severity" <> JStr "medium" ->
   classOf item = "result-item result-success").

(** ** Sample data *)

Definition blankElement : Element := mkElement "" false false "" "" [].

Definition blankDocument : Document := fun _ => blankElement.

Definition emptyStorage : Storage := mkStorage None None.

(** The task pane after start-up on a blank document: the first health check
    is on its way. *)
Definition startedApp : App := initializeTaskPane (initialApp blankDocument emptyStorage).

(** The same with a request typed into the input field. *)
Definition typedApp : App :=
  setEl "natural-language-input" (setValue "Audit my formulas") startedApp.

Definition sampleSheet : SheetInfo := mkSheetInfo "Sheet1" "Sheet1!A1:C10" 10 3.

(** A host that reads the sheet and then fails to read the selection. *)
Definition hostWithoutSelection : HostRun :=
  mkHostRun (ret tt) (ret sampleSheet) (ret tt) (throw (Thrown "no selection")).

Definition sampleIssue (severity cell : string) : jsval :=
  JObj [("title", JStr "Circular reference");
        ("severity", JStr severity);
        ("description", JStr "The formula refers to its own cell");
        ("cell_address", JStr cell);
        ("suggested_fix", JStr "Break the cycle")].

Definition sevenIssues : list jsval :=
  [sampleIssue "high" "A1"; sampleIssue "medium" "A2"; sampleIssue "low" "A3";
   sampleIssue "high" "A4"; sampleIssue "medium" "A5"; sampleIssue "low" "A6";
   sampleIssue "high" "A7"].

(** Seven issues and a summary that counts them. *)
Definition auditFields : list (string * jsval) :=
  [("success", JBool true);
   ("issues", JArr sevenIssues);
   ("audit_summary",
    JObj [("total_issues", JNum 7);
          ("severity_breakdown",
           JObj [("high", JNum 3); ("medium", JNum 2); ("low", JNum 2)])])].

(** Seven issues and no summary. *)
Definition unsummarisedAudit : jsval :=
  JObj [("success", JBool true); ("issues", JArr sevenIssues)].

(** A successful response whose list of explanations holds a null. *)
Definition nullExplanation : jsval :=
  JObj [("success", JBool true); ("explanations", JArr [JNull])].

(** A successful response whose analysis results are an object keyed by
    cell, where the renderer iterates over an array. *)
Definition keyedAnalysis : jsval :=
  JObj [("success", JBool true);
        ("analysis_results",
         JObj [("A1", JObj [("address", JStr "A1"); ("confidence", JNum 90)])])].

(** Twenty-one additions to the history, numbered by their clock reading. *)
Definition sampleAdditions : list Addition :=
  map (fun n => mkAddition "Audit my formulas" (JObj [("success", JBool true)])
                           (Z.of_nat n) "1/1/2025, 12:00:00 PM" true)
      (seq 1 21).

(** [typedApp] after Ctrl+Enter, the context and a 200 response: the
    submission waits for the body (the start-up health check still waits for
    its response). *)
Definition awaitingBody : App :=
  match run typedApp [KeyCtrlEnter;
                      ContextSettles 1 hostWithoutSelection;
                      FetchSettles 1 (Response 200 "OK")] with
  | Some st => st
  | None => typedApp
  end.

(** [typedApp] after a 200 response to the start-up health check: the check
    waits for the body. *)
Definition awaitingHealthBody : App :=
  match run typedApp [FetchSettles 0 (Response 200 "OK")] with
  | Some st => st
  | None => typedApp
  end.

(** A host on which reading the sheet fails at the first sync. *)
Definition hostWithoutSheet : HostRun :=
  mkHostRun (ret tt) (throw (Thrown "The requested resource doesn't exist."))
            (ret tt) (ret "Sheet1!A1").

(** Browsing for files three times with a removal in between. *)
Definition filesSession : list event :=
  [ClickBrowseFiles; ClickBrowseFiles; ClickRemoveFile 1; ClickBrowseFiles].

(** Splits every [match] and [if] of the goal, then computes. *)
Ltac split_cases :=
  repeat match goal with
         | |- context [match ?x with _ => _ end] => destruct x eqn:?
         end;
  try reflexivity; try assumption.

(** ** The router as the specification words it *)

(** Some substring of [text] is [kw] up to letter case (the keywords are in
    lower case). *)
Definition mentions (text kw : string) : Prop :=
  exists a u b, text = (a ++ u ++ b)%string /\ toLowerCase u = kw.

Definition auditLike (text : string) : Prop :=
  mentions text "audit" \/ mentions text "check" \/ mentions text "analyze".

Definition explainLike (text : string) : Prop :=
  mentions text "explain" \/ mentions text "describe".

Definition consolidateLike (text : string) : Prop :=
  mentions text "consolidate" \/ mentions text "merge" \/ mentions text "combine".

Definition fixLike (text : string) : Prop :=
  mentions text "fix" \/ mentions text "repair".

(** First match in the fixed priority order. *)
Inductive routesTo (files : list File) (text : string) : string -> Prop :=
| route_smart_analysis :
    auditLike text -> files <> [] \/ mentions text "file" ->
    routesTo files text "/smart_analysis"
| route_audit_formulas :
    auditLike text -> files = [] -> ~ mentions text "file" ->
    routesTo files text "/audit_formulas"
| route_explain_sheet :
    ~ auditLike text -> explainLike text ->
    routesTo files text "/explain_sheet"
| route_consolidate_files :
    ~ auditLike text -> ~ explainLike text -> consolidateLike text ->
    routesTo files text "/consolidate_files"
| route_apply_fixes :
    ~ auditLike text -> ~ explainLike text -> ~ consolidateLike text -> fixLike text ->
    routesTo files text "/apply_fixes"
| route_natural_language :
    ~ auditLike text -> ~ explainLike text -> ~ consolidateLike text -> ~ fixLike text ->
    routesTo files text "/natural_language".

(** * Further definitions *)

(** Every character of the string is one that [trim] strips. *)
Fixpoint allWhiteSpace (s : string) : bool :=
  match s with
  | EmptyString => true
  | String c s' => isWhiteSpace c && allWhiteSpace s'
  end.

(** The entry of the files panel for the file shown at [index]. *)
Definition fileEntry (index : nat) (file : File) : node :=
  el "div" "file-item"
    [el "div" "file-info"
       [el "div" "file-name" [Text (file_name file)];
        el "div" "file-path" [Text (file_path file)]];
     Elem "div"
       [("class", "file-remove");
        ("onclick", ("removeFile(" ++ nat_to_string index ++ ")")%string)]
       [el "i" "ms-Icon ms-Icon--Cancel" []]].

(** The files panel shows the selected files. *)
Definition filesShown (st : App) : Prop :=
  innerHTML (getElementById st "selected-files") = fileItems 0 (selectedFiles st).

(** The events that write [selectedFiles]. *)
Definition changesFiles (ev : event) : bool :=
  match ev with
  | ClickBrowseFiles | ClickRemoveFile _ => true
  | _ => false
  end.

(** The events with which local storage takes the write of the history, if
    they make one. *)
Definition historyWriteAccepted (ev : event) : bool :=
  match ev with
  | ClickClearHistory accepted => accepted
  | JsonSettles _ _ _ _ accepted => accepted
  | _ => true
  end.

(** The history panel shows the history: it holds the markup that
    [updateHistoryDisplay] builds for the history. *)
Definition historyShown (st : App) : Prop :=
  historyMarkup (operationHistory st) =
  ret (innerHTML (getElementById st "history-content")).

(** The histories to which an addition does one thing or nothing: what is
    not an array is left alone, and an array takes the entry. *)
Definition additionWhole (history : jsval) : bool :=
  negb (isArray history) || acceptsEntry history.

(** The submit button is enabled only while the service is connected and the
    input holds a request. *)
Definition submitConsistent (st : App) : Prop :=
  submitEnabled st = true ->
  connectionStatus st = "connected" /\ trim (inputText st) <> "".

(** An explanation as the renderer expects it: an object whose address,
    complexity, formula and explanation are primitives and whose functions,
    if present, are an array of primitives. *)
Definition explanationShaped (explanation : jsval) : bool :=
  match explanation with
  | JObj fs =>
      primitive (field "address" fs) && primitive (field "complexity" fs) &&
      primitive (field "formula" fs) && primitive (field "explanation" fs) &&
      match field "functions" fs with
      | JUndefined | JNull => true
      | JArr names => forallb primitive names
      | _ => false
      end
  | _ => false
  end.

(** The condition under which [a && a.length > 0 ? f(a) : ''] is evaluated
    without an exception, where [f] calls a method that only arrays have
    ([join], [slice] and [forEach], [map]) and [shaped] says when it goes
    through on an array: a falsy value, a number or [true] has no positive
    length; a string has a positive length unless it is empty; an object has
    the length it gives itself. *)
Definition listedIfAny (shaped : list jsval -> bool) (a : jsval) : bool :=
  match a with
  | JArr l => shaped l
  | JStr s => isEmpty s
  | JObj fs =>
      match gt0 (field "length" fs) with
      | inr false => true
      | _ => false
      end
  | _ => true
  end.

(** The same for [a.join(', ')]. *)
Definition joinsIfAny (a : jsval) : bool := listedIfAny (forallb printable) a.

(** An explanation of which the item can be built. *)
Definition explanationRenders (explanation : jsval) : bool :=
  prints explanation "address" && prints explanation "complexity" &&
  prints explanation "formula" && prints explanation "explanation" &&
  joinsIfAny (propOf explanation "functions").

(** An analysis of which the item can be built. *)
Definition analysisRenders (analysis : jsval) : bool :=
  prints analysis "address" && prints analysis "confidence" &&
  prints analysis "original_formula" && prints analysis "explanation" &&
  (negb (truthy (propOf analysis "has_errors")) || prints analysis "error_details") &&
  joinsIfAny (propOf analysis "suggestions") &&
  (negb (truthy (propOf analysis "improved_formula")) ||
   prints analysis "improved_formula").

(** An element of [results] of which the line can be built: [r.result ||
    r.action] can be printed. *)
Definition lineShaped (r : jsval) : bool :=
  negb (nullish r) && printable (jsOr (propOf r "result") (propOf r "action")).

(** The payloads that [showResults] gets through, by the renderer that the
    payload is dispatched to. *)
Definition renderable (fs : list (string * jsval)) : bool :=
  if truthy (field "explanations" fs) then
    match field "explanations" fs with
    | JArr l => forallb explanationRenders l
    | _ => false
    end
  else if truthy (field "issues" fs) then
    summaryShaped (jsOr (field "audit_summary" fs) (JObj [])) &&
    listedIfAny (fun l => forallb issueShaped (firstn 5 l)) (field "issues" fs)
  else if truthy (field "analysis_results" fs) then
    match field "analysis_results" fs with
    | JArr l => forallb analysisRenders l
    | _ => false
    end
  else if truthy (field "consolidated_file" fs) then
    printable (field "consolidated_file" fs) && printable (field "rows_merged" fs) &&
    printable (field "files_processed" fs)
  else if truthy (field "operation_type" fs) then
    printable (field "operation_type" fs) && printable (field "summary" fs) &&
    listedIfAny (forallb lineShaped) (field "results" fs)
  else true.

(** What the results panel holds. *)
Definition resultsShown (st : App) : list node :=
  innerHTML (getElementById st "results-content").

(** The error panel of [showError], read back from the results panel: one
    item of class result-error whose content is the message. *)
Definition errorShown (st : App) (msg : string) : Prop :=
  exists header,
    resultsShown st =
      [el "div" "result-item result-error" [header; el "div" "result-content" [Text msg]]].

(** A response that does not get as far as its body. *)
Definition refused (r : fetched) : bool :=
  match r with
  | NetworkError _ => true
  | Response status _ => negb (ok status)
  end.

(** The [style.display] of the file-selection section. *)
Definition fileSectionDisplay (st : App) : string :=
  display (getElementById st "file-selection-section").

(** * Properties *)

(** ** Strings *)

Lemma prefix_app (p s : string) :
  String.prefix p s = true <-> exists post, s = (p ++ post)%string.
Proof.
  revert s; induction p as [|c p IH]; intros s.
  - destruct s; simpl; split; eauto.
  - destruct s as [|d s]; simpl.
    + split; [discriminate | intros [post H]; discriminate].
    + destruct (ascii_dec c d) as [->|ne].
      * rewrite IH. split; intros [post H]; exists post.
        -- now rewrite H.
        -- now inversion H.
      * split; [discriminate | intros [post H]; inversion H; congruence].
Qed.

Lemma includes_app (s kw : string) :
  includes s kw = true <-> exists pre post, s = (pre ++ kw ++ post)%string.
Proof.
  induction s as [|c s IH]; cbn [includes].
  - rewrite orb_false_r, prefix_app. split.
    + intros [post H]; exists "", post; exact H.
    + intros [pre [post H]]. destruct pre; simpl in H; [eauto | discriminate].
  - rewrite orb_true_iff, prefix_app, IH. split.
    + intros [[post H] | [pre [post H]]].
      * exists "", post; exact H.
      * exists (String c pre), post; simpl; now rewrite H.
    + intros [pre [post H]]. destruct pre as [|d pre]; simpl in H.
      * left; eauto.
      * right; exists pre, post; now inversion H.
Qed.

Lemma toLowerCase_app (a b : string) :
  toLowerCase (a ++ b) = (toLowerCase a ++ toLowerCase b)%string.
Proof.
  induction a as [|c a IH]; simpl; [reflexivity | now rewrite IH].
Qed.

Lemma toLowerCase_split (s x y : string) :
  toLowerCase s = (x ++ y)%string ->
  exists a b, s = (a ++ b)%string /\ toLowerCase a = x /\ toLowerCase b = y.
Proof.
  revert s; induction x as [|c x IH]; intros s H.
  - exists "", s; simpl; auto.
  - destruct s as [|d s]; simpl in H; [discriminate |].
    inversion H as [[Hc Hs]].
    destruct (IH s Hs) as [a [b [-> [Ha Hb]]]].
    exists (String d a), b; simpl; rewrite Ha, Hb; auto.
Qed.

(** The search of the router, [lowerQuery.includes(kw)], is the
    case-insensitive substring test. *)
Lemma mentions_includes (text kw : string) :
  mentions text kw <-> includes (toLowerCase text) kw = true.
Proof.
  rewrite includes_app. split.
  - intros [a [u [b [-> <-]]]].
    exists (toLowerCase a), (toLowerCase b).
    now rewrite !toLowerCase_app.
  - intros [pre [post H]].
    destruct (toLowerCase_split _ _ _ H) as [a [r [-> [_ Hr]]]].
    destruct (toLowerCase_split _ _ _ Hr) as [u [b [-> [Hu _]]]].
    exists a, u, b; auto.
Qed.

Lemma not_mentions_includes (text kw : string) :
  ~ mentions text kw <-> includes (toLowerCase text) kw = false.
Proof.
  rewrite mentions_includes. destruct (includes _ _); split; congruence.
Qed.

(** ** Values *)

Lemma succeeds_ret {A : Type} (m : Exc A) :
  succeeds m = true <-> exists a, m = ret a.
Proof.
  destruct m as [e | a]; cbn; split; try discriminate; eauto.
  intros [a' H]. discriminate.
Qed.

Lemma succeeds_bind2 {A B C : Type} (m1 : Exc A) (m2 : Exc B) (f : A -> B -> C) :
  succeeds (a <- m1 ;; b <- m2 ;; ret (f a b)) = succeeds m1 && succeeds m2.
Proof.
  destruct m1, m2; reflexivity.
Qed.

(** ToString throws exactly on the values that are not printable. *)
Lemma toStr_printable : forall v : jsval, succeeds (toStr v) = printable v.
Proof.
  fix IH 1. intros [| | [|] | n | s | l | fs]; try reflexivity.
  - cbn [toStr printable].
    match goal with
    | |- succeeds (bind (?elems l) _) = _ =>
        assert (H : succeeds (elems l) = forallb printable l)
    end.
    { induction l as [|x l IHl]; [reflexivity |].
      cbn [forallb]. rewrite <- IHl, <- (IH x). cbv beta iota fix.
      rewrite succeeds_bind2. f_equal. destruct x; reflexivity. }
    match goal with
    | |- succeeds (bind ?m _) = _ => destruct m; exact H
    end.
  - cbn [toStr printable]. destruct (hasOwn "toString" fs); reflexivity.
Qed.

Lemma getProp_propOf (v : jsval) (p : string) :
  nullish v = false -> getProp v p = ret (propOf v p).
Proof.
  unfold propOf. destruct v; try discriminate; intros _;
    destruct (getProp _ p) eqn:E; try reflexivity; cbn in E.
  - discriminate.
  - discriminate.
  - destruct (String.eqb p "length"); discriminate.
  - destruct (String.eqb p "length"); discriminate.
  - destruct (lookup p fields); discriminate.
Qed.

Lemma getPropOpt_optPropOf (v : jsval) (p : string) :
  getPropOpt v p = ret (optPropOf v p).
Proof.
  unfold optPropOf. destruct v; try reflexivity; cbn [getPropOpt getProp].
  - destruct (String.eqb p "length"); reflexivity.
  - destruct (String.eqb p "length"); reflexivity.
  - destruct (lookup p fields); reflexivity.
Qed.

(** The interpolation [${v.p}] is evaluated exactly when [v] is neither null
    nor undefined and the property can be printed. *)
Lemma interp_prints (v : jsval) (p : string) :
  succeeds (interp v p) = prints v p.
Proof.
  unfold interp, prints. destruct (nullish v) eqn:N.
  - destruct v; try discriminate; reflexivity.
  - rewrite (getProp_propOf v p N). cbn [bind ret negb andb]. apply toStr_printable.
Qed.

Lemma interp_propOf (v : jsval) (p : string) :
  nullish v = false -> interp v p = toStr (propOf v p).
Proof.
  intros N. unfold interp. now rewrite (getProp_propOf v p N).
Qed.

(** ** Intent router *)

Section Router.

Variable st : App.
Variable text : string.

Let has (kw : string) : bool := includes (toLowerCase text) kw.

Lemma auditLike_bool :
  auditLike text <-> has "audit" || has "check" || has "analyze" = true.
Proof.
  unfold auditLike, has. rewrite !orb_true_iff, !mentions_includes. tauto.
Qed.

Lemma explainLike_bool :
  explainLike text <-> has "explain" || has "describe" = true.
Proof.
  unfold explainLike, has. rewrite !orb_true_iff, !mentions_includes. tauto.
Qed.

Lemma consolidateLike_bool :
  consolidateLike text <-> has "consolidate" || has "merge" || has "combine" = true.
Proof.
  unfold consolidateLike, has. rewrite !orb_true_iff, !mentions_includes. tauto.
Qed.

Lemma fixLike_bool :
  fixLike text <-> has "fix" || has "repair" = true.
Proof.
  unfold fixLike, has. rewrite !orb_true_iff, !mentions_includes. tauto.
Qed.

Lemma files_bool :
  selectedFiles st <> [] \/ mentions text "file" <->
  (0 <? List.length (selectedFiles st))%nat || has "file" = true.
Proof.
  unfold has. rewrite orb_true_iff, mentions_includes.
  destruct (selectedFiles st) as [|f fs]; cbn [List.length Nat.ltb Nat.leb].
  - split.
    + intros [H | H]; [now elim H | right; exact H].
    + intros [H | H]; [discriminate | right; exact H].
  - split; intros _; left; [reflexivity | discriminate].
Qed.

(** The router picks a route the specification allows. *)
Lemma determineEndpoint_sound :
  routesTo (selectedFiles st) text (determineEndpoint st text).
Proof.
  unfold determineEndpoint. fold (has "audit") (has "check") (has "analyze")
    (has "file") (has "explain") (has "describe") (has "consolidate")
    (has "merge") (has "combine") (has "fix") (has "repair").
  destruct (has "audit" || has "check" || has "analyze") eqn:Ha.
  - apply auditLike_bool in Ha.
    destruct ((0 <? List.length (selectedFiles st))%nat || has "file") eqn:Hf.
    + apply route_smart_analysis; [exact Ha | now apply files_bool].
    + assert (Hn : ~ (selectedFiles st <> [] \/ mentions text "file"))
        by (rewrite files_bool; congruence).
      apply route_audit_formulas; [exact Ha | | tauto].
      destruct (selectedFiles st); [reflexivity | exfalso; apply Hn; left; discriminate].
  - assert (Na : ~ auditLike text) by (rewrite auditLike_bool; congruence).
    destruct (has "explain" || has "describe") eqn:He.
    { apply route_explain_sheet; [exact Na | now apply explainLike_bool]. }
    assert (Ne : ~ explainLike text) by (rewrite explainLike_bool; congruence).
    destruct (has "consolidate" || has "merge" || has "combine") eqn:Hc.
    { apply route_consolidate_files; auto. now apply consolidateLike_bool. }
    assert (Nc : ~ consolidateLike text) by (rewrite consolidateLike_bool; congruence).
    destruct (has "fix" || has "repair") eqn:Hx.
    { apply route_apply_fixes; auto. now apply fixLike_bool. }
    apply route_natural_language; auto.
    rewrite fixLike_bool; congruence.
Qed.

(** The specification's routes exclude one another. *)
Lemma routesTo_functional (files : list File) (e1 e2 : string) :
  routesTo files text e1 -> routesTo files text e2 -> e1 = e2.
Proof.
  intros H1 H2; destruct H1; destruct H2; try reflexivity; tauto.
Qed.

End Router.

(** C1. For every input text and every selected-files list, the endpoint that
    [determineEndpoint] returns is the one the first-match, case-insensitive
    keyword search in the fixed priority order prescribes, and no other.  In
    particular a text that mentions "audit" and not "file" goes to
    /audit_formulas when no file is selected, and a text that mentions "audit"
    goes to /smart_analysis when at least one file is selected. *)
Theorem determineEndpoint_first_match (st : App) (text : string) :
  (forall endpoint,
     routesTo (selectedFiles st) text endpoint <-> determineEndpoint st text = endpoint) /\
  (mentions text "audit" -> ~ mentions text "file" -> selectedFiles st = [] ->
   determineEndpoint st text = "/audit_formulas") /\
  (mentions text "audit" -> selectedFiles st <> [] ->
   determineEndpoint st text = "/smart_analysis").
Proof.
  assert (Hiff : forall endpoint,
     routesTo (selectedFiles st) text endpoint <-> determineEndpoint st text = endpoint).
  { intros endpoint; split.
    - intros H. eapply routesTo_functional; [apply determineEndpoint_sound | exact H].
    - intros <-. apply determineEndpoint_sound. }
  split; [exact Hiff | split].
  - intros Ha Hf Hs. apply Hiff.
    apply route_audit_formulas; [left; exact Ha | exact Hs | exact Hf].
  - intros Ha Hs. apply Hiff.
    apply route_smart_analysis; [left; exact Ha | left; exact Hs].
Qed.

(** The two cases of C1 on "Audit my formulas": no file selected, and the
    mock files selected. *)
Lemma determineEndpoint_first_match_witness :
  determineEndpoint typedApp "Audit my formulas" = "/audit_formulas" /\
  determineEndpoint (browseFiles typedApp) "Audit my formulas" = "/smart_analysis".
Proof.
  split.
  - destruct (determineEndpoint_first_match typedApp "Audit my formulas") as [_ [H _]].
    apply H.
    + apply mentions_includes. reflexivity.
    + apply not_mentions_includes. reflexivity.
    + reflexivity.
  - destruct (determineEndpoint_first_match (browseFiles typedApp) "Audit my formulas")
      as [_ [_ H]].
    apply H.
    + apply mentions_includes. reflexivity.
    + cbn. discriminate.
Defined.


(** ** History *)

Lemma historyEntry_displays (item : jsval) :
  succeeds (historyEntry item) = entryDisplays item.
Proof.
  unfold historyEntry, entryDisplays. rewrite <- !interp_prints.
  destruct (interp item "query"), (interp item "timestamp"); reflexivity.
Qed.

Lemma historyEntries_displays (items : list jsval) :
  succeeds (historyEntries items) = forallb entryDisplays items.
Proof.
  induction items as [|item items IH]; [reflexivity |].
  cbn [historyEntries forallb]. rewrite <- IH, <- historyEntry_displays.
  apply (succeeds_bind2 (historyEntry item) (historyEntries items) cons).
Qed.

Lemma historyMarkup_nonempty (item : jsval) (items : list jsval) :
  historyMarkup (JArr (item :: items)) = historyEntries (item :: items).
Proof.
  reflexivity.
Qed.

(** The item that [addToHistory] builds can be shown. *)
Lemma historyItem_displays (now : Z) (query : string) (result : jsval) (nowText : string) :
  entryDisplays (historyItem now query result nowText) = true.
Proof.
  reflexivity.
Qed.


Lemma operationHistory_saveHistory (accepted : bool) (st : App) :
  operationHistory (saveHistory accepted st) = operationHistory st.
Proof.
  unfold saveHistory. destruct accepted; reflexivity.
Qed.

Lemma firstn_cons_firstn {A : Type} (n : nat) (x : A) (l : list A) :
  firstn n (x :: firstn n l) = firstn n (x :: l).
Proof.
  destruct n as [|n]; [reflexivity |].
  rewrite !firstn_cons. f_equal. rewrite firstn_firstn. f_equal. lia.
Qed.

(** The list after [unshift] and the cut at twenty. *)
Lemma kept_firstn {A : Type} (x : A) (l : list A) :
  (if (20 <? List.length (x :: l))%nat then firstn 20 (x :: l) else x :: l) =
  firstn 20 (x :: l).
Proof.
  destruct (20 <? _)%nat eqn:E; [reflexivity |].
  apply Nat.ltb_ge in E. symmetry. now apply firstn_all2.
Qed.

(** One addition to a history that is an array: the new entry goes first and
    the list is cut at twenty; then the panel and the store follow if the
    first nineteen of the old entries can be shown, and otherwise the
    function throws with the new list in memory. *)
Lemma addToHistory_array
      (query : string) (result : jsval) (now : Z) (nowText : string)
      (accepted : bool) (st : App) (items : list jsval) :
  operationHistory st = JArr items ->
  let kept := JArr (firstn 20 (historyItem now query result nowText :: items)) in
  (forallb entryDisplays (firstn 19 items) = true ->
   exists markup,
     historyMarkup kept = ret markup /\
     addToHistory query result now nowText accepted st =
       (saveHistory accepted
          (setEl "history-content" (setInnerHTML markup) (with_operationHistory kept st)),
        ret tt)) /\
  (forallb entryDisplays (firstn 19 items) = false ->
   exists e,
     addToHistory query result now nowText accepted st =
       (with_operationHistory kept st, throw e)).
Proof.
  intros Hitems kept.
  assert (Hshown : succeeds (historyMarkup kept) = forallb entryDisplays (firstn 19 items)).
  { unfold kept. rewrite firstn_cons, historyMarkup_nonempty, historyEntries_displays.
    cbn [forallb]. now rewrite historyItem_displays. }
  assert (Hadd : addToHistory query result now nowText accepted st =
                 match historyMarkup kept with
                 | inr markup =>
                     (saveHistory accepted
                        (setEl "history-content" (setInnerHTML markup)
                           (with_operationHistory kept st)), ret tt)
                 | inl e => (with_operationHistory kept st, throw e)
                 end).
  { unfold addToHistory, updateHistoryDisplay. rewrite Hitems, kept_firstn.
    cbn [operationHistory with_operationHistory]. fold kept.
    destruct (historyMarkup kept); reflexivity. }
  rewrite Hadd. split; intros Hall; rewrite Hall in Hshown.
  - destruct (historyMarkup kept) as [e | markup]; [discriminate |].
    exists markup. split; reflexivity.
  - destruct (historyMarkup kept) as [e | markup]; [| discriminate].
    exists e. reflexivity.
Qed.

(** One addition to a history that is not an array: [unshift] throws and
    nothing has changed. *)
Lemma addToHistory_other
      (query : string) (result : jsval) (now : Z) (nowText : string)
      (accepted : bool) (st : App) :
  isArray (operationHistory st) = false ->
  exists e, addToHistory query result now nowText accepted st = (st, throw e).
Proof.
  unfold addToHistory. destruct (operationHistory st); try discriminate;
    intros _; eexists; reflexivity.
Qed.

(** Whether an addition goes through. *)
Lemma addToHistory_succeeds
      (query : string) (result : jsval) (now : Z) (nowText : string)
      (accepted : bool) (st : App) :
  succeeds (snd (addToHistory query result now nowText accepted st)) =
  acceptsEntry (operationHistory st).
Proof.
  destruct (operationHistory st) as [| | b | n | s | items | fs] eqn:E;
    try (destruct (addToHistory_other query result now nowText accepted st) as [e ->];
         [now rewrite E | reflexivity]).
  destruct (addToHistory_array query result now nowText accepted st items E) as [Hok Hbad].
  cbn [acceptsEntry].
  destruct (forallb entryDisplays (firstn 19 items)).
  - destruct (Hok eq_refl) as [markup [_ ->]]. reflexivity.
  - destruct (Hbad eq_refl) as [e ->]. reflexivity.
Qed.

(** What an addition leaves in memory. *)
Lemma operationHistory_addToHistory
      (query : string) (result : jsval) (now : Z) (nowText : string)
      (accepted : bool) (st : App) :
  operationHistory (fst (addToHistory query result now nowText accepted st)) =
  match operationHistory st with
  | JArr items => JArr (firstn 20 (historyItem now query result nowText :: items))
  | other => other
  end.
Proof.
  destruct (operationHistory st) as [| | b | n | s | items | fs] eqn:E;
    try (destruct (addToHistory_other query result now nowText accepted st) as [e ->];
         [now rewrite E | exact E]).
  destruct (addToHistory_array query result now nowText accepted st items E) as [Hok Hbad].
  destruct (forallb entryDisplays (firstn 19 items)).
  - destruct (Hok eq_refl) as [markup [_ ->]]. cbn [fst].
    now rewrite operationHistory_saveHistory.
  - destruct (Hbad eq_refl) as [e ->]. reflexivity.
Qed.

Lemma addAll_snoc (adds : list Addition) (a : Addition) (st : App) :
  addAll (adds ++ [a]) st = added a (addAll adds st).
Proof.
  unfold addAll. now rewrite fold_left_app.
Qed.

Lemma entryOf_displays (adds : list Addition) :
  forallb entryDisplays (map entryOf adds) = true.
Proof.
  induction adds as [|a adds IH]; [reflexivity | exact IH].
Qed.

Lemma forallb_firstn {A : Type} (p : A -> bool) (n : nat) (l : list A) :
  forallb p l = true -> forallb p (firstn n l) = true.
Proof.
  revert n; induction l as [|x l IH]; intros [|n]; cbn [firstn forallb];
    try reflexivity.
  rewrite !andb_true_iff. intros [Hx Hl]. split; [exact Hx | now apply IH].
Qed.

Lemma forallb_same {A : Type} (p q : A -> bool) (l : list A) :
  (forall x, p x = q x) -> forallb p l = forallb q l.
Proof.
  intros Hpq. induction l as [|x l IH]; [reflexivity |].
  cbn [forallb]. now rewrite Hpq, IH.
Qed.

Lemma forallb_rev {A : Type} (p : A -> bool) (l : list A) :
  forallb p l = true -> forallb p (rev l) = true.
Proof.
  rewrite !forallb_forall. intros Hall x Hx. apply Hall. now apply in_rev.
Qed.

Lemma addAll_history (adds : list Addition) (st : App) :
  operationHistory st = JArr [] ->
  operationHistory (addAll adds st) = JArr (firstn 20 (rev (map entryOf adds))).
Proof.
  intros Hempty. induction adds as [|a adds IH] using rev_ind.
  - exact Hempty.
  - rewrite addAll_snoc. unfold added. rewrite operationHistory_addToHistory, IH.
    rewrite map_app, rev_app_distr. cbn [map rev app].
    f_equal. apply firstn_cons_firstn.
Qed.

(** C2. Starting from an empty history, after any sequence of additions the
    history holds the additions newest first, cut at twenty entries: it never
    has more than twenty, every addition goes through and puts its entry at
    the front, and after twenty-one additions it is exactly the last twenty,
    newest first, so the first-added entry is gone. *)
Theorem history_capped_newest_first (st : App) (adds : list Addition) :
  operationHistory st = JArr [] ->
  operationHistory (addAll adds st) = JArr (firstn 20 (rev (map entryOf adds))) /\
  (List.length (elements (operationHistory (addAll adds st))) <= 20)%nat /\
  (forall a,
      snd (addToHistory (add_query a) (add_result a) (add_now a) (add_nowText a)
                        (add_accepted a) (addAll adds st)) = ret tt /\
      hd_error (elements (operationHistory (addAll (adds ++ [a]) st))) =
        Some (entryOf a)) /\
  (forall first rest,
      adds = first :: rest -> List.length rest = 20%nat ->
      operationHistory (addAll adds st) = JArr (rev (map entryOf rest)) /\
      (~ In (entryOf first) (map entryOf rest) ->
       ~ In (entryOf first) (elements (operationHistory (addAll adds st))))).
Proof.
  intros Hempty.
  pose proof (addAll_history adds st Hempty) as Hh.
  split; [exact Hh | split; [| split]].
  - rewrite Hh. apply firstn_le_length.
  - intros a. split.
    + pose proof (addToHistory_succeeds (add_query a) (add_result a) (add_now a)
                    (add_nowText a) (add_accepted a) (addAll adds st)) as Hok.
      rewrite Hh in Hok. cbn [acceptsEntry] in Hok.
      rewrite (forallb_firstn entryDisplays 19 _
                 (forallb_firstn entryDisplays 20 _
                    (forallb_rev entryDisplays _ (entryOf_displays adds)))) in Hok.
      destruct (snd (addToHistory _ _ _ _ _ _)) as [e | []]; [discriminate | reflexivity].
    + rewrite (addAll_history _ _ Hempty).
      rewrite map_app, rev_app_distr. reflexivity.
  - intros first rest -> Hlen.
    assert (Hcut : operationHistory (addAll (first :: rest) st) =
                   JArr (rev (map entryOf rest))).
    { rewrite Hh. cbn [map rev]. f_equal.
      rewrite firstn_app.
      replace (20 - List.length (rev (map entryOf rest)))%nat with 0%nat
        by (rewrite length_rev, length_map; lia).
      rewrite firstn_O, app_nil_r.
      apply firstn_all2. rewrite length_rev, length_map. lia. }
    split; [exact Hcut |].
    intros Hnew Hin. apply Hnew. rewrite Hcut in Hin. cbn [elements] in Hin.
    now apply in_rev in Hin.
Qed.

(** Twenty-one additions: the history holds the ones read at clock 21 down
    to 2. *)
Lemma history_capped_newest_first_witness :
  operationHistory typedApp = JArr [] /\
  map (fun item => propOf item "id")
      (elements (operationHistory (addAll sampleAdditions typedApp))) =
  map (fun n => JNum (Z.of_nat n)) (rev (seq 2 20)).
Proof.
  split; [reflexivity |].
  destruct (history_capped_newest_first typedApp sampleAdditions eq_refl) as [H _].
  rewrite H. reflexivity.
Defined.


(** ** Selected files *)

Lemma findByPath_In (files : list File) (p : string) :
  findByPath files p = false -> ~ In p (map file_path files).
Proof.
  unfold findByPath. induction files as [|f files IH]; cbn [existsb map In].
  - tauto.
  - rewrite orb_false_iff. intros [Hf Hrest] [Heq | Hin].
    + rewrite Heq, String.eqb_refl in Hf. discriminate.
    + now apply IH.
Qed.

Lemma addIfAbsent_distinct (files : list File) (file : File) :
  distinctPaths files -> distinctPaths (addIfAbsent files file).
Proof.
  unfold distinctPaths, addIfAbsent. intros Hnd.
  destruct (findByPath files (file_path file)) eqn:E; cbn [negb]; [exact Hnd |].
  rewrite map_app. cbn [map].
  apply NoDup_app; [exact Hnd | apply NoDup_cons; [intros [] | constructor] |].
  intros p Hin [<- | []]. now apply (findByPath_In _ _ E).
Qed.

Lemma addAllAbsent_distinct (added files : list File) :
  distinctPaths files -> distinctPaths (fold_left addIfAbsent added files).
Proof.
  revert files; induction added as [|file added IH]; intros files Hnd; cbn [fold_left].
  - exact Hnd.
  - apply IH. now apply addIfAbsent_distinct.
Qed.

Lemma skipn_S_tl {A : Type} (k : nat) (l : list A) :
  skipn (S k) l = tl (skipn k l).
Proof.
  revert k; induction l as [|x l IH]; intros k.
  - destruct k; reflexivity.
  - destruct k as [|k]; [reflexivity | exact (IH k)].
Qed.

Lemma removeNth_distinct (k : nat) (files : list File) :
  distinctPaths files -> distinctPaths (firstn k files ++ skipn (S k) files).
Proof.
  unfold distinctPaths. intros Hnd.
  rewrite <- (firstn_skipn k files) in Hnd.
  rewrite skipn_S_tl. destruct (skipn k files) as [|x rest]; cbn [tl].
  - exact Hnd.
  - rewrite map_app in *. cbn [map] in Hnd. now apply NoDup_remove_1 in Hnd.
Qed.

Lemma splice1_distinct (index : Z) (files : list File) :
  distinctPaths files -> distinctPaths (splice1 index files).
Proof.
  unfold splice1. apply removeNth_distinct.
Qed.

Lemma selectedFiles_addToHistory query result now nowText accepted st :
  selectedFiles (fst (addToHistory query result now nowText accepted st)) = selectedFiles st.
Proof.
  unfold addToHistory, saveHistory, setItem_history, updateHistoryDisplay.
  destruct (operationHistory st); try reflexivity.
  destruct (historyMarkup _); [reflexivity |]. destruct accepted; reflexivity.
Qed.

Lemma selectedFiles_clearHistory accepted st :
  selectedFiles (clearHistory accepted st) = selectedFiles st.
Proof.
  unfold clearHistory, saveHistory, setItem_history, updateHistoryDisplay.
  destruct (historyMarkup _); [reflexivity |]. destruct accepted; reflexivity.
Qed.

Lemma selectedFiles_loadHistory st :
  selectedFiles (loadHistory st) = selectedFiles st.
Proof.
  unfold loadHistory, updateHistoryDisplay.
  destruct (lyncformula_history (localStorage st)) as [[h |] |]; try reflexivity.
  destruct (historyMarkup _); reflexivity.
Qed.

Lemma selectedFiles_onResult query body now nowText accepted st :
  selectedFiles (onResult query body now nowText accepted st) = selectedFiles st.
Proof.
  unfold onResult, showResults.
  destruct body as [e | result]; [reflexivity |].
  destruct (getProp result "success") as [e | success]; [reflexivity |].
  destruct (truthy success).
  - destruct (snd (renderResult result [])) as [e | u]; [reflexivity |].
    pose proof (selectedFiles_addToHistory query result now nowText accepted
                  (setEl "results-content" (setInnerHTML (fst (renderResult result []))) st))
      as H.
    destruct (addToHistory _ _ _ _ _ _) as [st2 [e | u']]; exact H.
  - destruct (error <- getProp result "error" ;; toStr (jsOr error (JStr "Operation failed")));
      reflexivity.
Qed.

Lemma selectedFiles_connectionChecked body st :
  selectedFiles (connectionChecked body st) = selectedFiles st.
Proof.
  unfold connectionChecked. split_cases.
Qed.

(** What one turn of the event loop does to the selected files: only the
    file browser and the remove button change them. *)
Lemma step_selectedFiles (st st' : App) (ev : event) :
  step st ev = Some st' ->
  selectedFiles st' =
  match ev with
  | ClickBrowseFiles => fold_left addIfAbsent mockFiles (selectedFiles st)
  | ClickRemoveFile index => splice1 index (selectedFiles st)
  | _ => selectedFiles st
  end.
Proof.
  destruct ev; cbn [step]; intros H;
    try (injection H as <-; reflexivity).
  - destruct (disabled _); [discriminate | injection H as <-].
    unfold handleSubmitRequest; split_cases.
  - injection H as <-. apply selectedFiles_clearHistory.
  - injection H as <-. unfold saveSettings, setItem_settings; split_cases.
  - injection H as <-. unfold handleSubmitRequest; split_cases.
  - injection H as <-. unfold inputMonitor; split_cases.
  - destruct (nth_error _ _) as [[]|]; try discriminate.
    destruct (getCurrentExcelContext h); try discriminate;
      injection H as <-; reflexivity.
  - destruct (nth_error _ _) as [[]|]; try discriminate.
    + unfold onResponse in H. destruct r as [e | status statusText].
      * injection H as <-; reflexivity.
      * destruct (ok status); injection H as <-; reflexivity.
    + destruct r as [e | status statusText].
      * injection H as <-; reflexivity.
      * destruct (ok status); injection H as <-; reflexivity.
  - destruct (nth_error _ _) as [[]|]; try discriminate; injection H as <-.
    + cbn [selectedFiles]. rewrite selectedFiles_onResult. reflexivity.
    + rewrite selectedFiles_connectionChecked. reflexivity.
Qed.

Lemma step_distinct (st st' : App) (ev : event) :
  step st ev = Some st' ->
  distinctPaths (selectedFiles st) -> distinctPaths (selectedFiles st').
Proof.
  intros Hstep Hnd. rewrite (step_selectedFiles _ _ _ Hstep).
  destruct ev; try exact Hnd.
  - now apply addAllAbsent_distinct.
  - now apply splice1_distinct.
Qed.

Lemma run_distinct (evs : list event) (st st' : App) :
  run st evs = Some st' ->
  distinctPaths (selectedFiles st) -> distinctPaths (selectedFiles st').
Proof.
  revert st; induction evs as [|ev evs IH]; intros st; cbn [run].
  - intros [= <-]; auto.
  - destruct (step st ev) as [st1|] eqn:Hstep; [| discriminate].
    intros Hrun Hnd. apply (IH st1 Hrun). now apply (step_distinct st st1 ev).
Qed.

(** C6. In every state the task pane reaches from start-up, whatever the
    user and the environment do (browsing for files and removing files
    included, in any number and order), the selected files are a list of
    name/path records in which no path occurs twice. *)
Theorem selectedFiles_distinct_paths
        (doc : Document) (store : Storage) (evs : list event) (st : App) :
  run (initializeTaskPane (initialApp doc store)) evs = Some st ->
  NoDup (map file_path (selectedFiles st)).
Proof.
  intros Hrun. apply (run_distinct evs _ st Hrun).
  unfold distinctPaths.
  replace (selectedFiles (initializeTaskPane (initialApp doc store))) with (@nil File).
  - constructor.
  - unfold initializeTaskPane. rewrite selectedFiles_loadHistory.
    unfold loadSettings. split_cases.
Qed.

(** A session at the file browser ends with the three mock files, once
    each. *)
Lemma selectedFiles_distinct_paths_witness :
  exists st,
    run startedApp filesSession = Some st /\
    List.length (selectedFiles st) = 3%nat /\
    NoDup (map file_path (selectedFiles st)).
Proof.
  eexists. split; [reflexivity | split; [reflexivity |]].
  apply (selectedFiles_distinct_paths blankDocument emptyStorage filesSession).
  reflexivity.
Defined.


(** ** Excel context *)

Lemma excelContextBatch_resolves_once (h : HostRun) :
  exists context, excelContextBatch h = ([context], ret tt).
Proof.
  unfold excelContextBatch.
  destruct (queueSheet h) as [e | u]; cbn [bind]; [eexists; reflexivity |].
  destruct (syncSheet h) as [e | info]; cbn [bind]; eexists; reflexivity.
Qed.

Lemma getCurrentExcelContext_resolves (h : HostRun) :
  exists context, getCurrentExcelContext h = Resolved context.
Proof.
  unfold getCurrentExcelContext.
  destruct (excelContextBatch_resolves_once h) as [context ->]. eauto.
Qed.

(** When the context arrives, the suspended submission goes on to send its
    request: the context's content never takes it to the [catch]. *)
Lemma step_context_proceeds (st : App) (i : nat) (query : string)
      (h : HostRun) (context : jsval) :
  nth_error (pending st) i = Some (AwaitContext query) ->
  getCurrentExcelContext h = Resolved context ->
  step st (ContextSettles i h) =
  Some (with_pending (replaceAt i (sendRequest query context st) (pending st)) st).
Proof.
  intros Hi Hc. cbn [step]. now rewrite Hi, Hc.
Qed.

(** C9. When the current-selection lookup fails (queueing it, or the sync
    that follows), the failure is swallowed: the context still resolves, to
    the snapshot of the sheet with hasSelection false and no selectedRange
    field, and the submission that waits for it goes on to send its request
    with that snapshot instead of reporting an error. *)
Theorem selection_failure_swallowed
        (h : HostRun) (info : SheetInfo) (e : thrown) :
  queueSheet h = ret tt ->
  syncSheet h = ret info ->
  queueSelection h = throw e \/ syncSelection h = throw e ->
  getCurrentExcelContext h = Resolved (snapshotWithoutSelection info) /\
  getProp (snapshotWithoutSelection info) "hasSelection" = ret (JBool false) /\
  (forall fields, snapshotWithoutSelection info = JObj fields ->
                  hasOwn "selectedRange" fields = false) /\
  (forall st i query,
      nth_error (pending st) i = Some (AwaitContext query) ->
      step st (ContextSettles i h) =
      Some (with_pending
              (replaceAt i (sendRequest query (snapshotWithoutSelection info) st)
                         (pending st))
              st)).
Proof.
  intros Hq Hs Hsel.
  assert (Hctx : getCurrentExcelContext h = Resolved (snapshotWithoutSelection info)).
  { unfold getCurrentExcelContext, excelContextBatch, trySelection.
    rewrite Hq, Hs. cbn [bind ret].
    destruct Hsel as [Hsel | Hsel].
    - rewrite Hsel. reflexivity.
    - rewrite Hsel. destruct (queueSelection h); reflexivity. }
  split; [exact Hctx | split; [reflexivity | split]].
  - intros fields [= <-]. reflexivity.
  - intros st i query Hi. now apply step_context_proceeds.
Qed.

(** A host that reads the sheet and not the selection. *)
Lemma selection_failure_swallowed_witness :
  getCurrentExcelContext hostWithoutSelection =
  Resolved (snapshotWithoutSelection sampleSheet).
Proof.
  exact (proj1 (selection_failure_swallowed
                  hostWithoutSelection sampleSheet (Thrown "no selection")
                  eq_refl eq_refl (or_intror eq_refl))).
Defined.


(** C10. Whatever the host calls of the batch do, [getCurrentExcelContext]
    resolves, with an object, and never rejects or stays pending; when
    reading the worksheet or its used range fails it resolves with
    {worksheetName: "Unknown", error: <message>}; and the submission that
    waits for the context always goes on to send its request. *)
Theorem getCurrentExcelContext_always_resolves (h : HostRun) :
  (exists fields, getCurrentExcelContext h = Resolved (JObj fields)) /\
  (forall e, queueSheet h = throw e \/
             (queueSheet h = ret tt /\ syncSheet h = throw e) ->
             getCurrentExcelContext h = Resolved (unknownContext e)) /\
  (forall st i query,
      nth_error (pending st) i = Some (AwaitContext query) ->
      exists context,
        step st (ContextSettles i h) =
        Some (with_pending (replaceAt i (sendRequest query context st) (pending st)) st)).
Proof.
  split; [| split].
  - unfold getCurrentExcelContext, excelContextBatch.
    destruct (queueSheet h) as [e | u]; cbn [bind]; [eexists; reflexivity |].
    destruct (syncSheet h) as [e | info]; cbn [bind ret]; eexists; reflexivity.
  - intros e [Hq | [Hq Hs]];
      unfold getCurrentExcelContext, excelContextBatch.
    + rewrite Hq. reflexivity.
    + rewrite Hq, Hs. reflexivity.
  - intros st i query Hi.
    destruct (getCurrentExcelContext_resolves h) as [context Hc].
    exists context. now apply step_context_proceeds.
Qed.

(** A host on which the first sync fails. *)
Lemma getCurrentExcelContext_always_resolves_witness :
  getCurrentExcelContext hostWithoutSheet =
  Resolved (JObj [("worksheetName", JStr "Unknown");
                  ("error", JStr "The requested resource doesn't exist.")]).
Proof.
  destruct (getCurrentExcelContext_always_resolves hostWithoutSheet) as [_ [H _]].
  apply (H (Thrown "The requested resource doesn't exist.")).
  right. split; reflexivity.
Defined.


(** ** Settings *)

Lemma serviceUrl_loadHistory (st : App) :
  serviceUrl (loadHistory st) = serviceUrl st.
Proof.
  unfold loadHistory, updateHistoryDisplay. split_cases.
Qed.

Lemma settings_elements_loadHistory (st : App) (id : string) :
  String.eqb id "history-content" = false ->
  getElementById (loadHistory st) id = getElementById st id.
Proof.
  intros Hid.
  unfold loadHistory, updateHistoryDisplay, getElementById, setEl, update.
  split_cases; cbn; now rewrite Hid.
Qed.

(** Saving and loading again, for any settings whose two text fields are not
    empty (an empty one is skipped by the loader as falsy). *)
Lemma save_then_load (url model : string) (backup : bool) (st : App) (fresh : Document) :
  url <> "" -> model <> "" ->
  let edited :=
    setEl "auto-backup" (setChecked backup)
      (setEl "llm-model" (setValue model)
         (setEl "service-url" (setValue url) st)) in
  let saved := saveSettings true edited in
  let reloaded := loadSettings (reloadPage fresh saved) in
  lyncformula_settings (localStorage saved) = Some (Parses (mkSettings url model backup)) /\
  serviceUrl saved = url /\
  serviceUrl reloaded = url /\
  value (getElementById reloaded "service-url") = url /\
  value (getElementById reloaded "llm-model") = model /\
  checked (getElementById reloaded "auto-backup") = backup.
Proof.
  intros Hurl Hmodel.
  destruct url as [|c url]; [congruence |].
  destruct model as [|d model]; [congruence |].
  repeat split.
Qed.

(** C5. Saving the settings {serviceUrl: "http://x", llmModel: "m",
    autoBackup: true} and then loading settings again, in the same page or
    when the task pane starts on a reloaded page, restores the three fields
    to the same values and makes "http://x" the service URL that later
    requests and health checks are sent to. *)
Theorem settings_round_trip (st : App) (fresh : Document) :
  let edited :=
    setEl "auto-backup" (setChecked true)
      (setEl "llm-model" (setValue "m")
         (setEl "service-url" (setValue "http://x") st)) in
  let saved := saveSettings true edited in
  let restarted := initializeTaskPane (reloadPage fresh saved) in
  run st [EditSettings "http://x" "m" true; ClickSaveSettings true] = Some saved /\
  lyncformula_settings (localStorage saved) = Some (Parses (mkSettings "http://x" "m" true)) /\
  (value (getElementById (loadSettings saved) "service-url") = "http://x" /\
   value (getElementById (loadSettings saved) "llm-model") = "m" /\
   checked (getElementById (loadSettings saved) "auto-backup") = true /\
   serviceUrl (loadSettings saved) = "http://x") /\
  (value (getElementById restarted "service-url") = "http://x" /\
   value (getElementById restarted "llm-model") = "m" /\
   checked (getElementById restarted "auto-backup") = true /\
   serviceUrl restarted = "http://x") /\
  (forall query context,
      exists body,
        sendRequest query context restarted =
        AwaitFetch query ("http://x" ++ determineEndpoint restarted query) body) /\
  (exists before,
      pending (checkServiceConnection restarted) = before ++ [AwaitHealth "http://x/health"]).
Proof.
  intros edited saved restarted.
  assert (Hstored : lyncformula_settings (localStorage saved) =
                    Some (Parses (mkSettings "http://x" "m" true))) by reflexivity.
  assert (Hrestart : restarted =
                     loadHistory (loadSettings (checkServiceConnection (reloadPage fresh saved))))
    by reflexivity.
  split; [reflexivity | split; [exact Hstored | split; [| split; [| split]]]].
  - repeat split.
  - rewrite Hrestart, serviceUrl_loadHistory,
      !settings_elements_loadHistory by reflexivity.
    repeat split.
  - intros query context. eexists.
    unfold sendRequest. rewrite Hrestart, serviceUrl_loadHistory. reflexivity.
  - unfold checkServiceConnection at 1. cbn [pending with_pending].
    rewrite Hrestart, serviceUrl_loadHistory. eexists. reflexivity.
Qed.

(** Saved from the started task pane, restored on a blank document. *)
Lemma settings_round_trip_witness :
  let saved :=
    saveSettings true
      (setEl "auto-backup" (setChecked true)
         (setEl "llm-model" (setValue "m")
            (setEl "service-url" (setValue "http://x") startedApp))) in
  let restarted := initializeTaskPane (reloadPage blankDocument saved) in
  serviceUrl (initialApp blankDocument emptyStorage) = "http://127.0.0.1:8700" /\
  value (getElementById restarted "service-url") = "http://x" /\
  value (getElementById restarted "llm-model") = "m" /\
  checked (getElementById restarted "auto-backup") = true /\
  serviceUrl restarted = "http://x".
Proof.
  split; [reflexivity |].
  exact (proj1 (proj2 (proj2 (proj2 (settings_round_trip startedApp blankDocument))))).
Defined.


(** ** Connection monitor *)

Lemma hasInput_nonempty (s : string) :
  (0 <? String.length s)%nat = true <-> s <> "".
Proof.
  destruct s; cbn; split; congruence.
Qed.

(** [validateInput] enables the submit button exactly when the task pane is
    connected and the trimmed input is not empty. *)
Lemma validateInput_enabled (st : App) :
  submitEnabled (validateInput st) = true <->
  connectionStatus st = "connected" /\ trim (inputText st) <> "".
Proof.
  unfold submitEnabled, validateInput, inputText, getElementById, setEl.
  cbn [document with_document update String.eqb Ascii.eqb Bool.eqb disabled setDisabled].
  rewrite negb_true_iff, orb_false_iff, !negb_false_iff.
  rewrite hasInput_nonempty, String.eqb_eq. tauto.
Qed.

Lemma connectionFailed_error (st : App) :
  connectionStatus (connectionFailed st) = "error" /\
  submitEnabled (connectionFailed st) = false.
Proof.
  split; reflexivity.
Qed.

(** A body that was read and whose [service] and [version] can be spliced
    into the status line. *)
Lemma connectionChecked_connected (st : App) (data : jsval) (service version : string) :
  interp data "service" = ret service ->
  interp data "version" = ret version ->
  connectionStatus (connectionChecked (ret data) st) = "connected" /\
  statusText (connectionChecked (ret data) st) =
    [Text ("Connected to " ++ service ++ " v" ++ version)] /\
  (submitEnabled (connectionChecked (ret data) st) = true <->
   trim (inputText st) <> "").
Proof.
  intros Hs Hv. unfold connectionChecked, ret. rewrite Hs. cbn [bind ret].
  rewrite Hv. cbn [bind ret].
  split; [reflexivity | split; [reflexivity |]].
  rewrite validateInput_enabled. split.
  - intros [_ H]. exact H.
  - intros H. split; [reflexivity | exact H].
Qed.

(** A body that could not be read, or from which the status line cannot be
    built: the [catch] block runs. *)
Lemma connectionChecked_failed (st : App) (body : Exc jsval) :
  (forall data, body = ret data ->
     exists e, (service <- interp data "service" ;;
                version <- interp data "version" ;;
                ret ("Connected to " ++ service ++ " v" ++ version)%string) = throw e) ->
  connectionStatus (connectionChecked body st) = "error" /\
  submitEnabled (connectionChecked body st) = false.
Proof.
  intros Hbad. unfold connectionChecked.
  destruct body as [e | data]; [split; reflexivity |].
  destruct (Hbad data eq_refl) as [e ->]. split; reflexivity.
Qed.

(** C8 (amended). A health check sets the status to "connected" on a 2xx
    response whose body is read as JSON from which the status line can be
    built (any JSON value but null, with printable service and version): the
    status text is then "Connected to <service> v<version>" (exactly
    "Connected to X v1.0" for {service: "X", version: "1.0"}), and the submit
    control is enabled exactly when the trimmed input is not empty.  On a
    network error, a non-2xx response, an unreadable body or a null body, the
    status is "error" and the submit control is disabled.  [validateInput]
    enables the submit control exactly when the status is connected and the
    trimmed input is not empty. *)
Theorem health_check_status (st : App) (i : nat) :
  (forall url r,
      nth_error (pending st) i = Some (AwaitHealth url) ->
      match r with
      | NetworkError _ => True
      | Response status _ => ok status = false
      end ->
      exists st', step st (FetchSettles i r) = Some st' /\
                  connectionStatus st' = "error" /\ submitEnabled st' = false) /\
  (forall url status statusText,
      nth_error (pending st) i = Some (AwaitHealth url) ->
      ok status = true ->
      step st (FetchSettles i (Response status statusText)) =
      Some (with_pending (replaceAt i AwaitHealthJson (pending st)) st)) /\
  (forall body now nowText accepted,
      nth_error (pending st) i = Some AwaitHealthJson ->
      exists st',
        step st (JsonSettles i body now nowText accepted) = Some st' /\
        (forall data service version,
            body = ret data ->
            interp data "service" = ret service ->
            interp data "version" = ret version ->
            connectionStatus st' = "connected" /\
            statusText st' = [Text ("Connected to " ++ service ++ " v" ++ version)] /\
            (submitEnabled st' = true <-> trim (inputText st) <> "")) /\
        (body = ret (JObj [("service", JStr "X"); ("version", JStr "1.0")]) ->
         statusText st' = [Text "Connected to X v1.0"]) /\
        ((exists e, body = throw e) \/ body = ret JNull ->
         connectionStatus st' = "error" /\ submitEnabled st' = false)) /\
  (submitEnabled (validateInput st) = true <->
   connectionStatus st = "connected" /\ trim (inputText st) <> "").
Proof.
  split; [| split; [| split]].
  - intros url r Hi Hr. cbn [step]. rewrite Hi.
    destruct r as [e | status statusText].
    + eexists; split; [reflexivity | apply connectionFailed_error].
    + rewrite Hr. eexists; split; [reflexivity | apply connectionFailed_error].
  - intros url status statusText Hi Hok. cbn [step]. now rewrite Hi, Hok.
  - intros body now nowText accepted Hi. cbn [step]. rewrite Hi.
    eexists; split; [reflexivity | split; [| split]].
    + intros data service version -> Hs Hv.
      exact (connectionChecked_connected
               (with_pending (removeAt i (pending st)) st) data service version Hs Hv).
    + intros ->. reflexivity.
    + intros Hbad. apply connectionChecked_failed.
      intros data Hdata. destruct Hbad as [[e ->] | ->].
      * discriminate.
      * injection Hdata as <-. eexists; reflexivity.
  - apply validateInput_enabled.
Qed.

(** The body {service: "X", version: "1.0"} with a request typed in. *)
Lemma health_check_status_witness :
  nth_error (pending awaitingHealthBody) 0 = Some AwaitHealthJson /\
  exists st',
    step awaitingHealthBody
         (JsonSettles 0 (ret (JObj [("service", JStr "X"); ("version", JStr "1.0")]))
                      0 "" true) = Some st' /\
    connectionStatus st' = "connected" /\
    statusText st' = [Text "Connected to X v1.0"] /\
    submitEnabled st' = true.
Proof.
  split; [reflexivity |].
  destruct (health_check_status awaitingHealthBody 0) as [_ [_ [H _]]].
  destruct (H (ret (JObj [("service", JStr "X"); ("version", JStr "1.0")]))
              0%Z "" true eq_refl) as [st' [Hstep [Hconnected _]]].
  exists st'. split; [exact Hstep |].
  destruct (Hconnected _ "X" "1.0" eq_refl eq_refl eq_refl) as [Hstatus [Htext Henabled]].
  split; [exact Hstatus | split; [exact Htext |]].
  apply Henabled. cbn. discriminate.
Defined.


(** Against C8 as stated: a health check answered by a 200 response whose
    body is not JSON, or is the JSON null, ends with the status "error". *)
Lemma health_check_unreadable_body :
  ok 200 = true /\
  option_map connectionStatus
    (run startedApp
         [FetchSettles 0 (Response 200 "OK");
          JsonSettles 0 (throw (Thrown "SyntaxError: Unexpected token <")) 0 "" true]) =
    Some "error" /\
  option_map connectionStatus
    (run startedApp
         [FetchSettles 0 (Response 200 "OK"); JsonSettles 0 (ret JNull) 0 "" true]) =
    Some "error".
Proof.
  repeat split.
Qed.

(** The start-up health check answered by {service: "X", version: "1.0"},
    with a request typed in: connected, and the submit control enabled. *)
Example health_check_connected :
  option_map (fun st => (connectionStatus st, statusText st, submitEnabled st))
    (run typedApp
         [FetchSettles 0 (Response 200 "OK");
          JsonSettles 0 (ret (JObj [("service", JStr "X"); ("version", JStr "1.0")]))
                      0 "" true]) =
    Some ("connected", [Text "Connected to X v1.0"], true).
Proof.
  reflexivity.
Qed.



(** ** Submit flow: how a submission ends *)

Lemma requestFailed_keeps (e : thrown) (st : App) :
  inputText (requestFailed e st) = inputText st /\
  operationHistory (requestFailed e st) = operationHistory st.
Proof.
  split; reflexivity.
Qed.

(** The three ways [addToHistory] goes. *)
Lemma addToHistory_cases
      (query : string) (result : jsval) (now : Z) (nowText : string)
      (accepted : bool) (st : App) :
  (isArray (operationHistory st) = false /\
   exists e, addToHistory query result now nowText accepted st = (st, throw e)) \/
  (exists items,
      operationHistory st = JArr items /\
      let kept := JArr (firstn 20 (historyItem now query result nowText :: items)) in
      (forallb entryDisplays (firstn 19 items) = true /\
       exists markup,
         historyMarkup kept = ret markup /\
         addToHistory query result now nowText accepted st =
           (saveHistory accepted
              (setEl "history-content" (setInnerHTML markup)
                 (with_operationHistory kept st)),
            ret tt)) \/
      (forallb entryDisplays (firstn 19 items) = false /\
       exists e,
         addToHistory query result now nowText accepted st =
           (with_operationHistory kept st, throw e))).
Proof.
  destruct (isArray (operationHistory st)) eqn:Harray.
  - right. destruct (operationHistory st) as [| | | | | items |] eqn:E; try discriminate.
    exists items. split; [reflexivity |]. intros kept.
    destruct (addToHistory_array query result now nowText accepted st items E) as [Hok Hbad].
    destruct (forallb entryDisplays (firstn 19 items)).
    + left. split; [reflexivity | exact (Hok eq_refl)].
    + right. split; [reflexivity | exact (Hbad eq_refl)].
  - left. split; [reflexivity |]. now apply addToHistory_other.
Qed.

(** [onResult] on a body that reports success and is rendered: what is left
    is the addition to the history. *)
Lemma onResult_rendered
      (query : string) (result : jsval) (now : Z) (nowText : string)
      (accepted : bool) (st : App) :
  reportsSuccess (ret result) = true ->
  rendersCleanly (ret result) = true ->
  onResult query (ret result) now nowText accepted st =
  match addToHistory query result now nowText accepted
          (setEl "results-content" (setInnerHTML (fst (renderResult result []))) st) with
  | (st2, inr _) =>
      showLoading false
        (hideFileSelection
           (validateInput (setEl "natural-language-input" (setValue "") st2)))
  | (st2, inl e) => requestFailed e st2
  end.
Proof.
  unfold reportsSuccess, rendersCleanly, onResult, showResults, ret.
  destruct (getProp result "success") as [e | success]; [discriminate |].
  intros ->. destruct (snd (renderResult result [])) as [e | u]; [discriminate |].
  reflexivity.
Qed.

(** However a submission ends, the overlay is hidden and the suspended
    handlers are as they were. *)
Lemma onResult_ends (query : string) (body : Exc jsval) (now : Z) (nowText : string)
      (accepted : bool) (st : App) :
  loadingShown (onResult query body now nowText accepted st) = false /\
  pending (onResult query body now nowText accepted st) = pending st.
Proof.
  destruct (reportsSuccess body && rendersCleanly body) eqn:Hok.
  - apply andb_true_iff in Hok as [Hreported Hrendered].
    destruct body as [e | result]; [discriminate |].
    pose proof (onResult_rendered query result now nowText accepted st Hreported Hrendered)
      as Hrun.
    unfold ret in Hrun. rewrite Hrun. clear Hrun.
    destruct (addToHistory_cases query result now nowText accepted
                (setEl "results-content" (setInnerHTML (fst (renderResult result []))) st))
      as [[_ [e ->]] | [items [_ [[_ [markup [_ ->]]] | [_ [e ->]]]]]];
      try (split; reflexivity).
    unfold saveHistory, setItem_history. destruct accepted; split; reflexivity.
  - unfold reportsSuccess, rendersCleanly in Hok. unfold onResult, showResults.
    destruct body as [e | result]; [split; reflexivity |].
    destruct (getProp result "success") as [e | success]; [split; reflexivity |].
    destruct (truthy success); cbn [andb] in Hok.
    + destruct (snd (renderResult result [])) as [e | u];
        [split; reflexivity | discriminate].
    + destruct (error <- getProp result "error" ;;
                toStr (jsOr error (JStr "Operation failed"))); split; reflexivity.
Qed.

(** The elements that the end of a submission may write to are the results
    and history panels, the input field, the submit button, the file section
    and the overlay. *)
Lemma onResult_elements (query : string) (body : Exc jsval) (now : Z) (nowText : string)
      (accepted : bool) (st : App) (id : string) :
  String.eqb id "results-content" = false ->
  String.eqb id "history-content" = false ->
  String.eqb id "natural-language-input" = false ->
  String.eqb id "btn-submit" = false ->
  String.eqb id "file-selection-section" = false ->
  String.eqb id "loading-overlay" = false ->
  getElementById (onResult query body now nowText accepted st) id = getElementById st id.
Proof.
  intros H1 H2 H3 H4 H5 H6.
  assert (Hfailed : forall e st0,
             getElementById st0 id = getElementById st id ->
             getElementById (requestFailed e st0) id = getElementById st id).
  { intros e st0 <-. unfold requestFailed, showLoading, showError, getElementById, setEl, update.
    cbn [document with_document]. now rewrite H1, H6. }
  assert (Hshown : forall f,
             getElementById (setEl "results-content" f st) id = getElementById st id).
  { intros f. unfold getElementById, setEl, update. cbn [document with_document].
    now rewrite H1. }
  destruct (reportsSuccess body && rendersCleanly body) eqn:Hok.
  - apply andb_true_iff in Hok as [Hreported Hrendered].
    destruct body as [e | result]; [discriminate |].
    pose proof (onResult_rendered query result now nowText accepted st Hreported Hrendered)
      as Hrun.
    unfold ret in Hrun. rewrite Hrun. clear Hrun.
    destruct (addToHistory_cases query result now nowText accepted
                (setEl "results-content" (setInnerHTML (fst (renderResult result []))) st))
      as [[_ [e ->]] | [items [_ [[_ [markup [_ ->]]] | [_ [e ->]]]]]].
    + apply Hfailed, Hshown.
    + unfold saveHistory, setItem_history, showLoading, hideFileSelection, validateInput,
        getElementById, setEl, update.
      destruct accepted; cbn [document with_document with_localStorage with_operationHistory
                                bind ret throw];
        now rewrite H1, H2, H3, H4, H5, H6.
    + apply Hfailed. unfold getElementById, setEl, update.
      cbn [document with_document with_operationHistory]. now rewrite H1.
  - unfold reportsSuccess, rendersCleanly in Hok. unfold onResult, showResults.
    destruct body as [e | result]; [now apply Hfailed |].
    destruct (getProp result "success") as [e | success]; [now apply Hfailed |].
    destruct (truthy success); cbn [andb] in Hok.
    + destruct (snd (renderResult result [])) as [e | u]; [| discriminate].
      cbn [fst]. apply Hfailed, Hshown.
    + destruct (error <- getProp result "error" ;;
                toStr (jsOr error (JStr "Operation failed"))); [now apply Hfailed |].
      unfold showLoading, showError, getElementById, setEl, update.
      cbn [document with_document]. now rewrite H1, H6.
Qed.

(** [clearHistory] always gets through. *)
Lemma clearHistory_eq (accepted : bool) (st : App) :
  clearHistory accepted st =
  saveHistory accepted
    (setEl "history-content"
       (setInnerHTML [el "p" "ms-fontColor-neutralSecondary" [Text "No operations yet"]])
       (with_operationHistory (JArr []) st)).
Proof.
  reflexivity.
Qed.

(** The success branch of [onResult]. *)
Lemma onResult_success
      (query : string) (result : jsval) (now : Z) (nowText : string)
      (accepted : bool) (st : App) (items : list jsval) :
  reportsSuccess (ret result) = true ->
  rendersCleanly (ret result) = true ->
  operationHistory st = JArr items ->
  forallb entryDisplays (firstn 19 items) = true ->
  inputText (onResult query (ret result) now nowText accepted st) = "" /\
  operationHistory (onResult query (ret result) now nowText accepted st) =
    JArr (firstn 20 (historyItem now query result nowText :: items)).
Proof.
  intros Hreported Hrendered Hitems Hshown.
  rewrite (onResult_rendered query result now nowText accepted st Hreported Hrendered).
  destruct (addToHistory_array query result now nowText accepted
              (setEl "results-content" (setInnerHTML (fst (renderResult result []))) st)
              items Hitems) as [Hok _].
  destruct (Hok Hshown) as [markup [_ ->]].
  split; [reflexivity |].
  unfold saveHistory, setItem_history. destruct accepted; reflexivity.
Qed.

(** The branches of [onResult] that do not get to the history. *)
Lemma onResult_failure
      (query : string) (body : Exc jsval) (now : Z) (nowText : string)
      (accepted : bool) (st : App) :
  reportsSuccess body && rendersCleanly body = false ->
  inputText (onResult query body now nowText accepted st) = inputText st /\
  operationHistory (onResult query body now nowText accepted st) = operationHistory st.
Proof.
  unfold reportsSuccess, rendersCleanly, onResult, showResults.
  destruct body as [e | result]; [intros _; split; reflexivity |].
  destruct (getProp result "success") as [e | success]; [intros _; split; reflexivity |].
  destruct (truthy success); cbn [andb].
  - destruct (snd (renderResult result [])) as [e | u]; [| discriminate].
    intros _; split; reflexivity.
  - intros _.
    destruct (error <- getProp result "error" ;; toStr (jsOr error (JStr "Operation failed")));
      split; reflexivity.
Qed.

(** The branch of [onResult] in which the history does not take the entry:
    the [catch] block runs, after [unshift] if the history is an array. *)
Lemma onResult_refused
      (query : string) (result : jsval) (now : Z) (nowText : string)
      (accepted : bool) (st : App) :
  reportsSuccess (ret result) = true ->
  rendersCleanly (ret result) = true ->
  acceptsEntry (operationHistory st) = false ->
  inputText (onResult query (ret result) now nowText accepted st) = inputText st /\
  localStorage (onResult query (ret result) now nowText accepted st) = localStorage st /\
  operationHistory (onResult query (ret result) now nowText accepted st) =
    match operationHistory st with
    | JArr items => JArr (firstn 20 (historyItem now query result nowText :: items))
    | other => other
    end /\
  exists e,
    errorShown (onResult query (ret result) now nowText accepted st)
               ("Request failed: " ++ message e).
Proof.
  intros Hreported Hrendered Hrefused.
  rewrite (onResult_rendered query result now nowText accepted st Hreported Hrendered).
  destruct (addToHistory_cases query result now nowText accepted
              (setEl "results-content" (setInnerHTML (fst (renderResult result []))) st))
    as [[Harray [e ->]] | [items [Hitems [[Hshown _] | [Hshown [e ->]]]]]].
  - cbn [operationHistory setEl with_document] in Harray.
    split; [reflexivity | split; [reflexivity | split; [| exists e; eexists; reflexivity]]].
    cbn [throw operationHistory requestFailed showLoading showError setEl with_document].
    destruct (operationHistory st); cbn [isArray] in Harray; try reflexivity; discriminate.
  - cbn [operationHistory setEl with_document] in Hitems.
    rewrite Hitems in Hrefused. cbn [acceptsEntry] in Hrefused. congruence.
  - cbn [operationHistory setEl with_document] in Hitems.
    split; [reflexivity | split; [reflexivity | split; [| exists e; eexists; reflexivity]]].
    now rewrite Hitems.
Qed.

Lemma history_connectionChecked body st :
  operationHistory (connectionChecked body st) = operationHistory st /\
  localStorage (connectionChecked body st) = localStorage st.
Proof.
  unfold connectionChecked. split; split_cases.
Qed.

(** What the end of a submission does to the history and to its stored copy:
    nothing, or one entry put at the front of an array and the list cut at
    twenty, which is stored if the list can be shown and the write is
    accepted. *)
Lemma onResult_history query body now nowText accepted st :
  (operationHistory (onResult query body now nowText accepted st) = operationHistory st /\
   localStorage (onResult query body now nowText accepted st) = localStorage st) \/
  (exists item items,
      operationHistory st = JArr items /\
      entryDisplays item = true /\
      operationHistory (onResult query body now nowText accepted st) =
        JArr (firstn 20 (item :: items)) /\
      ((forallb entryDisplays (firstn 19 items) = true /\
        lyncformula_history (localStorage (onResult query body now nowText accepted st)) =
        if accepted
        then Some (Parses (operationHistory (onResult query body now nowText accepted st)))
        else lyncformula_history (localStorage st)) \/
       (forallb entryDisplays (firstn 19 items) = false /\
        localStorage (onResult query body now nowText accepted st) = localStorage st))).
Proof.
  destruct (reportsSuccess body && rendersCleanly body) eqn:Hok.
  - apply andb_true_iff in Hok as [Hreported Hrendered].
    destruct body as [e | result]; [discriminate |].
    pose proof (onResult_rendered query result now nowText accepted st Hreported Hrendered)
      as Hrun.
    unfold ret in Hrun. rewrite Hrun. clear Hrun.
    destruct (addToHistory_cases query result now nowText accepted
                (setEl "results-content" (setInnerHTML (fst (renderResult result []))) st))
      as [[Harray [e ->]] | [items [Hitems [[Hshown [markup [_ ->]]] | [Hshown [e ->]]]]]].
    + left. split; reflexivity.
    + right. exists (historyItem now query result nowText), items.
      split; [exact Hitems | split; [reflexivity | split; [| left; split; [exact Hshown |]]]].
      * unfold saveHistory, setItem_history. destruct accepted; reflexivity.
      * unfold saveHistory, setItem_history. destruct accepted; reflexivity.
    + right. exists (historyItem now query result nowText), items.
      split; [exact Hitems | split; [reflexivity | split; [reflexivity |]]].
      right. split; [exact Hshown | reflexivity].
  - left. split; [now apply onResult_failure |].
    unfold reportsSuccess, rendersCleanly in Hok. unfold onResult, showResults.
    destruct body as [e | result]; [reflexivity |].
    destruct (getProp result "success") as [e | success]; [reflexivity |].
    destruct (truthy success); cbn [andb] in Hok.
    + destruct (snd (renderResult result [])) as [e | u]; [reflexivity | discriminate].
    + destruct (error <- getProp result "error" ;;
                toStr (jsOr error (JStr "Operation failed"))); reflexivity.
Qed.

Lemma history_clearHistory (accepted : bool) (st : App) :
  operationHistory (clearHistory accepted st) = JArr [] /\
  lyncformula_history (localStorage (clearHistory accepted st)) =
    if accepted then Some (Parses (JArr [])) else lyncformula_history (localStorage st).
Proof.
  unfold clearHistory, updateHistoryDisplay, saveHistory, setItem_history.
  destruct accepted; split; reflexivity.
Qed.

(** One turn of the event loop leaves the history and its stored copy alone,
    or empties the history, or puts one entry at the front of an array. *)
Lemma step_history (st st' : App) (ev : event) :
  step st ev = Some st' ->
  (operationHistory st' = operationHistory st /\
   lyncformula_history (localStorage st') = lyncformula_history (localStorage st)) \/
  (operationHistory st' = JArr [] /\
   lyncformula_history (localStorage st') =
     if historyWriteAccepted ev then Some (Parses (JArr []))
     else lyncformula_history (localStorage st)) \/
  (exists item items,
      operationHistory st = JArr items /\
      entryDisplays item = true /\
      operationHistory st' = JArr (firstn 20 (item :: items)) /\
      ((forallb entryDisplays (firstn 19 items) = true /\
        lyncformula_history (localStorage st') =
        if historyWriteAccepted ev then Some (Parses (operationHistory st'))
        else lyncformula_history (localStorage st)) \/
       (forallb entryDisplays (firstn 19 items) = false /\
        lyncformula_history (localStorage st') = lyncformula_history (localStorage st)))).
Proof.
  destruct ev; cbn [step historyWriteAccepted]; intros H;
    try (injection H as <-; left; split; reflexivity).
  - destruct (disabled _); [discriminate | injection H as <-].
    left. unfold handleSubmitRequest; split; split_cases.
  - injection H as <-. right. left. apply history_clearHistory.
  - injection H as <-. left.
    unfold saveSettings, setItem_settings. destruct accepted; split; reflexivity.
  - injection H as <-. left. unfold handleSubmitRequest; split; split_cases.
  - injection H as <-. left. unfold inputMonitor; split; split_cases.
  - destruct (nth_error _ _) as [[]|]; try discriminate.
    destruct (getCurrentExcelContext h); try discriminate;
      injection H as <-; left; split; reflexivity.
  - destruct (nth_error _ _) as [[]|]; try discriminate.
    + unfold onResponse in H. destruct r as [e | status statusText].
      * injection H as <-; left; split; reflexivity.
      * destruct (ok status); injection H as <-; left; split; reflexivity.
    + destruct r as [e | status statusText].
      * injection H as <-; left; split; reflexivity.
      * destruct (ok status); injection H as <-; left; split; reflexivity.
  - destruct (nth_error _ _) as [[]|]; try discriminate; injection H as <-.
    + destruct (onResult_history query body now nowText accepted
                  (with_pending (removeAt i (pending st)) st))
        as [[H1 H2] | [item [items [H1 [H2 [H3 H4]]]]]].
      * left. split; [exact H1 | now rewrite H2].
      * right. right. exists item, items.
        split; [exact H1 | split; [exact H2 | split; [exact H3 |]]].
        destruct H4 as [[H4 H5] | [H4 H5]]; [left; auto | right; split; [exact H4 |]].
        now rewrite H5.
    + left.
      destruct (history_connectionChecked body (with_pending (removeAt i (pending st)) st))
        as [H1 H2].
      split; [exact H1 | now rewrite H2].
Qed.

Lemma loadSettings_keeps_history (st : App) :
  localStorage (loadSettings st) = localStorage st /\
  operationHistory (loadSettings st) = operationHistory st.
Proof.
  unfold loadSettings.
  destruct (lyncformula_settings (localStorage st)) as [[settings |] |];
    [| split; reflexivity | split; reflexivity].
  destruct (isEmpty (settings_serviceUrl settings)),
           (isEmpty (settings_llmModel settings)); split; reflexivity.
Qed.

Lemma loadHistory_history (st : App) :
  operationHistory st = JArr [] ->
  operationHistory (loadHistory st) = storedHistory (localStorage st) /\
  localStorage (loadHistory st) = localStorage st.
Proof.
  intros Hempty. unfold loadHistory, storedHistory, updateHistoryDisplay.
  destruct (lyncformula_history (localStorage st)) as [[h |] |];
    [| split; [exact Hempty | reflexivity] | split; [exact Hempty | reflexivity]].
  cbn [operationHistory with_operationHistory].
  destruct (historyMarkup h); split; reflexivity.
Qed.

(** At start-up the history is whatever the stored text parses to, and the
    empty list without one. *)
Lemma operationHistory_initializeTaskPane (doc : Document) (store : Storage) :
  operationHistory (initializeTaskPane (initialApp doc store)) = storedHistory store /\
  localStorage (initializeTaskPane (initialApp doc store)) = store.
Proof.
  unfold initializeTaskPane.
  destruct (loadSettings_keeps_history (checkServiceConnection (initialApp doc store)))
    as [Hstore Hhistory].
  destruct (loadHistory_history (loadSettings (checkServiceConnection (initialApp doc store))))
    as [H1 H2]; [exact Hhistory |].
  rewrite H1, H2, Hstore. split; reflexivity.
Qed.

Lemma acceptsEntry_cons (item : jsval) (items : list jsval) :
  entryDisplays item = true ->
  forallb entryDisplays (firstn 19 items) = true ->
  acceptsEntry (JArr (firstn 20 (item :: items))) = true.
Proof.
  intros Hitem Hitems. cbn [acceptsEntry]. rewrite firstn_cons.
  change 19%nat with (S 18) at 1. rewrite firstn_cons. cbn [forallb]. rewrite Hitem.
  rewrite firstn_firstn. cbn [Nat.min andb].
  replace (firstn 18 items) with (firstn 18 (firstn 19 items))
    by (rewrite firstn_firstn; reflexivity).
  now apply forallb_firstn.
Qed.

(** A history that takes entries keeps doing so. *)
Lemma run_acceptsEntry (evs : list event) (st st' : App) :
  acceptsEntry (operationHistory st) = true ->
  run st evs = Some st' ->
  acceptsEntry (operationHistory st') = true.
Proof.
  revert st; induction evs as [|ev evs IH]; intros st Hok; cbn [run].
  - now intros [= <-].
  - destruct (step st ev) as [st1|] eqn:Hstep; [| discriminate].
    apply (IH st1).
    destruct (step_history _ _ _ Hstep)
      as [[-> _] | [[-> _] | [item [items [Hitems [Hitem [-> _]]]]]]].
    + exact Hok.
    + reflexivity.
    + rewrite Hitems in Hok. now apply acceptsEntry_cons.
Qed.

(** C7 (amended). A submission whose response is 2xx, whose body is read with
    a truthy success field, whose result is rendered without an exception,
    and whose entry the history takes (the history is an array and what stays
    of it next to the new entry, its first nineteen items, can be shown) ends
    with the input field cleared and the operation (query and result) put at
    the front of the history, which is cut at twenty entries.  A submission
    that fails before that (network error, non-2xx response, a body that
    cannot be read, a falsy success field, or an exception while the result
    is rendered) ends with the input text and the history as they were.  When
    the history does not take the entry, the input text is kept as well and
    nothing is stored; the history is as it was if it is not an array, and
    otherwise has the entry in memory.  The history takes entries in every
    state reached from a start-up at which local storage held no history, one
    that does not parse, or one that takes entries. *)
Theorem submission_outcome (st : App) (i : nat) (query : string) :
  (forall url request r,
      nth_error (pending st) i = Some (AwaitFetch query url request) ->
      exists st',
        step st (FetchSettles i r) = Some st' /\
        inputText st' = inputText st /\
        operationHistory st' = operationHistory st /\
        pending st' =
          match r with
          | NetworkError _ => removeAt i (pending st)
          | Response status _ =>
              if ok status then replaceAt i (AwaitJson query) (pending st)
              else removeAt i (pending st)
          end) /\
  (forall body now nowText accepted,
      nth_error (pending st) i = Some (AwaitJson query) ->
      exists st',
        step st (JsonSettles i body now nowText accepted) = Some st' /\
        pending st' = removeAt i (pending st) /\
        (forall result items,
            body = ret result ->
            reportsSuccess body = true -> rendersCleanly body = true ->
            operationHistory st = JArr items ->
            forallb entryDisplays (firstn 19 items) = true ->
            inputText st' = "" /\
            operationHistory st' =
              JArr (firstn 20 (historyItem now query result nowText :: items))) /\
        (reportsSuccess body && rendersCleanly body = false ->
         inputText st' = inputText st /\
         operationHistory st' = operationHistory st) /\
        (forall result,
            body = ret result ->
            reportsSuccess body = true -> rendersCleanly body = true ->
            acceptsEntry (operationHistory st) = false ->
            inputText st' = inputText st /\
            localStorage st' = localStorage st /\
            (isArray (operationHistory st) = false ->
             operationHistory st' = operationHistory st) /\
            (forall items,
                operationHistory st = JArr items ->
                operationHistory st' =
                  JArr (firstn 20 (historyItem now query result nowText :: items))))) /\
  (forall doc store evs,
      acceptsEntry (storedHistory store) = true ->
      run (initializeTaskPane (initialApp doc store)) evs = Some st ->
      acceptsEntry (operationHistory st) = true).
Proof.
  split; [| split].
  - intros url request r Hi. cbn [step]. rewrite Hi. unfold onResponse.
    destruct r as [e | status statusText].
    + eexists; split; [reflexivity | repeat split].
    + destruct (ok status); eexists; (split; [reflexivity | repeat split]).
  - intros body now nowText accepted Hi. cbn [step]. rewrite Hi.
    eexists; split; [reflexivity | split; [| split; [| split]]].
    + apply onResult_ends.
    + intros result items -> Hs Hr Hitems Hshown.
      exact (onResult_success query result now nowText accepted
               (with_pending (removeAt i (pending st)) st) items Hs Hr Hitems Hshown).
    + intros Hfail.
      exact (onResult_failure query body now nowText accepted
               (with_pending (removeAt i (pending st)) st) Hfail).
    + intros result -> Hs Hr Hrefused.
      destruct (onResult_refused query result now nowText accepted
                  (with_pending (removeAt i (pending st)) st) Hs Hr Hrefused)
        as [Hinput [Hstore [Hhistory _]]].
      split; [exact Hinput | split; [exact Hstore | split]].
      * intros Harray. rewrite Hhistory.
        cbn [operationHistory with_pending] in *.
        destruct (operationHistory st); cbn [isArray] in Harray; try reflexivity;
          discriminate.
      * intros items Hitems. rewrite Hhistory.
        cbn [operationHistory with_pending]. now rewrite Hitems.
  - intros doc store evs Hstored Hrun.
    apply (run_acceptsEntry evs (initializeTaskPane (initialApp doc store)) st);
      [| exact Hrun].
    destruct (operationHistory_initializeTaskPane doc store) as [-> _]. exact Hstored.
Qed.

(** The sample audit response to the submission of "Audit my formulas". *)
Lemma submission_outcome_witness :
  nth_error (pending awaitingBody) 1 = Some (AwaitJson "Audit my formulas") /\
  exists st',
    step awaitingBody
         (JsonSettles 1 (ret (JObj auditFields)) 1735732800000 "1/1/2025, 12:00:00 PM" true)
      = Some st' /\
    inputText st' = "" /\
    map (fun item => propOf item "query") (elements (operationHistory st')) =
      [JStr "Audit my formulas"].
Proof.
  split; [reflexivity |].
  destruct (submission_outcome awaitingBody 1 "Audit my formulas") as [_ [H _]].
  destruct (H (ret (JObj auditFields)) 1735732800000%Z "1/1/2025, 12:00:00 PM" true eq_refl)
    as [st' [Hstep [_ [Hsuccess _]]]].
  exists st'. split; [exact Hstep |].
  destruct (Hsuccess (JObj auditFields) [] eq_refl eq_refl eq_refl eq_refl eq_refl)
    as [Hinput Hhistory].
  split; [exact Hinput | rewrite Hhistory; reflexivity].
Defined.


(** Against C7 as stated: a 200 response with success true whose list of
    explanations holds a null, or whose analysis results are an object and
    not an array, makes the renderer throw; the submission ends in the
    [catch], with the input text still there and nothing added to the
    history. *)
Lemma rendering_failure_keeps_input :
  ok 200 = true /\
  reportsSuccess (ret nullExplanation) = true /\
  option_map (fun st => (inputText st, operationHistory st, inFlight st))
    (run typedApp
         [KeyCtrlEnter;
          ContextSettles 1 hostWithoutSelection;
          FetchSettles 1 (Response 200 "OK");
          JsonSettles 1 (ret nullExplanation) 1735732800000 "1/1/2025, 12:00:00 PM" true]) =
    Some ("Audit my formulas", JArr [], 0%nat) /\
  reportsSuccess (ret keyedAnalysis) = true /\
  option_map (fun st => (inputText st, operationHistory st, inFlight st))
    (run typedApp
         [KeyCtrlEnter;
          ContextSettles 1 hostWithoutSelection;
          FetchSettles 1 (Response 200 "OK");
          JsonSettles 1 (ret keyedAnalysis) 1735732800000 "1/1/2025, 12:00:00 PM" true]) =
    Some ("Audit my formulas", JArr [], 0%nat).
Proof.
  repeat split.
Qed.

(** The same submission answered by the sample audit response: the input is
    cleared, the history has the one entry, and the overlay is hidden. *)
Example successful_submission :
  option_map (fun st => (inputText st,
                         map (fun item => propOf item "query")
                             (elements (operationHistory st)),
                         loadingShown st))
    (run typedApp
         [KeyCtrlEnter;
          ContextSettles 1 hostWithoutSelection;
          FetchSettles 1 (Response 200 "OK");
          JsonSettles 1 (ret (JObj auditFields)) 1735732800000 "1/1/2025, 12:00:00 PM" true]) =
    Some ("", [JStr "Audit my formulas"], false).
Proof.
  reflexivity.
Qed.

(** Numeric strings as the comparison [length > 0] reads them. *)
Example numeric_strings :
  map stringToNumber ["0x10"; "0B101"; "1e2"; "5.0"; " .5E-3 "; "-Infinity"; ""] =
    [Finite false 16 0; Finite false 5 0; Finite false 1 2; Finite false 50 (-1);
     Finite false 5 (-4); Infinite true; Finite false 0 0] /\
  map stringToNumber ["-0x10"; "0x"; "12px"; "1e"; "."; "1_000"] =
    [NaN; NaN; NaN; NaN; NaN; NaN] /\
  map gt0 [JStr "0x10"; JStr "1e2"; JStr "5.0"; JStr "1e-400"; JStr "0.0"; JStr "-1";
           JArr [JStr "7"]; JObj []; JBool true; JNull] =
    map ret [true; true; true; false; false; false; true; false; true; false].
Proof.
  repeat split.
Qed.

(** A successful response whose issues are an object that gives itself the
    length "0x10": the comparison reads sixteen, [slice] is called on the
    object, and the submission ends in the [catch] with the input text
    kept and nothing added to the history. *)
Example submission_with_hexadecimal_length :
  rendersCleanly
    (ret (JObj [("success", JBool true); ("issues", JObj [("length", JStr "0x10")])])) =
    false /\
  option_map (fun st => (inputText st, operationHistory st, loadingShown st))
    (step awaitingBody
          (JsonSettles 1
             (ret (JObj [("success", JBool true);
                         ("issues", JObj [("length", JStr "0x10")])]))
             1735732800000 "1/1/2025, 12:00:00 PM" true)) =
    Some ("Audit my formulas", JArr [], false).
Proof.
  split; reflexivity.
Qed.

(** A successful response that arrives while the history in memory is not a
    list (local storage held the text of an object when the task pane
    started): the result is shown and then replaced by an error, the input
    text is kept, and the history stays what it was. *)
Example submission_with_unusable_history :
  option_map (fun st => (inputText st, operationHistory st, loadingShown st))
    (run (setEl "natural-language-input" (setValue "Audit my formulas")
            (initializeTaskPane
               (initialApp blankDocument (mkStorage None (Some (Parses (JObj [])))))))
         [KeyCtrlEnter;
          ContextSettles 1 hostWithoutSelection;
          FetchSettles 1 (Response 200 "OK");
          JsonSettles 1 (ret (JObj auditFields)) 1735732800000 "1/1/2025, 12:00:00 PM" true]) =
    Some ("Audit my formulas", JObj [], false).
Proof.
  reflexivity.
Qed.



(** ** Audit results *)

Lemma append_empty_r (s : string) : (s ++ "")%string = s.
Proof.
  induction s as [|c s IH]; cbn; [reflexivity | now rewrite IH].
Qed.

Lemma toStr_primitive (v : jsval) :
  primitive v = true -> exists s, toStr v = ret s.
Proof.
  destruct v as [| | [] | | | |]; cbn; intros H; try discriminate; eexists; reflexivity.
Qed.

Lemma getProp_object (k : string) (fs : list (string * jsval)) :
  getProp (JObj fs) k = ret (field k fs).
Proof.
  unfold getProp, field. destruct (lookup k fs); reflexivity.
Qed.

Lemma propOf_object (k : string) (fs : list (string * jsval)) :
  propOf (JObj fs) k = field k fs.
Proof.
  unfold propOf. now rewrite getProp_object.
Qed.

Lemma strictEqStr_other (v : jsval) (s : string) :
  v <> JStr s -> strictEqStr v s = false.
Proof.
  destruct v as [| | | | t | |]; try reflexivity. intros Hne. cbn [strictEqStr].
  apply String.eqb_neq. congruence.
Qed.

(** The item of an issue is built exactly when the issue is shaped. *)
Lemma issueItem_shaped (issue : jsval) :
  succeeds (issueItem issue) = issueShaped issue.
Proof.
  unfold issueItem, issueShaped, prints. destruct (nullish issue) eqn:N.
  - destruct issue; try discriminate; reflexivity.
  - rewrite (getProp_propOf issue "severity" N), !(interp_propOf issue _ N).
    cbn [bind ret negb andb]. rewrite <- !toStr_printable.
    destruct (toStr (propOf issue "title")), (toStr (propOf issue "severity")),
      (toStr (propOf issue "description")), (toStr (propOf issue "cell_address")),
      (toStr (propOf issue "suggested_fix")); reflexivity.
Qed.

(** An item that was built is styled by the severity of its issue. *)
Lemma issueItem_styled (issue : jsval) (item : node) :
  issueItem issue = ret item -> rendersAs issue item.
Proof.
  intros Hitem. split; [exact Hitem |].
  assert (N : nullish issue = false).
  { destruct issue; try reflexivity; discriminate. }
  assert (Hclass : classOf item =
                   ("result-item " ++ severityClass (propOf issue "severity"))%string).
  { unfold issueItem in Hitem.
    rewrite (getProp_propOf issue "severity" N), !(interp_propOf issue _ N) in Hitem.
    cbn [bind ret] in Hitem.
    destruct (toStr (propOf issue "title")); [discriminate |].
    destruct (toStr (propOf issue "severity")); [discriminate |].
    destruct (toStr (propOf issue "description")); [discriminate |].
    destruct (toStr (propOf issue "cell_address")); [discriminate |].
    destruct (toStr (propOf issue "suggested_fix")); [discriminate |].
    cbn [bind] in Hitem. injection Hitem as <-. reflexivity. }
  rewrite Hclass. unfold severityClass. split; [| split].
  - intros ->. reflexivity.
  - intros ->. reflexivity.
  - intros Hhigh Hmedium.
    now rewrite (strictEqStr_other _ _ Hhigh), (strictEqStr_other _ _ Hmedium).
Qed.

Lemma forEachAppend_all (build : jsval -> Exc node) (l : list jsval)
      (items container : list node) :
  Forall2 (fun x item => build x = ret item) l items ->
  forEachAppend build l container = (container ++ items, ret tt).
Proof.
  intros Hall. revert container.
  induction Hall as [|x item l items Hx _ IH]; intros container; cbn [forEachAppend].
  - now rewrite app_nil_r.
  - unfold andThen, appendBuilt. rewrite Hx. unfold ret at 1.
    rewrite IH, <- app_assoc. reflexivity.
Qed.

(** A [forEach] that appends gets through exactly when every item is
    built. *)
Lemma forEachAppend_succeeds (build : jsval -> Exc node) (l : list jsval)
      (container : list node) :
  succeeds (snd (forEachAppend build l container)) =
  forallb (fun x => succeeds (build x)) l.
Proof.
  revert container; induction l as [|x l IH]; intros container; [reflexivity |].
  cbn [forEachAppend forallb]. unfold andThen, appendBuilt.
  destruct (build x) as [e | item]; [reflexivity |]. cbn [succeeds andb]. apply IH.
Qed.

(** However far it gets, what it has appended are the nodes built from the
    first items, one for each. *)
Lemma forEachAppend_cap (build : jsval -> Exc node) (l : list jsval)
      (container : list node) :
  exists appended,
    fst (forEachAppend build l container) = container ++ appended /\
    (List.length appended <= List.length l)%nat /\
    Forall2 (fun x item => build x = ret item) (firstn (List.length appended) l) appended.
Proof.
  revert container; induction l as [|x l IH]; intros container; cbn [forEachAppend].
  - exists []. split; [now rewrite app_nil_r | split; [reflexivity | constructor]].
  - unfold andThen, appendBuilt. destruct (build x) as [e | item] eqn:Hx.
    + exists []. split; [now rewrite app_nil_r | split; [cbn; lia | constructor]].
    + destruct (IH (container ++ [item])) as [appended [Happended [Hlen Hbuilt]]].
      exists (item :: appended). split; [| split; [cbn; lia |]].
      * rewrite <- app_assoc in Happended. exact Happended.
      * cbn [List.length firstn]. now constructor.
Qed.

Lemma builds_all (build : jsval -> Exc node) (l : list jsval) :
  forallb (fun x => succeeds (build x)) l = true ->
  exists items, Forall2 (fun x item => build x = ret item) l items.
Proof.
  induction l as [|x l IH]; cbn [forallb]; [exists []; constructor |].
  rewrite andb_true_iff. intros [Hx Hl].
  destruct (IH Hl) as [items Hitems].
  apply succeeds_ret in Hx as [item Hitem].
  exists (item :: items). now constructor.
Qed.

Lemma nonEmpty_array (l : list jsval) :
  nonEmpty (JArr l) = ret (negb (Nat.eqb (List.length l) 0)).
Proof.
  unfold nonEmpty, gt0, toNumber. cbn [truthy getProp String.eqb Ascii.eqb Bool.eqb bind ret].
  destruct l; reflexivity.
Qed.

(** [a && a.length > 0] on what is not an array. *)
Lemma nonEmpty_other (a : jsval) :
  isArray a = false ->
  nonEmpty a =
  match a with
  | JStr s => ret (negb (isEmpty s))
  | JObj fs => gt0 (field "length" fs)
  | _ => ret false
  end.
Proof.
  unfold nonEmpty. destruct a as [| | [|] | n | s | l | fs]; try discriminate; intros _;
    try reflexivity.
  - cbn [truthy]. destruct (negb (n =? 0)%Z); reflexivity.
  - cbn [truthy]. destruct s as [|c s]; [reflexivity |].
    cbn [isEmpty negb getProp String.eqb Ascii.eqb Bool.eqb bind ret].
    unfold gt0, toNumber. cbn [bind ret]. reflexivity.
  - cbn [truthy]. now rewrite getProp_object.
Qed.

(** The summary panel is built exactly when the summary is shaped. *)
Lemma auditSummary_shaped (summary : jsval) :
  succeeds (auditSummary summary) = summaryShaped summary.
Proof.
  unfold auditSummary, summaryShaped, countPrints. destruct (nullish summary) eqn:N.
  - destruct summary; try discriminate; reflexivity.
  - rewrite !(getProp_propOf summary _ N). cbn [bind ret negb andb].
    rewrite !getPropOpt_optPropOf. cbn [bind ret].
    rewrite <- !toStr_printable.
    destruct (toStr (jsOr (propOf summary "total_issues") (JNum 0))),
      (toStr (jsOr (optPropOf (propOf summary "severity_breakdown") "high") (JNum 0))),
      (toStr (jsOr (optPropOf (propOf summary "severity_breakdown") "medium") (JNum 0))),
      (toStr (jsOr (optPropOf (propOf summary "severity_breakdown") "low") (JNum 0)));
      reflexivity.
Qed.

(** The first line of the summary panel is the [total_issues] of the summary,
    0 when it is missing or falsy. *)
Lemma auditSummary_total (summary : jsval) (panel : node) :
  auditSummary summary = ret panel ->
  exists total rest,
    toStr (jsOr (propOf summary "total_issues") (JNum 0)) = ret total /\
    contentLines panel = ("Total Issues: " ++ total)%string :: rest.
Proof.
  intros Hpanel.
  assert (N : nullish summary = false).
  { destruct summary; try reflexivity; discriminate. }
  unfold auditSummary in Hpanel.
  rewrite !(getProp_propOf summary _ N) in Hpanel. cbn [bind ret] in Hpanel.
  rewrite !getPropOpt_optPropOf in Hpanel. cbn [bind ret] in Hpanel.
  destruct (toStr (jsOr (propOf summary "total_issues") (JNum 0))) as [e | total];
    [discriminate |].
  destruct (toStr (jsOr (optPropOf (propOf summary "severity_breakdown") "high") (JNum 0)));
    [discriminate |].
  destruct (toStr (jsOr (optPropOf (propOf summary "severity_breakdown") "medium") (JNum 0)));
    [discriminate |].
  destruct (toStr (jsOr (optPropOf (propOf summary "severity_breakdown") "low") (JNum 0)));
    [discriminate |].
  cbn [bind] in Hpanel. injection Hpanel as <-.
  exists total. eexists. split; [reflexivity |].
  cbn [contentLines el el0 map textOf]. now rewrite append_empty_r.
Qed.

(** The items part appends at most five nodes, whatever the response, and
    each of them is the item of the issue at its place. *)
Lemma showIssues_cap (result : jsval) (container : list node) :
  exists items,
    fst (showIssues result container) = container ++ items /\
    (List.length items <=
     Nat.min 5 (List.length (elements (propOf result "issues"))))%nat /\
    Forall2 rendersAs
            (firstn (List.length items) (elements (propOf result "issues"))) items.
Proof.
  assert (Hnone : exists items,
             container = container ++ items /\
             (List.length items <=
              Nat.min 5 (List.length (elements (propOf result "issues"))))%nat /\
             Forall2 rendersAs
                     (firstn (List.length items) (elements (propOf result "issues")))
                     items).
  { exists []. split; [now rewrite app_nil_r | split; [cbn; lia | constructor]]. }
  unfold showIssues. destruct (nullish result) eqn:N.
  - destruct result; try discriminate; exact Hnone.
  - rewrite (getProp_propOf result "issues" N). cbn [bind ret].
    destruct (propOf result "issues") as [| | b | n | s | l | fs] eqn:E;
      try (destruct (nonEmpty _) as [e | [|]]; exact Hnone).
    rewrite nonEmpty_array. cbn [bind ret].
    destruct (negb (Nat.eqb (List.length l) 0)); [| exact Hnone].
    cbn [sliceForEach5 elements].
    destruct (forEachAppend_cap issueItem (firstn 5 l) container)
      as [items [Hitems [Hlen Hbuilt]]].
    rewrite length_firstn in Hlen.
    exists items. split; [exact Hitems | split; [exact Hlen |]].
    rewrite firstn_firstn in Hbuilt.
    replace (Nat.min (List.length items) 5) with (List.length items) in Hbuilt by lia.
    eapply Forall2_impl; [| exact Hbuilt]. intros issue item. apply issueItem_styled.
Qed.

(** On a list of issues, the items part gets through exactly when the first
    five issues are shaped. *)
Lemma showIssues_succeeds (result : jsval) (issues : list jsval) (container : list node) :
  propOf result "issues" = JArr issues ->
  succeeds (snd (showIssues result container)) = forallb issueShaped (firstn 5 issues).
Proof.
  intros Hissues.
  assert (N : nullish result = false).
  { destruct result; try reflexivity; discriminate. }
  unfold showIssues. rewrite (getProp_propOf result "issues" N), Hissues.
  cbn [bind ret]. rewrite nonEmpty_array. cbn [bind ret].
  destruct issues as [|issue issues]; [reflexivity |].
  cbn [List.length Nat.eqb negb sliceForEach5].
  rewrite forEachAppend_succeeds.
  apply forallb_same. intros x. apply issueItem_shaped.
Qed.

Lemma showIssues_items (result : jsval) (issues : list jsval) (items container : list node) :
  propOf result "issues" = JArr issues ->
  Forall2 (fun issue item => issueItem issue = ret item) (firstn 5 issues) items ->
  showIssues result container = (container ++ items, ret tt).
Proof.
  intros Hissues Hitems.
  assert (N : nullish result = false).
  { destruct result; try reflexivity; discriminate. }
  unfold showIssues. rewrite (getProp_propOf result "issues" N), Hissues.
  cbn [bind ret]. rewrite nonEmpty_array. cbn [bind ret].
  destruct issues as [|issue issues].
  - inversion Hitems. cbn [List.length Nat.eqb negb]. now rewrite app_nil_r.
  - cbn [List.length Nat.eqb negb sliceForEach5]. now apply forEachAppend_all.
Qed.

(** [showAuditResults] on a response that is not null, step by step. *)
Lemma showAuditResults_steps (result : jsval) (container : list node) :
  nullish result = false ->
  showAuditResults result container =
  match auditSummary (jsOr (propOf result "audit_summary") (JObj [])) with
  | inr panel =>
      showIssues result
        ((container ++ [el0 "h4" [Text "Formula Audit Results"]]) ++ [panel])
  | inl e => (container ++ [el0 "h4" [Text "Formula Audit Results"]], throw e)
  end.
Proof.
  intros N. unfold showAuditResults.
  rewrite (getProp_propOf result "audit_summary" N). unfold ret at 1. cbv beta iota zeta.
  unfold andThen at 1, appendChild. unfold ret at 1. cbv beta iota.
  unfold andThen, appendBuilt.
  destruct (auditSummary _) as [e | panel]; reflexivity.
Qed.

(** C4 (amended). Whatever an audit response holds, rendering it puts at
    most the title, the summary and five issue items into the panel, and the
    items that it puts there are those of the first issues of the list, in
    order, an issue of severity "high" styled as an error, one of severity
    "medium" as a warning and any other as a success.  When the issues are a
    list, the rendering gets through exactly when the four counts of the
    summary and, for each of the first five issues, the five properties that
    its item shows can be printed; the panel then has the title, the summary
    and one item for each of the first five issues, min(5, n) items for n
    issues.  The first line of the summary reports the [total_issues] field
    of the response's [audit_summary] (0 when the summary or the field is
    missing or falsy), whatever the number of issues in the response. *)
Theorem showAuditResults_first_five (result : jsval) (container : list node) :
  (exists heading items,
      fst (showAuditResults result container) = container ++ heading ++ items /\
      (List.length heading <= 2)%nat /\
      (List.length items <=
       Nat.min 5 (List.length (elements (propOf result "issues"))))%nat /\
      Forall2 rendersAs
              (firstn (List.length items) (elements (propOf result "issues"))) items) /\
  (forall issues,
      propOf result "issues" = JArr issues ->
      let summary := jsOr (propOf result "audit_summary") (JObj []) in
      succeeds (snd (showAuditResults result container)) =
        summaryShaped summary && forallb issueShaped (firstn 5 issues) /\
      (summaryShaped summary = true ->
       forallb issueShaped (firstn 5 issues) = true ->
       exists panel items total rest,
         showAuditResults result container =
           (container ++ [el0 "h4" [Text "Formula Audit Results"]; panel] ++ items,
            ret tt) /\
         Forall2 rendersAs (firstn 5 issues) items /\
         List.length items = Nat.min 5 (List.length issues) /\
         toStr (jsOr (propOf summary "total_issues") (JNum 0)) = ret total /\
         contentLines panel = ("Total Issues: " ++ total)%string :: rest)).
Proof.
  split.
  - destruct (nullish result) eqn:N.
    { exists [], []. split; [| split; [cbn; lia | split; [cbn; lia | constructor]]].
      destruct result; try discriminate; cbn; now rewrite app_nil_r. }
    rewrite (showAuditResults_steps result container N).
    destruct (auditSummary _) as [e | panel].
    + exists [el0 "h4" [Text "Formula Audit Results"]], [].
      split; [now rewrite app_nil_r | split; [cbn; lia | split; [cbn; lia | constructor]]].
    + destruct (showIssues_cap result
                  ((container ++ [el0 "h4" [Text "Formula Audit Results"]]) ++ [panel]))
        as [items [Hitems [Hlen Hstyled]]].
      exists [el0 "h4" [Text "Formula Audit Results"]; panel], items.
      split; [| split; [cbn; lia | split; [exact Hlen | exact Hstyled]]].
      rewrite Hitems, <- !app_assoc. reflexivity.
  - intros issues Hissues summary.
    assert (N : nullish result = false).
    { destruct result; try reflexivity; discriminate. }
    rewrite (showAuditResults_steps result container N). fold summary.
    pose proof (auditSummary_shaped summary) as Hsummary.
    split.
    + destruct (auditSummary summary) as [e | panel]; cbn [succeeds] in Hsummary;
        rewrite <- Hsummary; [reflexivity |].
      cbn [andb]. now apply showIssues_succeeds.
    + intros Hshaped Hall. rewrite Hshaped in Hsummary.
      destruct (auditSummary summary) as [e | panel] eqn:Hpanel; [discriminate |].
      destruct (auditSummary_total summary panel Hpanel) as [total [rest [Htotal Hline]]].
      destruct (builds_all issueItem (firstn 5 issues)) as [items Hitems].
      { rewrite (forallb_same _ issueShaped); [exact Hall |].
        intros x. apply issueItem_shaped. }
      exists panel, items, total, rest.
      split; [| split; [| split; [| split; [exact Htotal | exact Hline]]]].
      * rewrite (showIssues_items result issues items _ Hissues Hitems).
        rewrite <- !app_assoc. reflexivity.
      * eapply Forall2_impl; [| exact Hitems]. intros issue item. apply issueItem_styled.
      * rewrite <- (Forall2_length Hitems). apply length_firstn.
Qed.

(** Seven issues with a summary that counts seven: five items, the first
    styled as an error, and a summary line that reads 7. *)
Lemma showAuditResults_first_five_witness :
  List.length sevenIssues = 7%nat /\
  exists panel items rest,
    showAuditResults (JObj auditFields) [] =
      ([el0 "h4" [Text "Formula Audit Results"]; panel] ++ items, ret tt) /\
    List.length items = 5%nat /\
    option_map classOf (hd_error items) = Some "result-item result-error" /\
    contentLines panel = "Total Issues: 7" :: rest.
Proof.
  split; [reflexivity |].
  destruct (showAuditResults_first_five (JObj auditFields) []) as [_ H].
  destruct (H sevenIssues eq_refl) as [_ Hshown].
  destruct (Hshown eq_refl eq_refl)
    as [panel [items [total [rest [Hpanel [Hitems [Hlen [Htotal Hline]]]]]]]].
  exists panel, items, rest.
  injection Htotal as <-.
  split; [exact Hpanel | split; [exact Hlen | split; [| exact Hline]]].
  inversion Hitems as [| issue item issues items' [_ [Hhigh _]] _ Hissue Hrest].
  cbn [hd_error option_map]. now rewrite (Hhigh eq_refl).
Defined.

(** Against C4 as stated: a response with seven issues and no summary is
    rendered with five issue items and a summary that reads 0, not 7. *)
Lemma showAuditResults_summary_not_counted :
  List.length sevenIssues = 7%nat /\
  snd (showAuditResults unsummarisedAudit []) = ret tt /\
  List.length (fst (showAuditResults unsummarisedAudit [])) = 7%nat /\
  map contentLines (firstn 1 (skipn 1 (fst (showAuditResults unsummarisedAudit [])))) =
    [["Total Issues: 0"; "High Priority: 0"; "Medium Priority: 0"; "Low Priority: 0"]].
Proof.
  repeat split.
Qed.


(** ** Submit flow: overlapping submissions *)

Lemma run_app (st : App) (evs1 evs2 : list event) :
  run st (evs1 ++ evs2) =
  match run st evs1 with
  | Some st1 => run st1 evs2
  | None => None
  end.
Proof.
  revert st; induction evs1 as [|ev evs1 IH]; intros st; cbn [run app].
  - reflexivity.
  - destruct (step st ev); [apply IH | reflexivity].
Qed.

Lemma replaceAt_last {A : Type} (l : list A) (x y : A) :
  replaceAt (List.length l) y (l ++ [x]) = l ++ [y].
Proof.
  induction l as [|a l IH]; cbn; [reflexivity | now rewrite IH].
Qed.

Lemma nth_error_last {A : Type} (l : list A) (x : A) :
  nth_error (l ++ [x]) (List.length l) = Some x.
Proof.
  induction l as [|a l IH]; cbn; [reflexivity | exact IH].
Qed.

(** The handler takes a submission whenever the trimmed input is not empty:
    it looks at neither the loading overlay nor the pending requests. *)
Lemma handleSubmitRequest_accepts (st : App) :
  trim (inputText st) <> "" ->
  handleSubmitRequest st =
  with_pending (pending st ++ [AwaitContext (trim (inputText st))]) (showLoading true st).
Proof.
  intros Hinput. unfold handleSubmitRequest. fold (inputText st).
  destruct (trim (inputText st)); [congruence | reflexivity].
Qed.

(** One more submission, on top of whatever is pending. *)
Lemma one_more_in_flight (h : HostRun) (st : App) :
  trim (inputText st) <> "" ->
  exists st' t,
    run st [KeyCtrlEnter; ContextSettles (List.length (pending st)) h] = Some st' /\
    inputText st' = inputText st /\
    pending st' = pending st ++ [t] /\
    isInFlight t = true /\
    loadingShown st' = true.
Proof.
  intros Hinput.
  destruct (getCurrentExcelContext_resolves h) as [context Hcontext].
  cbn [run step]. rewrite (handleSubmitRequest_accepts st Hinput).
  cbn [pending with_pending]. rewrite nth_error_last, Hcontext, replaceAt_last.
  eexists; eexists; split; [reflexivity | repeat split].
Qed.

Lemma overlapping_in_flight (h : HostRun) (st : App) (k : nat) :
  trim (inputText st) <> "" ->
  exists st' sent,
    run st (overlapping h (List.length (pending st)) k) = Some st' /\
    inputText st' = inputText st /\
    pending st' = pending st ++ sent /\
    List.length sent = k /\
    filter isInFlight sent = sent /\
    (0 < k -> loadingShown st' = true).
Proof.
  intros Hinput.
  induction k as [|k [st1 [sent [Hrun [Hin [Hpending [Hlen [Hall Hload]]]]]]]].
  - exists st, []. cbn [overlapping run]. rewrite app_nil_r. repeat split. lia.
  - assert (Hinput1 : trim (inputText st1) <> "") by now rewrite Hin.
    destruct (one_more_in_flight h st1 Hinput1)
      as [st2 [t [Hrun2 [Hin2 [Hpending2 [Ht Hload2]]]]]].
    exists st2, (sent ++ [t]). cbn [overlapping]. rewrite run_app, Hrun.
    replace (List.length (pending st) + k)%nat with (List.length (pending st1))
      by (rewrite Hpending, length_app; lia).
    split; [exact Hrun2 | split; [congruence | split; [| split; [| split]]]].
    + rewrite Hpending2, Hpending, app_assoc. reflexivity.
    + rewrite length_app. cbn. lia.
    + rewrite filter_app, Hall. cbn [filter]. now rewrite Ht.
    + intros _. exact Hload2.
Qed.

Lemma inFlight_app (st st' : App) (sent : list task) :
  pending st' = pending st ++ sent ->
  filter isInFlight sent = sent ->
  inFlight st' = (inFlight st + List.length sent)%nat.
Proof.
  intros Hpending Hall. unfold inFlight.
  now rewrite Hpending, filter_app, length_app, Hall.
Qed.

(** C3 (amended). A submission that is taken shows the loading indicator,
    but nothing stops a further one while it is outstanding:
    [handleSubmitRequest], which Ctrl+Enter in the input field calls
    directly, takes a submission whenever the trimmed input is not empty,
    whatever the loading indicator shows and however many requests are
    pending.  So the number of main-action requests in flight is not bounded:
    [k] submissions by Ctrl+Enter, made before any response arrives, add [k]
    requests to those in flight. *)
Theorem submissions_overlap (st : App) :
  trim (inputText st) <> "" ->
  (step st KeyCtrlEnter = Some (handleSubmitRequest st) /\
   loadingShown (handleSubmitRequest st) = true /\
   pending (handleSubmitRequest st) =
     pending st ++ [AwaitContext (trim (inputText st))]) /\
  (forall h k, exists st',
     run st (overlapping h (List.length (pending st)) k) = Some st' /\
     inFlight st' = (inFlight st + k)%nat /\
     (0 < k -> loadingShown st' = true)).
Proof.
  intros Hinput. split.
  - split; [reflexivity |].
    rewrite (handleSubmitRequest_accepts st Hinput). split; reflexivity.
  - intros h k.
    destruct (overlapping_in_flight h st k Hinput)
      as [st' [sent [Hrun [_ [Hpending [Hlen [Hall Hload]]]]]]].
    exists st'. rewrite (inFlight_app st st' sent Hpending Hall), Hlen. auto.
Qed.

(** Three overlapping submissions of "Audit my formulas". *)
Lemma submissions_overlap_witness :
  trim (inputText typedApp) = "Audit my formulas" /\
  exists st',
    run typedApp (overlapping hostWithoutSelection 1 3) = Some st' /\
    inFlight st' = 3%nat /\
    (0 < 3 -> loadingShown st' = true).
Proof.
  split; [reflexivity |].
  assert (Htyped : trim (inputText typedApp) <> "") by (cbn; discriminate).
  destruct (submissions_overlap typedApp Htyped) as [_ H].
  exact (H hostWithoutSelection 3%nat).
Defined.

(** Against C3 as stated: with one request in flight and the loading
    indicator shown, a second Ctrl+Enter is taken, and two requests are in
    flight. *)
Lemma second_submission_taken :
  option_map (fun st => (inFlight st, loadingShown st))
             (run typedApp [KeyCtrlEnter; ContextSettles 1 hostWithoutSelection]) =
    Some (1%nat, true) /\
  option_map inFlight
             (run typedApp [KeyCtrlEnter; ContextSettles 1 hostWithoutSelection;
                            KeyCtrlEnter; ContextSettles 2 hostWithoutSelection]) =
    Some 2%nat.
Proof.
  split; reflexivity.
Qed.

(** * Further properties *)

(** ** Blank input *)

Lemma trimStart_blank (s : string) :
  trimStart s = "" <-> allWhiteSpace s = true.
Proof.
  induction s as [|c s IH]; cbn [trimStart allWhiteSpace].
  - tauto.
  - destruct (isWhiteSpace c); cbn [andb]; [exact IH | split; discriminate].
Qed.

Lemma trimStart_head (s : string) :
  trimStart s = "" \/
  exists c rest, trimStart s = String c rest /\ isWhiteSpace c = false.
Proof.
  induction s as [|c s IH]; cbn [trimStart]; [now left |].
  destruct (isWhiteSpace c) eqn:E; [exact IH | right; eauto].
Qed.

Lemma trimEnd_head (c : ascii) (rest : string) :
  isWhiteSpace c = false -> trimEnd (String c rest) <> "".
Proof.
  intros Hc. cbn [trimEnd]. rewrite Hc. destruct (trimEnd rest); discriminate.
Qed.

(** [trim] gives the empty string exactly on the strings made of white
    space. *)
Lemma trim_blank (s : string) : trim s = "" <-> allWhiteSpace s = true.
Proof.
  rewrite <- trimStart_blank. unfold trim.
  destruct (trimStart_head s) as [-> | [c [rest [-> Hc]]]].
  - tauto.
  - split; [intros H; now apply trimEnd_head in H | discriminate].
Qed.

(** X1. [handleSubmitRequest] turns a submission down exactly when the input
    is empty or white space only: it then shows "Please enter a request" and
    neither shows the loading overlay nor starts anything; on every other
    input it shows the overlay and suspends on the Excel context with the
    trimmed text as the query. *)
Theorem blank_submission_rejected (st : App) :
  (allWhiteSpace (inputText st) = true ->
   handleSubmitRequest st = showError "Please enter a request" st /\
   pending (handleSubmitRequest st) = pending st /\
   loadingShown (handleSubmitRequest st) = loadingShown st) /\
  (allWhiteSpace (inputText st) = false ->
   trim (inputText st) <> "" /\
   handleSubmitRequest st =
     with_pending (pending st ++ [AwaitContext (trim (inputText st))])
                  (showLoading true st)).
Proof.
  split; intros Hblank.
  - apply trim_blank in Hblank.
    assert (H : handleSubmitRequest st = showError "Please enter a request" st).
    { unfold handleSubmitRequest. fold (inputText st). now rewrite Hblank. }
    rewrite H. repeat split.
  - assert (Htext : trim (inputText st) <> "").
    { rewrite trim_blank. congruence. }
    split; [exact Htext | now apply handleSubmitRequest_accepts].
Qed.

(** A request of blanks, and a request with blanks around it. *)
Lemma blank_submission_rejected_witness :
  pending (handleSubmitRequest
             (setEl "natural-language-input" (setValue "   ") startedApp)) =
    pending startedApp /\
  pending (handleSubmitRequest
             (setEl "natural-language-input" (setValue "  fix it ") startedApp)) =
    pending startedApp ++ [AwaitContext "fix it"].
Proof.
  split.
  - destruct (blank_submission_rejected
                (setEl "natural-language-input" (setValue "   ") startedApp))
      as [H _].
    destruct (H eq_refl) as [_ [Hpending _]]. exact Hpending.
  - destruct (blank_submission_rejected
                (setEl "natural-language-input" (setValue "  fix it ") startedApp))
      as [_ H].
    destruct (H eq_refl) as [_ Hsubmitted]. rewrite Hsubmitted. reflexivity.
Defined.

(** ** Selected files: removing, browsing, and what is shown *)

Lemma removeAt_firstn_skipn {A : Type} (k : nat) (l : list A) :
  firstn k l ++ skipn (S k) l = removeAt k l.
Proof.
  revert k; induction l as [|x l IH]; intros [|k]; try reflexivity.
  cbn [firstn skipn app removeAt]. f_equal. apply IH.
Qed.

Lemma removeAt_beyond {A : Type} (k : nat) (l : list A) :
  (List.length l <= k)%nat -> removeAt k l = l.
Proof.
  revert k; induction l as [|x l IH]; intros [|k] Hk; cbn in *;
    try reflexivity; try lia.
  f_equal. apply IH. lia.
Qed.

Lemma removeAt_length {A : Type} (k : nat) (l : list A) :
  (k < List.length l)%nat -> S (List.length (removeAt k l)) = List.length l.
Proof.
  revert k; induction l as [|x l IH]; intros [|k] Hk; cbn in *;
    try reflexivity; try lia.
  f_equal. apply IH. lia.
Qed.

Lemma removeAt_incl {A : Type} (k : nat) (l : list A) (x : A) :
  In x (removeAt k l) -> In x l.
Proof.
  revert k; induction l as [|y l IH]; intros [|k]; cbn; auto.
  intros [H | H]; [now left | right; now apply (IH k)].
Qed.

(** X2. [removeFile(index)] follows [splice(index, 1)] at the bounds: an
    index within the list removes exactly the file at that position and keeps
    the others in order; an index at or past the end removes nothing; a
    negative index counts from the end, and one below minus the length
    removes the first file.  Nothing is ever added. *)
Theorem removeFile_bounds (st : App) (index : Z) :
  let files := selectedFiles st in
  let n := Z.of_nat (List.length files) in
  ((0 <= index < n)%Z ->
   selectedFiles (removeFile index st) = removeAt (Z.to_nat index) files /\
   S (List.length (selectedFiles (removeFile index st))) = List.length files) /\
  ((n <= index)%Z -> selectedFiles (removeFile index st) = files) /\
  ((- n <= index < 0)%Z ->
   selectedFiles (removeFile index st) = removeAt (Z.to_nat (n + index)) files /\
   S (List.length (selectedFiles (removeFile index st))) = List.length files) /\
  ((index < - n)%Z -> selectedFiles (removeFile index st) = removeAt 0 files) /\
  (forall f, In f (selectedFiles (removeFile index st)) -> In f files).
Proof.
  intros files n.
  assert (Hsel : selectedFiles (removeFile index st) = splice1 index files) by reflexivity.
  rewrite Hsel. unfold splice1. fold n. rewrite removeAt_firstn_skipn.
  assert (Hn : n = Z.of_nat (List.length files)) by reflexivity.
  clearbody n.
  split; [| split; [| split; [| split]]].
  - intros Hin. destruct (Z.ltb_spec index 0); [lia |]. rewrite Z.min_l by lia.
    split; [reflexivity | apply removeAt_length; lia].
  - intros Hpast. destruct (Z.ltb_spec index 0); [lia |]. rewrite Z.min_r by lia.
    apply removeAt_beyond. lia.
  - intros Hneg. destruct (Z.ltb_spec index 0); [| lia]. rewrite Z.max_l by lia.
    split; [reflexivity | apply removeAt_length; lia].
  - intros Hbelow. destruct (Z.ltb_spec index 0); [| lia]. now rewrite Z.max_r by lia.
  - intros f. apply removeAt_incl.
Qed.

(** Removing the second of the three mock files, the last one by -1, and
    nothing by 3. *)
Lemma removeFile_bounds_witness :
  map file_name (selectedFiles (removeFile 1 (browseFiles startedApp))) =
    ["Q1_Sales.xlsx"; "Budget_2024.xlsx"] /\
  map file_name (selectedFiles (removeFile (-1) (browseFiles startedApp))) =
    ["Q1_Sales.xlsx"; "Q2_Sales.xlsx"] /\
  selectedFiles (removeFile 3 (browseFiles startedApp)) =
    selectedFiles (browseFiles startedApp).
Proof.
  destruct (removeFile_bounds (browseFiles startedApp) 1) as [H1 _].
  destruct (removeFile_bounds (browseFiles startedApp) (-1)) as [_ [_ [H2 _]]].
  destruct (removeFile_bounds (browseFiles startedApp) 3) as [_ [H3 _]].
  split; [| split].
  - destruct H1 as [-> _]; [cbn; lia | reflexivity].
  - destruct H2 as [-> _]; [cbn; lia | reflexivity].
  - apply H3. cbn. lia.
Defined.

Lemma findByPath_addIfAbsent (files : list File) (file : File) (p : string) :
  findByPath files p = true -> findByPath (addIfAbsent files file) p = true.
Proof.
  unfold addIfAbsent. destruct (negb _); [| auto].
  unfold findByPath. rewrite existsb_app. intros ->. reflexivity.
Qed.

Lemma findByPath_added (files : list File) (file : File) :
  findByPath (addIfAbsent files file) (file_path file) = true.
Proof.
  unfold addIfAbsent. destruct (findByPath files (file_path file)) eqn:E; cbn [negb].
  - exact E.
  - unfold findByPath. rewrite existsb_app. cbn. rewrite String.eqb_refl.
    now rewrite orb_true_r.
Qed.

Lemma findByPath_fold (added files : list File) (p : string) :
  findByPath files p = true ->
  findByPath (fold_left addIfAbsent added files) p = true.
Proof.
  revert files; induction added as [|file added IH]; intros files H; cbn [fold_left].
  - exact H.
  - apply IH. now apply findByPath_addIfAbsent.
Qed.

(** After the files were gone through, each of them is found. *)
Lemma findByPath_all_added (added files : list File) (file : File) :
  In file added ->
  findByPath (fold_left addIfAbsent added files) (file_path file) = true.
Proof.
  revert files; induction added as [|g added IH]; intros files; cbn [In fold_left].
  - tauto.
  - intros [-> | Hin].
    + apply findByPath_fold, findByPath_added.
    + now apply IH.
Qed.

(** Going through files that are all found adds nothing. *)
Lemma fold_addIfAbsent_found (added files : list File) :
  (forall file, In file added -> findByPath files (file_path file) = true) ->
  fold_left addIfAbsent added files = files.
Proof.
  induction added as [|g added IH]; intros Hall; cbn [fold_left]; [reflexivity |].
  unfold addIfAbsent at 2. rewrite (Hall g (or_introl eq_refl)). cbn [negb].
  apply IH. intros file Hin. apply Hall. now right.
Qed.

(** What is added goes after what was there, and comes from the files gone
    through. *)
Lemma fold_addIfAbsent_extends (added files : list File) :
  exists extra,
    fold_left addIfAbsent added files = files ++ extra /\ incl extra added.
Proof.
  revert files; induction added as [|g added IH]; intros files; cbn [fold_left].
  - exists []. split; [now rewrite app_nil_r | intros x []].
  - destruct (IH (addIfAbsent files g)) as [extra [-> Hincl]].
    unfold addIfAbsent. destruct (negb _).
    + exists (g :: extra). rewrite <- app_assoc. split; [reflexivity |].
      intros x [<- | Hx]; [now left | right; now apply Hincl].
    + exists extra. split; [reflexivity |].
      intros x Hx. right. now apply Hincl.
Qed.

(** X3. [browseFiles] only adds: the files selected before stay where they
    were, in order, and what follows them comes from the mock files.  After
    it every mock file's path is selected, and browsing again changes
    nothing. *)
Theorem browseFiles_idempotent (st : App) :
  (exists extra,
      selectedFiles (browseFiles st) = selectedFiles st ++ extra /\
      incl extra mockFiles) /\
  (forall file, In file mockFiles ->
                findByPath (selectedFiles (browseFiles st)) (file_path file) = true) /\
  selectedFiles (browseFiles (browseFiles st)) = selectedFiles (browseFiles st).
Proof.
  assert (Hsel : forall s, selectedFiles (browseFiles s) =
                           fold_left addIfAbsent mockFiles (selectedFiles s))
    by reflexivity.
  split; [| split].
  - rewrite Hsel. apply fold_addIfAbsent_extends.
  - intros file Hin. rewrite Hsel. now apply findByPath_all_added.
  - rewrite (Hsel (browseFiles st)). apply fold_addIfAbsent_found.
    intros file Hin. rewrite Hsel. now apply findByPath_all_added.
Qed.

Lemma run_keeps_files (evs : list event) (st st' : App) :
  run st evs = Some st' ->
  forallb (fun ev => negb (changesFiles ev)) evs = true ->
  selectedFiles st' = selectedFiles st.
Proof.
  revert st; induction evs as [|ev evs IH]; intros st; cbn [run forallb].
  - now intros [= <-].
  - destruct (step st ev) as [st1|] eqn:Hstep; [| discriminate].
    intros Hrun Hnone. apply andb_true_iff in Hnone as [Hev Hrest].
    rewrite (IH st1 Hrun Hrest), (step_selectedFiles _ _ _ Hstep).
    destruct ev; try reflexivity; discriminate.
Qed.

(** X4. Only the file browser and the remove buttons change the selected
    files: over any run of the event loop without those two events the list
    stays as it was.  In particular a submission, successful or not, does
    not clear the selection. *)
Theorem files_kept_without_file_events (st st' : App) (evs : list event) :
  run st evs = Some st' ->
  forallb (fun ev => negb (changesFiles ev)) evs = true ->
  selectedFiles st' = selectedFiles st.
Proof.
  intros Hrun Hnone. exact (run_keeps_files evs st st' Hrun Hnone).
Qed.

(** A successful submission made with the three mock files selected. *)
Lemma files_kept_without_file_events_witness :
  exists st',
    run (browseFiles typedApp)
        [KeyCtrlEnter;
         ContextSettles 1 hostWithoutSelection;
         FetchSettles 1 (Response 200 "OK");
         JsonSettles 1 (ret (JObj auditFields)) 1735732800000 "1/1/2025, 12:00:00 PM" true]
      = Some st' /\
    inputText st' = "" /\
    selectedFiles st' = mockFiles.
Proof.
  eexists. split; [reflexivity | split; [reflexivity |]].
  apply (files_kept_without_file_events (browseFiles typedApp) _
           [KeyCtrlEnter;
            ContextSettles 1 hostWithoutSelection;
            FetchSettles 1 (Response 200 "OK");
            JsonSettles 1 (ret (JObj auditFields)) 1735732800000 "1/1/2025, 12:00:00 PM" true]).
  - reflexivity.
  - reflexivity.
Defined.

Lemma fileItems_nth (files : list File) (index k : nat) :
  nth_error (fileItems index files) k =
  option_map (fileEntry (index + k)) (nth_error files k).
Proof.
  revert index k; induction files as [|file files IH]; intros index [|k];
    cbn [fileItems nth_error option_map]; try reflexivity.
  - now rewrite Nat.add_0_r.
  - rewrite IH. now rewrite Nat.add_succ_r.
Qed.

Lemma fileItems_length (files : list File) (index : nat) :
  List.length (fileItems index files) = List.length files.
Proof.
  revert index; induction files as [|file files IH]; intros index; cbn; auto.
Qed.

Lemma filesPanel_onResult query body now nowText accepted st :
  innerHTML (getElementById (onResult query body now nowText accepted st) "selected-files") =
  innerHTML (getElementById st "selected-files").
Proof.
  now rewrite onResult_elements.
Qed.

Lemma filesPanel_connectionChecked body st :
  innerHTML (getElementById (connectionChecked body st) "selected-files") =
  innerHTML (getElementById st "selected-files").
Proof.
  unfold connectionChecked. split_cases.
Qed.

(** The events that do not write [selectedFiles] leave the files panel
    alone. *)
Lemma step_filesPanel (st st' : App) (ev : event) :
  step st ev = Some st' ->
  changesFiles ev = false ->
  innerHTML (getElementById st' "selected-files") =
  innerHTML (getElementById st "selected-files").
Proof.
  destruct ev; cbn [step changesFiles]; intros H Hev; try discriminate;
    try (injection H as <-; reflexivity).
  - destruct (disabled _); [discriminate | injection H as <-].
    unfold handleSubmitRequest; split_cases.
  - injection H as <-.
    rewrite clearHistory_eq. unfold saveHistory, setItem_history; split_cases.
  - injection H as <-. unfold saveSettings, setItem_settings; split_cases.
  - injection H as <-. unfold handleSubmitRequest; split_cases.
  - injection H as <-. unfold inputMonitor; split_cases.
  - destruct (nth_error _ _) as [[]|]; try discriminate.
    destruct (getCurrentExcelContext h); try discriminate;
      injection H as <-; reflexivity.
  - destruct (nth_error _ _) as [[]|]; try discriminate.
    + unfold onResponse in H. destruct r as [e | status statusText].
      * injection H as <-; reflexivity.
      * destruct (ok status); injection H as <-; reflexivity.
    + destruct r as [e | status statusText].
      * injection H as <-; reflexivity.
      * destruct (ok status); injection H as <-; reflexivity.
  - destruct (nth_error _ _) as [[]|]; try discriminate; injection H as <-.
    + apply (filesPanel_onResult query body now nowText accepted
               (with_pending (removeAt i (pending st)) st)).
    + apply (filesPanel_connectionChecked body
               (with_pending (removeAt i (pending st)) st)).
Qed.

Lemma step_filesShown (st st' : App) (ev : event) :
  step st ev = Some st' -> filesShown st -> filesShown st'.
Proof.
  intros Hstep Hshown. unfold filesShown in *.
  destruct (changesFiles ev) eqn:Hev.
  - destruct ev; try discriminate; cbn [step] in Hstep;
      injection Hstep as <-; reflexivity.
  - rewrite (step_filesPanel _ _ _ Hstep Hev), (step_selectedFiles _ _ _ Hstep), Hshown.
    destruct ev; try reflexivity; discriminate.
Qed.

(** X5. The files panel follows the selection: if it shows the selected
    files, it still does after any run of the event loop.  What it shows is
    one entry per selected file, in order, the entry at position [k] showing
    the name and path of the [k]-th file and calling [removeFile(k)] on a
    click, which is the index at which [removeFile] finds that file. *)
Theorem files_panel_follows_selection (st st' : App) (evs : list event) :
  filesShown st ->
  run st evs = Some st' ->
  filesShown st' /\
  List.length (innerHTML (getElementById st' "selected-files")) =
    List.length (selectedFiles st') /\
  (forall k file,
      nth_error (selectedFiles st') k = Some file ->
      nth_error (innerHTML (getElementById st' "selected-files")) k =
        Some (fileEntry k file)).
Proof.
  intros Hshown Hrun.
  assert (Hshown' : filesShown st').
  { revert st Hshown Hrun. induction evs as [|ev evs IH]; intros st Hshown; cbn [run].
    - now intros [= <-].
    - destruct (step st ev) as [st1|] eqn:Hstep; [| discriminate].
      intros Hrun. apply (IH st1); [now apply (step_filesShown st st1 ev) | exact Hrun]. }
  split; [exact Hshown' | split].
  - rewrite Hshown'. apply fileItems_length.
  - intros k file Hk. rewrite Hshown', fileItems_nth, Hk. reflexivity.
Qed.

(** After browsing, removing the first file and browsing again, the panel's
    third entry is the re-added first mock file, with [removeFile(2)]. *)
Lemma files_panel_follows_selection_witness :
  exists st',
    run startedApp [ClickBrowseFiles; ClickRemoveFile 0; ClickBrowseFiles] = Some st' /\
    nth_error (innerHTML (getElementById st' "selected-files")) 2 =
      Some (fileEntry 2 (mkFile "Q1_Sales.xlsx" "C:\Reports\Q1_Sales.xlsx")).
Proof.
  eexists. split; [reflexivity |].
  destruct (files_panel_follows_selection startedApp _
              [ClickBrowseFiles; ClickRemoveFile 0; ClickBrowseFiles]
              eq_refl eq_refl) as [_ [_ H]].
  apply H. reflexivity.
Defined.

(** ** History: what is kept in memory and what is stored *)

Lemma additionWhole_accepts (items : list jsval) :
  additionWhole (JArr items) = true ->
  forallb entryDisplays (firstn 19 items) = true.
Proof.
  intros H. exact H.
Qed.

Lemma run_history_persisted (evs : list event) (st st' : App) :
  storedHistory (localStorage st) = operationHistory st ->
  additionWhole (operationHistory st) = true ->
  forallb historyWriteAccepted evs = true ->
  run st evs = Some st' ->
  storedHistory (localStorage st') = operationHistory st' /\
  additionWhole (operationHistory st') = true.
Proof.
  revert st; induction evs as [|ev evs IH]; intros st Hsame Hwhole; cbn [run forallb].
  - intros _ [= <-]. auto.
  - intros Hacc. apply andb_true_iff in Hacc as [Hev Hrest].
    destruct (step st ev) as [st1|] eqn:Hstep; [| discriminate].
    assert (Hboth : storedHistory (localStorage st1) = operationHistory st1 /\
                    additionWhole (operationHistory st1) = true).
    { destruct (step_history _ _ _ Hstep)
        as [[H1 H2] | [[H1 H2] | [item [items [Hitems [Hitem [H1 H2]]]]]]].
      - unfold storedHistory. rewrite H2, H1. auto.
      - unfold storedHistory. rewrite H2, Hev, H1. auto.
      - rewrite Hitems in Hwhole. apply additionWhole_accepts in Hwhole.
        destruct H2 as [[_ H2] | [Hbad _]]; [| congruence].
        unfold storedHistory. rewrite H2, Hev. split; [reflexivity |].
        rewrite H1. unfold additionWhole. rewrite (acceptsEntry_cons _ _ Hitem Hwhole).
        apply orb_true_r. }
    intros Hrun. exact (IH st1 (proj1 Hboth) (proj2 Hboth) Hrest Hrun).
Qed.

(** X6. The history survives a reload.  Start-up may find anything under the
    history key: nothing, text that does not parse, a value that is not an
    array, or an array; for an array, the first nineteen entries have to be
    ones that the history panel can show (the twentieth is dropped by the
    next addition).  Then after any run of the event loop in which local
    storage accepts the history writes, what is stored is what is in memory,
    so that the task pane started again on a reloaded page has the same
    history. *)
Theorem history_survives_reload
        (doc fresh : Document) (store : Storage) (evs : list event) (st : App) :
  additionWhole (storedHistory store) = true ->
  forallb historyWriteAccepted evs = true ->
  run (initializeTaskPane (initialApp doc store)) evs = Some st ->
  storedHistory (localStorage st) = operationHistory st /\
  operationHistory (initializeTaskPane (reloadPage fresh st)) = operationHistory st.
Proof.
  intros Hwhole Hacc Hrun.
  destruct (operationHistory_initializeTaskPane doc store) as [Hinit Hstore].
  assert (Hsame : storedHistory (localStorage st) = operationHistory st).
  { apply (run_history_persisted evs (initializeTaskPane (initialApp doc store)) st);
      [| | exact Hacc | exact Hrun].
    - now rewrite Hinit, Hstore.
    - now rewrite Hinit. }
  split; [exact Hsame |].
  unfold reloadPage.
  destruct (operationHistory_initializeTaskPane fresh (localStorage st)) as [-> _].
  exact Hsame.
Qed.

(** A request typed and submitted with success, then a reload. *)
Lemma history_survives_reload_witness :
  exists st,
    run startedApp
        [TypeInput "Audit my formulas";
         KeyCtrlEnter;
         ContextSettles 1 hostWithoutSelection;
         FetchSettles 1 (Response 200 "OK");
         JsonSettles 1 (ret (JObj auditFields)) 1735732800000 "1/1/2025, 12:00:00 PM" true]
      = Some st /\
    map (fun item => propOf item "query")
        (elements (operationHistory (initializeTaskPane (reloadPage blankDocument st)))) =
      [JStr "Audit my formulas"].
Proof.
  eexists. split; [reflexivity |].
  destruct (history_survives_reload
              blankDocument blankDocument emptyStorage
              [TypeInput "Audit my formulas";
               KeyCtrlEnter;
               ContextSettles 1 hostWithoutSelection;
               FetchSettles 1 (Response 200 "OK");
               JsonSettles 1 (ret (JObj auditFields)) 1735732800000
                           "1/1/2025, 12:00:00 PM" true]
              _ eq_refl eq_refl eq_refl) as [_ H].
  exact (eq_trans
           (f_equal (fun h => map (fun item => propOf item "query") (elements h)) H)
           eq_refl).
Defined.

(** Why the stored entries have to be ones that can be shown: with the text
    of [[null]] in local storage at start-up, a successful response puts its
    entry into the history in memory, the display throws on the null, and
    the write is never made; a reload would bring back [[null]]. *)
Example history_behind_a_null_entry :
  option_map (fun st => (List.length (elements (operationHistory st)),
                         storedHistory (localStorage st), inputText st))
    (run (setEl "natural-language-input" (setValue "Audit my formulas")
            (initializeTaskPane
               (initialApp blankDocument (mkStorage None (Some (Parses (JArr [JNull])))))))
         [KeyCtrlEnter;
          ContextSettles 1 hostWithoutSelection;
          FetchSettles 1 (Response 200 "OK");
          JsonSettles 1 (ret (JObj auditFields)) 1735732800000 "1/1/2025, 12:00:00 PM" true]) =
    Some (2%nat, JArr [JNull], "Audit my formulas").
Proof.
  reflexivity.
Qed.





(** X8. A refused write of the history is swallowed: when local storage
    rejects it at the end of a successful submission whose entry the history
    takes, the submission still ends as a success (input cleared, entry at
    the front of the history in memory, overlay hidden), and local storage is
    left exactly as it was, so that a reload would not show the entry. *)
Theorem history_write_refused
        (st : App) (i : nat) (query : string) (result : jsval) (now : Z) (nowText : string)
        (items : list jsval) :
  nth_error (pending st) i = Some (AwaitJson query) ->
  reportsSuccess (ret result) = true ->
  rendersCleanly (ret result) = true ->
  operationHistory st = JArr items ->
  forallb entryDisplays (firstn 19 items) = true ->
  exists st',
    step st (JsonSettles i (ret result) now nowText false) = Some st' /\
    inputText st' = "" /\
    operationHistory st' =
      JArr (firstn 20 (historyItem now query result nowText :: items)) /\
    loadingShown st' = false /\
    localStorage st' = localStorage st.
Proof.
  intros Hi Hsuccess Hrendered Hitems Hshown. cbn [step]. rewrite Hi.
  eexists. split; [reflexivity |].
  destruct (onResult_success query result now nowText false
              (with_pending (removeAt i (pending st)) st) items Hsuccess Hrendered
              Hitems Hshown)
    as [Hinput Hhistory].
  split; [exact Hinput | split; [exact Hhistory | split; [apply onResult_ends |]]].
  rewrite (onResult_rendered query result now nowText false
             (with_pending (removeAt i (pending st)) st) Hsuccess Hrendered).
  destruct (addToHistory_array query result now nowText false
              (setEl "results-content" (setInnerHTML (fst (renderResult result [])))
                 (with_pending (removeAt i (pending st)) st))
              items Hitems) as [Hok _].
  destruct (Hok Hshown) as [markup [_ ->]]. reflexivity.
Qed.

(** The sample audit response with storage full. *)
Lemma history_write_refused_witness :
  exists st',
    step awaitingBody
         (JsonSettles 1 (ret (JObj auditFields)) 1735732800000 "1/1/2025, 12:00:00 PM" false)
      = Some st' /\
    inputText st' = "" /\
    List.length (elements (operationHistory st')) = 1%nat /\
    storedHistory (localStorage st') = JArr [].
Proof.
  destruct (history_write_refused awaitingBody 1 "Audit my formulas" (JObj auditFields)
              1735732800000%Z "1/1/2025, 12:00:00 PM" [] eq_refl eq_refl eq_refl
              eq_refl eq_refl)
    as [st' [Hstep [Hinput [Hhistory [_ Hstore]]]]].
  exists st'. split; [exact Hstep | split; [exact Hinput | split]].
  - rewrite Hhistory. reflexivity.
  - rewrite Hstore. reflexivity.
Defined.

Lemma historyShown_same (st st' : App) :
  innerHTML (getElementById st' "history-content") =
    innerHTML (getElementById st "history-content") ->
  operationHistory st' = operationHistory st ->
  historyShown st -> historyShown st'.
Proof.
  unfold historyShown. intros Hpanel Hhistory Hshown. now rewrite Hpanel, Hhistory.
Qed.

Lemma historyEntries_each (items : list jsval) (entries : list node) :
  historyEntries items = ret entries ->
  Forall2 (fun item entry => historyEntry item = ret entry) items entries.
Proof.
  revert entries; induction items as [|item items IH]; intros entries;
    cbn [historyEntries].
  - intros [= <-]. constructor.
  - destruct (historyEntry item) as [e | entry] eqn:E; [discriminate |].
    destruct (historyEntries items) as [e | rest]; [discriminate |].
    intros [= <-]. constructor; [exact E | now apply IH].
Qed.

(** A history shown in the panel is one whose entries can all be shown. *)
Lemma historyShown_displays (st : App) (items : list jsval) :
  historyShown st -> operationHistory st = JArr items ->
  forallb entryDisplays items = true.
Proof.
  unfold historyShown. intros Hshown Hitems. rewrite Hitems in Hshown.
  destruct items as [|item items]; [reflexivity |].
  rewrite historyMarkup_nonempty in Hshown.
  rewrite <- historyEntries_displays, Hshown. reflexivity.
Qed.

Lemma saveHistory_shown (accepted : bool) (st : App) :
  historyShown st -> historyShown (saveHistory accepted st).
Proof.
  apply historyShown_same; unfold saveHistory, setItem_history; destruct accepted; reflexivity.
Qed.

Lemma markup_shown (st : App) (markup : list node) :
  historyMarkup (operationHistory st) = ret markup ->
  historyShown (setEl "history-content" (setInnerHTML markup) st).
Proof.
  intros H. exact H.
Qed.

Lemma onResult_shown query body now nowText accepted st :
  historyShown st -> historyShown (onResult query body now nowText accepted st).
Proof.
  intros Hshown.
  assert (Hfailed : forall e f,
             historyShown (requestFailed e (setEl "results-content" f st))).
  { intros e f. revert Hshown. now apply historyShown_same. }
  destruct (reportsSuccess body && rendersCleanly body) eqn:Hok.
  - apply andb_true_iff in Hok as [Hreported Hrendered].
    destruct body as [e | result]; [discriminate |].
    pose proof (onResult_rendered query result now nowText accepted st Hreported Hrendered)
      as Hrun.
    unfold ret in Hrun. rewrite Hrun. clear Hrun.
    destruct (addToHistory_cases query result now nowText accepted
                (setEl "results-content" (setInnerHTML (fst (renderResult result []))) st))
      as [[_ [e ->]] | [items [Hitems [[_ [markup [Hmarkup ->]]] | [Hbad [e ->]]]]]].
    + apply Hfailed.
    + assert (Hnew : historyShown
                       (saveHistory accepted
                          (setEl "history-content" (setInnerHTML markup)
                             (with_operationHistory
                                (JArr (firstn 20 (historyItem now query result nowText
                                                              :: items)))
                                (setEl "results-content"
                                   (setInnerHTML (fst (renderResult result []))) st))))).
      { apply saveHistory_shown, markup_shown. exact Hmarkup. }
      revert Hnew. apply historyShown_same; reflexivity.
    + cbn [operationHistory setEl with_document] in Hitems.
      pose proof (historyShown_displays st items Hshown Hitems) as Hall.
      rewrite (forallb_firstn _ 19 _ Hall) in Hbad. discriminate.
  - unfold reportsSuccess, rendersCleanly in Hok. unfold onResult, showResults.
    destruct body as [e | result]; [exact Hshown |].
    destruct (getProp result "success") as [e | success]; [exact Hshown |].
    destruct (truthy success); cbn [andb] in Hok.
    + destruct (snd (renderResult result [])) as [e | u]; [| discriminate].
      cbn [fst]. apply Hfailed.
    + destruct (error <- getProp result "error" ;;
                toStr (jsOr error (JStr "Operation failed"))); exact Hshown.
Qed.

Lemma step_historyShown (st st' : App) (ev : event) :
  step st ev = Some st' -> historyShown st -> historyShown st'.
Proof.
  destruct ev; cbn [step]; intros H Hshown;
    try (injection H as <-; exact Hshown).
  - destruct (disabled _); [discriminate | injection H as <-].
    unfold handleSubmitRequest. destruct (isEmpty _); exact Hshown.
  - injection H as <-. rewrite clearHistory_eq.
    apply saveHistory_shown, markup_shown. reflexivity.
  - injection H as <-. unfold saveSettings, setItem_settings.
    destruct accepted; exact Hshown.
  - injection H as <-. unfold handleSubmitRequest. destruct (isEmpty _); exact Hshown.
  - injection H as <-. unfold inputMonitor.
    destruct (_ || _); [destruct (selectedFiles st) |]; exact Hshown.
  - destruct (nth_error _ _) as [[]|]; try discriminate.
    destruct (getCurrentExcelContext h); try discriminate;
      injection H as <-; exact Hshown.
  - destruct (nth_error _ _) as [[]|]; try discriminate.
    + unfold onResponse in H. destruct r as [e | status statusText].
      * injection H as <-; exact Hshown.
      * destruct (ok status); injection H as <-; exact Hshown.
    + destruct r as [e | status statusText].
      * injection H as <-; exact Hshown.
      * destruct (ok status); injection H as <-; exact Hshown.
  - destruct (nth_error _ _) as [[]|]; try discriminate; injection H as <-.
    + apply onResult_shown. exact Hshown.
    + unfold connectionChecked. destruct body as [e | data]; [exact Hshown |].
      destruct (service <- interp data "service" ;; _); exact Hshown.
Qed.

(** X9. The history panel follows the history: if it shows the history, it
    still does after any run of the event loop, with the placeholder "No
    operations yet" for an empty history and otherwise one entry per
    operation, newest first; and it shows the history at start-up whenever a
    stored history was loaded of which the markup can be built, as it can of
    every stored list of entries that can be shown, and only then. *)
Theorem history_panel_follows_history (st st' : App) (evs : list event) :
  historyShown st ->
  run st evs = Some st' ->
  historyShown st' /\
  (operationHistory st' = JArr [] ->
   innerHTML (getElementById st' "history-content") =
     [el "p" "ms-fontColor-neutralSecondary" [Text "No operations yet"]]) /\
  (forall items,
      operationHistory st' = JArr items -> items <> [] ->
      Forall2 (fun item entry => historyEntry item = ret entry)
              items (innerHTML (getElementById st' "history-content"))) /\
  (forall doc store h,
      lyncformula_history store = Some (Parses h) ->
      (historyShown (initializeTaskPane (initialApp doc store)) <->
       succeeds (historyMarkup h) = true)) /\
  (forall items, succeeds (historyMarkup (JArr items)) = forallb entryDisplays items).
Proof.
  intros Hshown Hrun.
  assert (Hshown' : historyShown st').
  { revert st Hshown Hrun. induction evs as [|ev evs IH]; intros st Hshown; cbn [run].
    - now intros [= <-].
    - destruct (step st ev) as [st1|] eqn:Hstep; [| discriminate].
      intros Hrun. apply (IH st1); [now apply (step_historyShown st st1 ev) | exact Hrun]. }
  split; [exact Hshown' | split; [| split; [| split]]].
  - intros Hempty. unfold historyShown in Hshown'. rewrite Hempty in Hshown'.
    change (historyMarkup (JArr []))
      with (@inr thrown _ [el "p" "ms-fontColor-neutralSecondary" [Text "No operations yet"]])
      in Hshown'.
    unfold ret in Hshown'. injection Hshown' as Hpanel. now rewrite <- Hpanel.
  - intros items Hitems Hsome. unfold historyShown in Hshown'. rewrite Hitems in Hshown'.
    destruct items as [|item items]; [congruence |].
    rewrite historyMarkup_nonempty in Hshown'. now apply historyEntries_each.
  - intros doc store h Hstored. unfold initializeTaskPane, loadHistory.
    destruct (loadSettings_keeps_history (checkServiceConnection (initialApp doc store)))
      as [-> _].
    cbn [localStorage checkServiceConnection with_pending initialApp].
    rewrite Hstored. unfold updateHistoryDisplay.
    cbn [operationHistory with_operationHistory].
    destruct (historyMarkup h) as [e | markup] eqn:E; cbn [fst succeeds].
    + split; [| discriminate]. unfold historyShown.
      cbn [operationHistory with_operationHistory]. rewrite E. discriminate.
    + split; [reflexivity |]. intros _. apply markup_shown. exact E.
  - intros [|item items]; [reflexivity |].
    now rewrite historyMarkup_nonempty, historyEntries_displays.
Qed.

(** A successful submission from a panel that shows the placeholder. *)
Lemma history_panel_follows_history_witness :
  exists st',
    run (fst (updateHistoryDisplay awaitingBody))
        [JsonSettles 1 (ret (JObj auditFields)) 1735732800000 "1/1/2025, 12:00:00 PM" true]
      = Some st' /\
    map textOf (innerHTML (getElementById st' "history-content")) =
      ["Audit my formulas1/1/2025, 12:00:00 PM"].
Proof.
  eexists. split; [reflexivity |].
  assert (Hshown : historyShown (fst (updateHistoryDisplay awaitingBody))) by reflexivity.
  destruct (history_panel_follows_history (fst (updateHistoryDisplay awaitingBody)) _
              [JsonSettles 1 (ret (JObj auditFields)) 1735732800000
                           "1/1/2025, 12:00:00 PM" true]
              Hshown eq_refl) as [H _].
  exact (eq_sym
           (f_equal (fun markup : Exc (list node) =>
                       match markup with
                       | inr entries => map textOf entries
                       | inl _ => []
                       end) H)).
Defined.

(** ** Start-up and settings *)

Lemma loadHistory_keeps (st : App) :
  pending (loadHistory st) = pending st /\
  serviceUrl (loadHistory st) = serviceUrl st /\
  localStorage (loadHistory st) = localStorage st.
Proof.
  unfold loadHistory, updateHistoryDisplay.
  destruct (lyncformula_history (localStorage st)) as [[h |] |];
    [destruct (historyMarkup _) | |]; repeat split.
Qed.

Lemma loadSettings_keeps_pending (st : App) : pending (loadSettings st) = pending st.
Proof.
  unfold loadSettings.
  destruct (lyncformula_settings (localStorage st)) as [[settings |] |];
    [| reflexivity | reflexivity].
  destruct (isEmpty (settings_serviceUrl settings)),
           (isEmpty (settings_llmModel settings)); reflexivity.
Qed.

Lemma serviceUrl_loadSettings (st : App) (settings : Settings) :
  lyncformula_settings (localStorage st) = Some (Parses settings) ->
  serviceUrl (loadSettings st) =
  if isEmpty (settings_serviceUrl settings) then serviceUrl st
  else settings_serviceUrl settings.
Proof.
  intros Hstored. unfold loadSettings. rewrite Hstored.
  destruct (isEmpty (settings_serviceUrl settings)),
           (isEmpty (settings_llmModel settings)); reflexivity.
Qed.

(** X10. The health check made at start-up always goes to the built-in
    address http://127.0.0.1:8700/health, whatever service URL is stored in
    the settings: [initializeTaskPane] starts the check before it loads the
    settings.  A stored, non-empty service URL is the active one from then
    on, and the next health check goes to it. *)
Theorem startup_health_check_default_url (doc : Document) (store : Storage) :
  pending (initializeTaskPane (initialApp doc store)) =
    [AwaitHealth "http://127.0.0.1:8700/health"] /\
  (forall settings,
      lyncformula_settings store = Some (Parses settings) ->
      settings_serviceUrl settings <> "" ->
      serviceUrl (initializeTaskPane (initialApp doc store)) =
        settings_serviceUrl settings /\
      step (initializeTaskPane (initialApp doc store)) HealthTimer =
        Some (with_pending
                [AwaitHealth "http://127.0.0.1:8700/health";
                 AwaitHealth (settings_serviceUrl settings ++ "/health")]
                (initializeTaskPane (initialApp doc store)))).
Proof.
  assert (Hpending : pending (initializeTaskPane (initialApp doc store)) =
                     [AwaitHealth "http://127.0.0.1:8700/health"]).
  { unfold initializeTaskPane.
    destruct (loadHistory_keeps (loadSettings (checkServiceConnection (initialApp doc store))))
      as [-> _].
    now rewrite loadSettings_keeps_pending. }
  split; [exact Hpending |].
  intros settings Hstored Hurl.
  assert (Hactive : serviceUrl (initializeTaskPane (initialApp doc store)) =
                    settings_serviceUrl settings).
  { unfold initializeTaskPane.
    destruct (loadHistory_keeps (loadSettings (checkServiceConnection (initialApp doc store))))
      as [_ [-> _]].
    rewrite (serviceUrl_loadSettings
               (checkServiceConnection (initialApp doc store)) settings Hstored).
    destruct (settings_serviceUrl settings); [congruence | reflexivity]. }
  split; [exact Hactive |].
  cbn [step]. unfold checkServiceConnection. now rewrite Hpending, Hactive.
Qed.

(** Start-up with the service URL http://x stored. *)
Lemma startup_health_check_default_url_witness :
  let store := mkStorage (Some (Parses (mkSettings "http://x" "m" true))) None in
  pending (initializeTaskPane (initialApp blankDocument store)) =
    [AwaitHealth "http://127.0.0.1:8700/health"] /\
  serviceUrl (initializeTaskPane (initialApp blankDocument store)) = "http://x".
Proof.
  intros store.
  destruct (startup_health_check_default_url blankDocument store) as [Hpending Hstored].
  split; [exact Hpending |].
  destruct (Hstored (mkSettings "http://x" "m" true) eq_refl) as [Hactive _].
  - cbn. discriminate.
  - exact Hactive.
Defined.

(** X11. Saving an empty service URL does not round-trip: for the rest of the
    session the active URL is empty (the next health check goes to the
    relative address /health), but the loader skips an empty stored URL as
    falsy, so after a reload the active URL is the built-in one again and the
    service-URL field is not filled in; the model name and the backup flag
    are restored as usual. *)
Theorem empty_service_url_not_restored
        (st : App) (fresh : Document) (model : string) (backup : bool) :
  model <> "" ->
  let edited :=
    setEl "auto-backup" (setChecked backup)
      (setEl "llm-model" (setValue model)
         (setEl "service-url" (setValue "") st)) in
  let saved := saveSettings true edited in
  let restarted := initializeTaskPane (reloadPage fresh saved) in
  serviceUrl saved = "" /\
  pending saved = pending st ++ [AwaitHealth "/health"] /\
  serviceUrl restarted = "http://127.0.0.1:8700" /\
  value (getElementById restarted "service-url") = value (fresh "service-url") /\
  value (getElementById restarted "llm-model") = model /\
  checked (getElementById restarted "auto-backup") = backup.
Proof.
  intros Hmodel edited saved restarted.
  assert (Hrestart : restarted =
                     loadHistory (loadSettings (checkServiceConnection (reloadPage fresh saved))))
    by reflexivity.
  destruct model as [|c model]; [congruence |].
  split; [reflexivity | split; [reflexivity |]].
  rewrite Hrestart, serviceUrl_loadHistory,
    !settings_elements_loadHistory by reflexivity.
  repeat split.
Qed.

(** Saved from the started task pane, restored on a blank document. *)
Lemma empty_service_url_not_restored_witness :
  let saved :=
    saveSettings true
      (setEl "auto-backup" (setChecked true)
         (setEl "llm-model" (setValue "m")
            (setEl "service-url" (setValue "") startedApp))) in
  serviceUrl saved = "" /\
  serviceUrl (initializeTaskPane (reloadPage blankDocument saved)) = "http://127.0.0.1:8700".
Proof.
  intros saved.
  assert (Hmodel : "m" <> "") by discriminate.
  destruct (empty_service_url_not_restored startedApp blankDocument "m" true Hmodel)
    as [Hsaved [_ [Hrestarted _]]].
  split; [exact Hsaved | exact Hrestarted].
Defined.

(** X12. A refused write of the settings leaves everything in place: the
    active service URL, local storage, the pending handlers (no health check
    is started), the settings panel and the notifications are as before;
    only the results panel changes, to show "Failed to save settings".  A
    reload then restores the settings stored before, not the edited ones. *)
Theorem settings_write_refused
        (st : App) (fresh : Document) (url model : string) (backup : bool) :
  let edited :=
    setEl "auto-backup" (setChecked backup)
      (setEl "llm-model" (setValue model)
         (setEl "service-url" (setValue url) st)) in
  run st [EditSettings url model backup; ClickSaveSettings false] =
    Some (showError "Failed to save settings" edited) /\
  serviceUrl (saveSettings false edited) = serviceUrl st /\
  localStorage (saveSettings false edited) = localStorage st /\
  pending (saveSettings false edited) = pending st /\
  notifications (saveSettings false edited) = notifications st /\
  display (getElementById (saveSettings false edited) "settings-panel") =
    display (getElementById st "settings-panel") /\
  initializeTaskPane (reloadPage fresh (saveSettings false edited)) =
    initializeTaskPane (reloadPage fresh st).
Proof.
  repeat split.
Qed.

(** X13. The settings round trip for any settings: whatever non-empty
    service URL and model name are saved, with either value of the backup
    flag, a restart on a reloaded page restores the three fields and makes the
    saved URL the one that requests and the next health check go to.  The two
    text fields have to be non-empty: the loader skips an empty one. *)
Theorem settings_round_trip_nonempty
        (st : App) (fresh : Document) (url model : string) (backup : bool) :
  url <> "" -> model <> "" ->
  let edited :=
    setEl "auto-backup" (setChecked backup)
      (setEl "llm-model" (setValue model)
         (setEl "service-url" (setValue url) st)) in
  let saved := saveSettings true edited in
  let restarted := initializeTaskPane (reloadPage fresh saved) in
  run st [EditSettings url model backup; ClickSaveSettings true] = Some saved /\
  value (getElementById restarted "service-url") = url /\
  value (getElementById restarted "llm-model") = model /\
  checked (getElementById restarted "auto-backup") = backup /\
  serviceUrl restarted = url /\
  (forall query context,
      exists body,
        sendRequest query context restarted =
        AwaitFetch query (url ++ determineEndpoint restarted query) body) /\
  step restarted HealthTimer =
    Some (with_pending (pending restarted ++ [AwaitHealth (url ++ "/health")]) restarted).
Proof.
  intros Hurl Hmodel edited saved restarted.
  assert (Hrestart : restarted =
                     loadHistory (loadSettings (checkServiceConnection (reloadPage fresh saved))))
    by reflexivity.
  assert (Hactive : serviceUrl restarted = url).
  { rewrite Hrestart, serviceUrl_loadHistory.
    destruct url as [|c url]; [congruence |].
    destruct model as [|d model]; [congruence | reflexivity]. }
  split; [reflexivity |].
  split; [| split; [| split; [| split; [exact Hactive | split]]]].
  - rewrite Hrestart, settings_elements_loadHistory by reflexivity.
    destruct url as [|c url]; [congruence |].
    destruct model as [|d model]; [congruence | reflexivity].
  - rewrite Hrestart, settings_elements_loadHistory by reflexivity.
    destruct url as [|c url]; [congruence |].
    destruct model as [|d model]; [congruence | reflexivity].
  - rewrite Hrestart, settings_elements_loadHistory by reflexivity.
    destruct url as [|c url]; [congruence |].
    destruct model as [|d model]; [congruence | reflexivity].
  - intros query context. eexists. unfold sendRequest. rewrite Hactive. reflexivity.
  - cbn [step]. unfold checkServiceConnection. rewrite Hactive. reflexivity.
Qed.

(** Settings other than those of C5, saved from the started task pane. *)
Lemma settings_round_trip_nonempty_witness :
  let saved :=
    saveSettings true
      (setEl "auto-backup" (setChecked false)
         (setEl "llm-model" (setValue "llama3")
            (setEl "service-url" (setValue "http://localhost:9000") startedApp))) in
  let restarted := initializeTaskPane (reloadPage blankDocument saved) in
  serviceUrl restarted = "http://localhost:9000" /\
  value (getElementById restarted "llm-model") = "llama3" /\
  checked (getElementById restarted "auto-backup") = false.
Proof.
  intros saved restarted.
  assert (Hurl : "http://localhost:9000" <> "") by discriminate.
  assert (Hmodel : "llama3" <> "") by discriminate.
  destruct (settings_round_trip_nonempty startedApp blankDocument
              "http://localhost:9000" "llama3" false Hurl Hmodel)
    as [_ [_ [H2 [H3 [H1 _]]]]].
  split; [exact H1 | split; [exact H2 | exact H3]].
Defined.

(** ** Submit flow: what a request is built from, and the overlay *)

Lemma nth_error_at_length {A : Type} (l rest : list A) (x : A) :
  nth_error (l ++ x :: rest) (List.length l) = Some x.
Proof.
  induction l as [|a l IH]; cbn; [reflexivity | exact IH].
Qed.

Lemma replaceAt_at_length {A : Type} (l rest : list A) (x y : A) :
  replaceAt (List.length l) y (l ++ x :: rest) = l ++ y :: rest.
Proof.
  induction l as [|a l IH]; cbn; [reflexivity | now rewrite IH].
Qed.

(** X14. The query of a request is the trimmed input as it was when the
    submission was made, but the selected files, the route and the service
    URL are read when the Excel context arrives: text typed in between does
    not change the query; files browsed in between are sent along and decide
    the route; settings saved in between redirect the request. *)
Theorem request_built_when_context_arrives (st : App) (h : HostRun) :
  trim (inputText st) <> "" ->
  let query := trim (inputText st) in
  let n := List.length (pending st) in
  exists context,
    getCurrentExcelContext h = Resolved context /\
    (forall text, exists st',
        run st [KeyCtrlEnter; TypeInput text; ContextSettles n h] = Some st' /\
        pending st' =
          pending st ++
          [AwaitFetch query (serviceUrl st ++ determineEndpoint st query)
             (JObj [("query", JStr query);
                    ("files", JArr (map fileJson (selectedFiles st)));
                    ("context", context)])]) /\
    (exists st',
        run st [KeyCtrlEnter; ClickBrowseFiles; ContextSettles n h] = Some st' /\
        pending st' =
          pending st ++
          [AwaitFetch query (serviceUrl st ++ determineEndpoint (browseFiles st) query)
             (JObj [("query", JStr query);
                    ("files", JArr (map fileJson (selectedFiles (browseFiles st))));
                    ("context", context)])]) /\
    (forall url model backup, exists st',
        run st [KeyCtrlEnter; EditSettings url model backup; ClickSaveSettings true;
                ContextSettles n h] = Some st' /\
        pending st' =
          pending st ++
          [AwaitFetch query (url ++ determineEndpoint st query)
             (JObj [("query", JStr query);
                    ("files", JArr (map fileJson (selectedFiles st)));
                    ("context", context)]);
           AwaitHealth (url ++ "/health")]).
Proof.
  intros Hinput query n.
  destruct (getCurrentExcelContext_resolves h) as [context Hcontext].
  exists context. split; [exact Hcontext |].
  assert (Hsubmit : step st KeyCtrlEnter =
                    Some (with_pending (pending st ++ [AwaitContext query])
                                       (showLoading true st))).
  { cbn [step]. now rewrite (handleSubmitRequest_accepts st Hinput). }
  split; [| split].
  - intros text. cbn [run]. rewrite Hsubmit. cbn [step run].
    cbn [pending with_pending validateInput setEl with_document].
    unfold n. rewrite nth_error_last, Hcontext, replaceAt_last.
    eexists. split; reflexivity.
  - cbn [run]. rewrite Hsubmit. cbn [step run].
    cbn [pending with_pending browseFiles updateSelectedFilesList setEl with_document
           with_selectedFiles].
    unfold n. rewrite nth_error_last, Hcontext, replaceAt_last.
    eexists. split; reflexivity.
  - intros url model backup. cbn [run]. rewrite Hsubmit. cbn [step run].
    unfold saveSettings, setItem_settings. cbn [bind ret].
    cbn [pending with_pending setEl with_document showNotification hideSettings
           checkServiceConnection with_serviceUrl with_localStorage with_notifications].
    unfold n.
    rewrite <- app_assoc. cbn [app].
    rewrite nth_error_at_length, Hcontext, replaceAt_at_length.
    eexists. split; reflexivity.
Qed.

(** "Audit my formulas" submitted with no file selected, the files browsed
    before the context arrives: the request goes to /smart_analysis. *)
Lemma request_built_when_context_arrives_witness :
  exists st' body,
    run typedApp [KeyCtrlEnter; ClickBrowseFiles; ContextSettles 1 hostWithoutSelection]
      = Some st' /\
    nth_error (pending st') 1 =
      Some (AwaitFetch "Audit my formulas" "http://127.0.0.1:8700/smart_analysis" body) /\
    determineEndpoint typedApp "Audit my formulas" = "/audit_formulas".
Proof.
  assert (Htyped : trim (inputText typedApp) <> "") by (cbn; discriminate).
  destruct (request_built_when_context_arrives typedApp hostWithoutSelection Htyped)
    as [context [_ [_ [[st' [Hrun Hpending]] _]]]].
  exists st'. eexists. split; [exact Hrun | split; [| reflexivity]].
  rewrite Hpending. reflexivity.
Defined.

Lemma filter_removeAt {A : Type} (p : A -> bool) (i : nat) (l : list A) (x : A) :
  nth_error l i = Some x -> p x = true ->
  List.length (filter p (removeAt i l)) = Nat.pred (List.length (filter p l)).
Proof.
  revert i; induction l as [|a l IH]; intros [|i]; cbn [nth_error removeAt filter];
    try discriminate.
  - intros [= ->] ->. reflexivity.
  - intros Hi Hx. destruct (p a); cbn [List.length]; rewrite (IH i Hi Hx); [| reflexivity].
    assert (Hpos : (0 < List.length (filter p l))%nat).
    { clear IH. revert i Hi. induction l as [|b l IHl]; intros [|i]; cbn; try discriminate.
      - intros [= ->]. rewrite Hx. cbn. lia.
      - intros Hi. destruct (p b); cbn; [lia | now apply (IHl i)]. }
    lia.
Qed.

(** X15. The loading overlay is not a count of requests: every way a
    submission ends (network error, non-2xx response, or the body handled,
    with success or not) hides the overlay and takes one request out of
    flight, however many remain.  With two requests in flight, the end of
    one leaves the other in flight behind a hidden overlay. *)
Theorem overlay_hidden_by_any_completion (st : App) (i : nat) (query : string) :
  (forall url request r,
      nth_error (pending st) i = Some (AwaitFetch query url request) ->
      match r with
      | NetworkError _ => True
      | Response status _ => ok status = false
      end ->
      exists st',
        step st (FetchSettles i r) = Some st' /\
        loadingShown st' = false /\
        inFlight st' = Nat.pred (inFlight st)) /\
  (forall body now nowText accepted,
      nth_error (pending st) i = Some (AwaitJson query) ->
      exists st',
        step st (JsonSettles i body now nowText accepted) = Some st' /\
        loadingShown st' = false /\
        inFlight st' = Nat.pred (inFlight st)).
Proof.
  split.
  - intros url request r Hi Hfails. cbn [step]. rewrite Hi. unfold onResponse.
    assert (Hout : List.length (filter isInFlight (removeAt i (pending st))) =
                   Nat.pred (inFlight st))
      by (apply (filter_removeAt isInFlight i _ _ Hi); reflexivity).
    destruct r as [e | status statusText].
    + eexists. split; [reflexivity | split; [reflexivity | exact Hout]].
    + rewrite Hfails. eexists. split; [reflexivity | split; [reflexivity | exact Hout]].
  - intros body now nowText accepted Hi. cbn [step]. rewrite Hi.
    eexists. split; [reflexivity |].
    destruct (onResult_ends query body now nowText accepted
                (with_pending (removeAt i (pending st)) st)) as [Hhidden Hpending].
    split; [exact Hhidden |].
    unfold inFlight. rewrite Hpending. cbn [pending with_pending].
    apply (filter_removeAt isInFlight i _ _ Hi). reflexivity.
Qed.

(** Two overlapping submissions, the first of which fails on the network. *)
Lemma overlay_hidden_by_any_completion_witness :
  exists st' st'',
    run typedApp (overlapping hostWithoutSelection 1 2) = Some st' /\
    loadingShown st' = true /\
    step st' (FetchSettles 1 (NetworkError (Thrown "Failed to fetch"))) = Some st'' /\
    loadingShown st'' = false /\
    inFlight st'' = 1%nat.
Proof.
  eexists. 
  destruct (overlay_hidden_by_any_completion
              (match run typedApp (overlapping hostWithoutSelection 1 2) with
               | Some s => s
               | None => typedApp
               end) 1 "Audit my formulas") as [H _].
  destruct (H _ _ (NetworkError (Thrown "Failed to fetch")) eq_refl I)
    as [st'' [Hstep [Hhidden Hcount]]].
  exists st''.
  split; [reflexivity | split; [reflexivity | split; [exact Hstep | split; [exact Hhidden |]]]].
  rewrite Hcount. reflexivity.
Defined.

(** ** The submit button *)

Lemma validateInput_consistent (st : App) : submitConsistent (validateInput st).
Proof.
  intros Henabled. apply validateInput_enabled in Henabled. exact Henabled.
Qed.

Lemma disabled_consistent (st : App) : submitEnabled st = false -> submitConsistent st.
Proof.
  intros Hoff Hon. congruence.
Qed.

Lemma onResult_consistent query body now nowText accepted st :
  submitConsistent st -> submitConsistent (onResult query body now nowText accepted st).
Proof.
  intros Hc. unfold onResult, showResults.
  destruct body as [e | result]; [exact Hc |].
  destruct (getProp result "success") as [e | success]; [exact Hc |].
  destruct (truthy success).
  - destruct (snd (renderResult result [])) as [e | u]; [exact Hc |].
    destruct (addToHistory_cases query result now nowText accepted
                (setEl "results-content" (setInnerHTML (fst (renderResult result []))) st))
      as [[_ [e ->]] | [items [_ [[_ [markup [_ ->]]] | [_ [e ->]]]]]].
    + exact Hc.
    + apply disabled_consistent.
      unfold saveHistory, setItem_history. destruct accepted; reflexivity.
    + exact Hc.
  - destruct (error <- getProp result "error" ;; toStr (jsOr error (JStr "Operation failed")));
      exact Hc.
Qed.

Lemma connectionChecked_consistent body st : submitConsistent (connectionChecked body st).
Proof.
  unfold connectionChecked.
  destruct body as [e | data]; [apply disabled_consistent; reflexivity |].
  destruct (service <- interp data "service" ;; _) as [e | text].
  - apply disabled_consistent. reflexivity.
  - apply validateInput_consistent.
Qed.

Lemma step_submitConsistent (st st' : App) (ev : event) :
  step st ev = Some st' -> submitConsistent st -> submitConsistent st'.
Proof.
  destruct ev; cbn [step]; intros H Hc;
    try (injection H as <-; exact Hc).
  - destruct (disabled _); [discriminate | injection H as <-].
    unfold handleSubmitRequest. destruct (isEmpty _); exact Hc.
  - injection H as <-. intros Henabled.
    destruct (Hc Henabled) as [Hconnected _].
    split; [exact Hconnected | cbn; discriminate].
  - injection H as <-. intros Henabled.
    destruct (Hc Henabled) as [Hconnected _].
    split; [exact Hconnected | cbn; discriminate].
  - injection H as <-. intros Henabled.
    destruct (Hc Henabled) as [Hconnected _].
    split; [exact Hconnected | cbn; discriminate].
  - injection H as <-. rewrite clearHistory_eq. unfold saveHistory, setItem_history.
    destruct accepted; exact Hc.
  - injection H as <-. apply validateInput_consistent.
  - injection H as <-. unfold saveSettings, setItem_settings.
    destruct accepted; exact Hc.
  - injection H as <-. apply validateInput_consistent.
  - injection H as <-. unfold handleSubmitRequest. destruct (isEmpty _); exact Hc.
  - injection H as <-. unfold inputMonitor.
    destruct (_ || _); [destruct (selectedFiles st) |]; exact Hc.
  - destruct (nth_error _ _) as [[]|]; try discriminate.
    destruct (getCurrentExcelContext h); try discriminate;
      injection H as <-; exact Hc.
  - destruct (nth_error _ _) as [[]|]; try discriminate.
    + unfold onResponse in H. destruct r as [e | status statusText].
      * injection H as <-; exact Hc.
      * destruct (ok status); injection H as <-; exact Hc.
    + destruct r as [e | status statusText].
      * injection H as <-. apply disabled_consistent. reflexivity.
      * destruct (ok status); injection H as <-;
          [exact Hc | apply disabled_consistent; reflexivity].
  - destruct (nth_error _ _) as [[]|]; try discriminate; injection H as <-.
    + apply onResult_consistent. exact Hc.
    + apply connectionChecked_consistent.
Qed.

(** X16. The submit button is never enabled on a request that cannot be
    made: if the button is enabled only with the service connected and a
    non-blank input, then the same holds after any run of the event loop
    (health checks failing or succeeding, input typed or set by the
    quick-action buttons or from the history, submissions ending).  So a
    click on the submit button always starts a submission, with the service
    connected, and never ends in "Please enter a request". *)
Theorem submit_button_consistent (st st' : App) (evs : list event) :
  submitConsistent st ->
  run st evs = Some st' ->
  submitConsistent st' /\
  (forall st'',
      step st' ClickSubmit = Some st'' ->
      connectionStatus st' = "connected" /\
      pending st'' = pending st' ++ [AwaitContext (trim (inputText st'))]).
Proof.
  intros Hc Hrun.
  assert (Hc' : submitConsistent st').
  { revert st Hc Hrun. induction evs as [|ev evs IH]; intros st Hc; cbn [run].
    - now intros [= <-].
    - destruct (step st ev) as [st1|] eqn:Hstep; [| discriminate].
      intros Hrun. apply (IH st1); [now apply (step_submitConsistent st st1 ev) | exact Hrun]. }
  split; [exact Hc' |].
  intros st'' Hclick. cbn [step] in Hclick.
  destruct (disabled (getElementById st' "btn-submit")) eqn:Hdisabled; [discriminate |].
  injection Hclick as <-.
  destruct (Hc' (f_equal negb Hdisabled)) as [Hconnected Hinput].
  split; [exact Hconnected |].
  now rewrite (handleSubmitRequest_accepts st' Hinput).
Qed.

(** From a disabled button: the start-up health check succeeds, a request is
    typed, and the button is clicked. *)
Lemma submit_button_consistent_witness :
  exists st' st'',
    run (setEl "btn-submit" (setDisabled true) startedApp)
        [FetchSettles 0 (Response 200 "OK");
         JsonSettles 0 (ret (JObj [("service", JStr "X"); ("version", JStr "1.0")]))
                     0 "" true;
         TypeInput "Audit my formulas"] = Some st' /\
    step st' ClickSubmit = Some st'' /\
    pending st'' = [AwaitContext "Audit my formulas"].
Proof.
  eexists. eexists. split; [reflexivity | split; [reflexivity |]].
  destruct (submit_button_consistent
              (setEl "btn-submit" (setDisabled true) startedApp) _
              [FetchSettles 0 (Response 200 "OK");
               JsonSettles 0 (ret (JObj [("service", JStr "X"); ("version", JStr "1.0")]))
                           0 "" true;
               TypeInput "Audit my formulas"]
              (disabled_consistent
                 (setEl "btn-submit" (setDisabled true) startedApp) eq_refl)
              eq_refl) as [_ H].
  destruct (H _ eq_refl) as [_ Hpending].
  exact (eq_trans Hpending eq_refl).
Defined.

(** ** Formula explanations *)

Lemma arrayJoin_primitives (l : list jsval) (sep : string) :
  forallb primitive l = true -> exists s, arrayJoin (JArr l) sep = ret s.
Proof.
  intros Hall. unfold arrayJoin.
  assert (Helems : exists ss,
             (fix elems (l : list jsval) : Exc (list string) :=
                match l with
                | [] => ret []
                | x :: l' =>
                    s <- match x with
                         | JUndefined | JNull => ret ""
                         | _ => toStr x
                         end ;;
                    ss <- elems l' ;;
                    ret (s :: ss)
                end) l = ret ss).
  { induction l as [|x l IH]; [eexists; reflexivity |].
    cbn [forallb] in Hall. apply andb_true_iff in Hall as [Hx Hl].
    destruct (IH Hl) as [ss Hss]. rewrite Hss.
    destruct (toStr_primitive x Hx) as [s Hs].
    destruct x; try discriminate; try rewrite Hs; cbn [bind ret];
      eexists; reflexivity. }
  destruct Helems as [ss ->]. eexists. reflexivity.
Qed.

Lemma interp_field (k : string) (fs : list (string * jsval)) :
  primitive (field k fs) = true -> exists s, interp (JObj fs) k = ret s.
Proof.
  intros Hprim. unfold interp. rewrite getProp_object. cbn [bind ret].
  now apply toStr_primitive.
Qed.

(** A shaped explanation is rendered, as a success item. *)
Lemma explanationItem_shaped (explanation : jsval) :
  explanationShaped explanation = true ->
  exists item,
    explanationItem explanation = ret item /\
    classOf item = "result-item result-success".
Proof.
  destruct explanation as [| | | | | |fs]; try discriminate.
  cbn [explanationShaped]. rewrite !andb_true_iff.
  intros [[[[Haddress Hcomplexity] Hformula] Htext] Hfunctions].
  unfold explanationItem.
  destruct (interp_field "address" fs Haddress) as [address ->]. cbn [bind ret].
  destruct (interp_field "complexity" fs Hcomplexity) as [complexity ->]. cbn [bind ret].
  destruct (interp_field "formula" fs Hformula) as [formula ->]. cbn [bind ret].
  destruct (interp_field "explanation" fs Htext) as [text ->]. cbn [bind ret].
  rewrite getProp_object. cbn [bind ret].
  destruct (field "functions" fs) as [| | | | |names|]; try discriminate.
  - eexists. split; reflexivity.
  - eexists. split; reflexivity.
  - rewrite nonEmpty_array. cbn [bind ret].
    destruct (negb (Nat.eqb (List.length names) 0)).
    + destruct (arrayJoin_primitives names ", " Hfunctions) as [joined ->].
      eexists. split; reflexivity.
    + eexists. split; reflexivity.
Qed.

Lemma explanationItems_shaped (l : list jsval) :
  forallb explanationShaped l = true ->
  exists items,
    Forall2 (fun explanation item => explanationItem explanation = ret item) l items /\
    Forall (fun item => classOf item = "result-item result-success") items.
Proof.
  induction l as [|x l IH]; cbn [forallb].
  - exists []. split; constructor.
  - intros Hall. apply andb_true_iff in Hall as [Hx Hl].
    destruct (IH Hl) as [items [Hitems Hclasses]].
    destruct (explanationItem_shaped x Hx) as [item [Hitem Hclass]].
    exists (item :: items). split; constructor; assumption.
Qed.

(** X17. Formula explanations are not capped: an array of [n] shaped
    explanations is rendered as the title followed by [n] success items, in
    order.  Anything but an array (an object keyed by cell, a string) makes
    the renderer throw after it has put the title into the panel. *)
Theorem showFormulaExplanations_all (explanations : jsval) (container : list node) :
  (forall l,
      explanations = JArr l ->
      forallb explanationShaped l = true ->
      exists items,
        showFormulaExplanations explanations container =
          (container ++ el "h4" "result-title" [Text "Formula Explanations"] :: items,
           ret tt) /\
        List.length items = List.length l /\
        Forall2 (fun explanation item => explanationItem explanation = ret item) l items /\
        Forall (fun item => classOf item = "result-item result-success") items) /\
  (isArray explanations = false ->
   exists e,
     showFormulaExplanations explanations container =
       (container ++ [el "h4" "result-title" [Text "Formula Explanations"]], throw e)).
Proof.
  split.
  - intros l -> Hshaped.
    destruct (explanationItems_shaped l Hshaped) as [items [Hitems Hclasses]].
    exists items. split; [| split; [| split; assumption]].
    + unfold showFormulaExplanations, andThen, appendChild, forEach.
      rewrite (forEachAppend_all explanationItem l items _ Hitems).
      now rewrite <- app_assoc.
    + symmetry. exact (Forall2_length Hitems).
  - intros Hnot. unfold showFormulaExplanations, andThen, appendChild, forEach.
    destruct explanations; try discriminate; eexists; reflexivity.
Qed.

(** Seven explanations, two of them with functions: seven items. *)
Lemma showFormulaExplanations_all_witness :
  let explanation :=
    JObj [("address", JStr "A1"); ("complexity", JStr "simple");
          ("formula", JStr "=SUM(B1:B9)"); ("explanation", JStr "Adds B1 to B9");
          ("functions", JArr [JStr "SUM"])] in
  let plain :=
    JObj [("address", JStr "A2"); ("complexity", JStr "simple");
          ("formula", JStr "=B1"); ("explanation", JStr "Copies B1")] in
  exists items,
    showFormulaExplanations
      (JArr [explanation; plain; plain; plain; plain; plain; explanation]) [] =
      (el "h4" "result-title" [Text "Formula Explanations"] :: items, ret tt) /\
    List.length items = 7%nat.
Proof.
  intros explanation plain.
  destruct (showFormulaExplanations_all
              (JArr [explanation; plain; plain; plain; plain; plain; explanation]) [])
    as [H _].
  destruct (H _ eq_refl eq_refl) as [items [Hshown [Hlen _]]].
  exists items. split; [exact Hshown | exact Hlen].
Defined.

(** ** Responses that are rendered *)

Lemma succeeds_bind_ret {A B : Type} (m : Exc A) (g : A -> B) :
  succeeds (a <- m ;; ret (g a)) = succeeds m.
Proof.
  destruct m; reflexivity.
Qed.

Lemma succeeds_bind_const {A B : Type} (m : Exc A) (k : A -> Exc B) (r : bool) :
  (forall a, succeeds (k a) = r) -> succeeds (a <- m ;; k a) = succeeds m && r.
Proof.
  intros Hk. destruct m as [e | a]; [reflexivity | apply Hk].
Qed.

(** [a.join(sep)] gets through exactly on an array of printable values. *)
Lemma arrayJoin_succeeds (a : jsval) (sep : string) :
  succeeds (arrayJoin a sep) =
  match a with
  | JArr l => forallb printable l
  | _ => false
  end.
Proof.
  destruct a as [| | b | n | s | l | fs]; try reflexivity.
  cbn [arrayJoin]. rewrite succeeds_bind_ret.
  induction l as [|x l IH]; [reflexivity |].
  cbn [forallb]. rewrite <- IH, <- (toStr_printable x). cbv beta iota fix.
  rewrite succeeds_bind2. f_equal. destruct x; reflexivity.
Qed.

(** The pattern [a && a.length > 0 ? f(a) : ''] inside a template, where
    [f] needs an array. *)
Lemma listed_spec {A B : Type} (a : jsval) (thenBranch : Exc A) (none : A)
      (k : A -> Exc B) (shaped : list jsval -> bool) (r : bool) :
  (forall l, a = JArr l -> succeeds thenBranch = shaped l) ->
  (isArray a = false -> succeeds thenBranch = false) ->
  shaped [] = true ->
  (forall d, succeeds (k d) = r) ->
  succeeds (some <- nonEmpty a ;; d <- (if some then thenBranch else ret none) ;; k d) =
  listedIfAny shaped a && r.
Proof.
  intros Harray Hother Hnil Hk.
  assert (Hthen : succeeds (d <- thenBranch ;; k d) = succeeds thenBranch && r).
  { now apply succeeds_bind_const. }
  assert (Hnone : succeeds (d <- ret none ;; k d) = r) by apply Hk.
  destruct (isArray a) eqn:Ha.
  - destruct a as [| | | | | l |]; try discriminate.
    rewrite nonEmpty_array. cbn [bind ret listedIfAny].
    destruct l as [|x l]; cbn [List.length Nat.eqb negb].
    + now rewrite Hnone, Hnil.
    + now rewrite Hthen, (Harray _ eq_refl).
  - rewrite (nonEmpty_other a Ha). specialize (Hother eq_refl).
    rewrite Hother in Hthen.
    destruct a as [| | b | n | s | l | fs]; try discriminate; cbn [bind ret listedIfAny];
      try exact Hnone.
    + destruct s; cbn [isEmpty negb]; [exact Hnone | exact Hthen].
    + destruct (gt0 (field "length" fs)) as [e | [|]]; cbn [bind];
        [reflexivity | exact Hthen | exact Hnone].
Qed.

Lemma prints_propOf (v : jsval) (p : string) :
  nullish v = false -> prints v p = succeeds (toStr (propOf v p)).
Proof.
  intros N. unfold prints. rewrite N. apply eq_sym, toStr_printable.
Qed.

(** The item of an explanation is built exactly when the explanation
    renders. *)
Lemma explanationItem_renders (explanation : jsval) :
  succeeds (explanationItem explanation) = explanationRenders explanation.
Proof.
  unfold explanationItem, explanationRenders. destruct (nullish explanation) eqn:N.
  - destruct explanation; try discriminate; reflexivity.
  - rewrite !(interp_propOf explanation _ N), (getProp_propOf explanation "functions" N),
      !(prints_propOf explanation _ N).
    destruct (toStr (propOf explanation "address")); [reflexivity |].
    destruct (toStr (propOf explanation "complexity")); [reflexivity |].
    destruct (toStr (propOf explanation "formula")); [reflexivity |].
    destruct (toStr (propOf explanation "explanation")); [reflexivity |].
    cbn [bind ret succeeds andb]. unfold joinsIfAny.
    rewrite (listed_spec (propOf explanation "functions") _ _ _ (forallb printable) true);
      [apply andb_true_r | | | reflexivity | reflexivity].
    + intros l Hl. now rewrite succeeds_bind_ret, arrayJoin_succeeds, Hl.
    + intros Hother. rewrite succeeds_bind_ret, arrayJoin_succeeds.
      destruct (propOf explanation "functions"); try reflexivity; discriminate.
Qed.

(** The item of an analysis is built exactly when the analysis renders. *)
Lemma analysisItem_renders (analysis : jsval) :
  succeeds (analysisItem analysis) = analysisRenders analysis.
Proof.
  unfold analysisItem, analysisRenders. destruct (nullish analysis) eqn:N.
  - destruct analysis; try discriminate; reflexivity.
  - rewrite !(interp_propOf analysis _ N), !(getProp_propOf analysis _ N),
      !(prints_propOf analysis _ N).
    cbn [bind ret].
    destruct (toStr (propOf analysis "address")); [reflexivity |].
    destruct (toStr (propOf analysis "confidence")); [reflexivity |].
    destruct (toStr (propOf analysis "original_formula")); [reflexivity |].
    destruct (toStr (propOf analysis "explanation")); [reflexivity |].
    cbn [bind ret succeeds andb].
    assert (Herrors :
              succeeds (if truthy (propOf analysis "has_errors")
                        then (error_details <- toStr (propOf analysis "error_details") ;;
                              ret [el0 "p" [el0 "strong" [Text "Issues:"];
                                            Text (" " ++ error_details)]])
                        else ret []) =
              negb (truthy (propOf analysis "has_errors")) ||
              succeeds (toStr (propOf analysis "error_details"))).
    { destruct (truthy (propOf analysis "has_errors")); [| reflexivity].
      now rewrite succeeds_bind_ret. }
    destruct (if truthy (propOf analysis "has_errors") then _ else _) as [e | issuesP];
      cbn [succeeds] in Herrors; rewrite <- Herrors; [reflexivity |].
    cbn [bind andb]. unfold joinsIfAny.
    apply (listed_spec (propOf analysis "suggestions") _ _ _ (forallb printable)).
    + intros l Hl. now rewrite succeeds_bind_ret, arrayJoin_succeeds, Hl.
    + intros Hother. rewrite succeeds_bind_ret, arrayJoin_succeeds.
      destruct (propOf analysis "suggestions"); try reflexivity; discriminate.
    + reflexivity.
    + intros suggestionsP.
      destruct (truthy (propOf analysis "improved_formula")); [| reflexivity].
      cbn [negb orb].
      destruct (toStr (propOf analysis "improved_formula")); reflexivity.
Qed.

Lemma resultLines_shaped (l : list jsval) :
  succeeds (resultLines l) = forallb lineShaped l.
Proof.
  induction l as [|r l IH]; [reflexivity |].
  cbn [resultLines forallb]. rewrite <- IH. unfold lineShaped.
  destruct (nullish r) eqn:N.
  - destruct r; try discriminate; reflexivity.
  - rewrite (getProp_propOf r "result" N). cbn [bind ret negb andb].
    rewrite <- toStr_printable. unfold jsOr.
    destruct (truthy (propOf r "result")); cbn [bind ret];
      [| rewrite (getProp_propOf r "action" N); cbn [bind ret]];
      match goal with
      | |- context [bind (toStr ?v) _] => destruct (toStr v); [reflexivity |]
      end;
      cbn [bind ret succeeds andb]; destruct (resultLines l); reflexivity.
Qed.

Lemma naturalLanguageItem_renders (fs : list (string * jsval)) :
  succeeds (naturalLanguageItem (JObj fs)) =
  printable (field "operation_type" fs) && printable (field "summary" fs) &&
  listedIfAny (forallb lineShaped) (field "results" fs).
Proof.
  unfold naturalLanguageItem, interp. rewrite !getProp_object. cbn [bind ret].
  rewrite <- !toStr_printable.
  destruct (toStr (field "operation_type" fs)); [reflexivity |].
  destruct (toStr (field "summary" fs)); [reflexivity |].
  cbn [bind ret succeeds andb].
  rewrite (listed_spec (field "results" fs) _ _ _ (forallb lineShaped) true);
    [apply andb_true_r | | | reflexivity | reflexivity].
  - intros l ->. now rewrite succeeds_bind_ret, resultLines_shaped.
  - intros Hother. destruct (field "results" fs); try reflexivity; discriminate.
Qed.

Lemma consolidationItem_renders (fs : list (string * jsval)) :
  succeeds (consolidationItem (JObj fs)) =
  printable (field "consolidated_file" fs) && printable (field "rows_merged" fs) &&
  printable (field "files_processed" fs).
Proof.
  unfold consolidationItem, interp. rewrite !getProp_object. cbn [bind ret].
  rewrite <- !toStr_printable.
  destruct (toStr (field "consolidated_file" fs)), (toStr (field "rows_merged" fs)),
    (toStr (field "files_processed" fs)); reflexivity.
Qed.

Lemma appendBuilt_succeeds (n : Exc node) (container : list node) :
  succeeds (snd (appendBuilt n container)) = succeeds n.
Proof.
  unfold appendBuilt. destruct n; reflexivity.
Qed.

(** A [forEach] over the payload after the title: only an array gets
    through, when every item is built. *)
Lemma titled_forEach_succeeds (title : node) (a : jsval) (build : jsval -> Exc node)
      (shaped : jsval -> bool) (container : list node) :
  (forall x, succeeds (build x) = shaped x) ->
  succeeds (snd (andThen (appendChild title) (forEach a build) container)) =
  match a with
  | JArr l => forallb shaped l
  | _ => false
  end.
Proof.
  intros Hbuild. unfold andThen, appendChild, forEach.
  destruct a as [| | b | n | s | l | fs]; try reflexivity.
  cbn [ret]. rewrite forEachAppend_succeeds. now apply forallb_same.
Qed.

(** The items part of the audit renderer, for an [issues] property of any
    kind. *)
Lemma showIssues_renders (fs : list (string * jsval)) (container : list node) :
  succeeds (snd (showIssues (JObj fs) container)) =
  listedIfAny (fun l => forallb issueShaped (firstn 5 l)) (field "issues" fs).
Proof.
  destruct (isArray (field "issues" fs)) eqn:Harray.
  - destruct (field "issues" fs) as [| | | | | l |] eqn:E; try discriminate.
    cbn [listedIfAny]. apply showIssues_succeeds. now rewrite propOf_object.
  - unfold showIssues. rewrite getProp_object. cbn [bind ret].
    rewrite (nonEmpty_other _ Harray).
    destruct (field "issues" fs) as [| | b | n | s | l | fs']; try discriminate;
      try reflexivity.
    + destruct s; reflexivity.
    + cbn [listedIfAny]. destruct (gt0 (field "length" fs')) as [e | [|]]; reflexivity.
Qed.

Lemma showAuditResults_renders (fs : list (string * jsval)) (container : list node) :
  succeeds (snd (showAuditResults (JObj fs) container)) =
  summaryShaped (jsOr (field "audit_summary" fs) (JObj [])) &&
  listedIfAny (fun l => forallb issueShaped (firstn 5 l)) (field "issues" fs).
Proof.
  rewrite (showAuditResults_steps (JObj fs) container eq_refl), propOf_object.
  rewrite <- auditSummary_shaped.
  destruct (auditSummary _) as [e | panel]; [reflexivity |].
  cbn [succeeds andb]. apply showIssues_renders.
Qed.

(** A response object is rendered without an exception exactly when it is
    renderable. *)
Lemma rendersCleanly_renderable (fs : list (string * jsval)) :
  rendersCleanly (ret (JObj fs)) = renderable fs.
Proof.
  assert (Hsucceeds : rendersCleanly (ret (JObj fs)) =
                      succeeds (snd (renderResult (JObj fs) []))).
  { unfold rendersCleanly, ret. destruct (snd _); reflexivity. }
  rewrite Hsucceeds. unfold renderResult, renderable. rewrite !getProp_object.
  unfold ret at 1. cbv beta iota.
  destruct (truthy (field "explanations" fs)).
  { unfold showFormulaExplanations.
    apply titled_forEach_succeeds, explanationItem_renders. }
  unfold ret at 1. cbv beta iota.
  destruct (truthy (field "issues" fs)); [apply showAuditResults_renders |].
  unfold ret at 1. cbv beta iota.
  destruct (truthy (field "analysis_results" fs)).
  { unfold showSmartAnalysis. apply titled_forEach_succeeds, analysisItem_renders. }
  unfold ret at 1. cbv beta iota.
  destruct (truthy (field "consolidated_file" fs)).
  { unfold showConsolidationResults. rewrite appendBuilt_succeeds.
    apply consolidationItem_renders. }
  unfold ret at 1. cbv beta iota.
  destruct (truthy (field "operation_type" fs)).
  { unfold showNaturalLanguageResults. rewrite appendBuilt_succeeds.
    apply naturalLanguageItem_renders. }
  reflexivity.
Qed.

(** X18. Which responses are rendered, and that they succeed.  [showResults]
    gets through a response object exactly when it is [renderable]: the
    renderer that the object is dispatched to can print all that it shows.
    With truthy [explanations], these have to be an array of values, none
    null, whose address, complexity, formula and explanation can be printed
    and whose functions can be listed; else, with truthy [issues], the four
    counts of the summary can be printed and the issues can be listed, where
    of a list only the first five issues are looked at, each with the five
    properties that its item shows; else, with truthy [analysis_results],
    these have to be an array of values, none null, whose address,
    confidence, original formula and explanation can be printed, whose error
    details can be printed if [has_errors] is truthy, whose suggestions can
    be listed and whose improved formula can be printed if it is truthy;
    else, with a truthy [consolidated_file], that, [rows_merged] and
    [files_processed] can be printed; else, with a truthy [operation_type],
    that and [summary] can be printed and the results can be listed, each
    line being the [result] or else the [action] of a value that is not
    null; and every other object is rendered, by the generic renderer.  A
    value can be printed unless it is, or holds in nested arrays, an object
    with a [toString] property of its own.  A value can be listed if it is an
    array of values that can be printed, or if it is not an array and has no
    length above zero: a non-empty string, or an object that gives itself a
    positive length, in the place of a list makes the renderer throw.  So a
    2xx response that is renderable and has a truthy success field, arriving
    while the history is an array of which the first nineteen entries can be
    shown, ends as a success: input cleared, operation at the front of the
    history, overlay hidden. *)
Theorem shaped_response_succeeds
        (st : App) (i : nat) (query : string) (fs : list (string * jsval))
        (now : Z) (nowText : string) (accepted : bool) (items : list jsval) :
  rendersCleanly (ret (JObj fs)) = renderable fs /\
  (nth_error (pending st) i = Some (AwaitJson query) ->
   truthy (field "success" fs) = true ->
   renderable fs = true ->
   operationHistory st = JArr items ->
   forallb entryDisplays (firstn 19 items) = true ->
   exists st',
     step st (JsonSettles i (ret (JObj fs)) now nowText accepted) = Some st' /\
     inputText st' = "" /\
     operationHistory st' =
       JArr (firstn 20 (historyItem now query (JObj fs) nowText :: items)) /\
     loadingShown st' = false).
Proof.
  split; [apply rendersCleanly_renderable |].
  intros Hi Hsuccess Hshaped Hitems Hshown.
  assert (Hrendered : rendersCleanly (ret (JObj fs)) = true).
  { now rewrite rendersCleanly_renderable. }
  assert (Hreported : reportsSuccess (ret (JObj fs)) = true).
  { unfold reportsSuccess, ret. rewrite getProp_object. exact Hsuccess. }
  cbn [step]. rewrite Hi. eexists. split; [reflexivity |].
  destruct (onResult_success query (JObj fs) now nowText accepted
              (with_pending (removeAt i (pending st)) st) items Hreported Hrendered
              Hitems Hshown)
    as [Hinput Hhistory].
  split; [exact Hinput | split; [exact Hhistory |]].
  apply onResult_ends.
Qed.

(** A payload that only the generic renderer takes, and the sample audit
    response with an extra, nested property in its first issue. *)
Lemma shaped_response_succeeds_witness :
  renderable
    [("success", JBool true);
     ("issues",
      JArr [JObj [("title", JStr "Circular reference"); ("severity", JStr "high");
                  ("trace", JObj [("cells", JArr [JStr "A1"; JStr "B2"])])]])] = true /\
  renderable [("success", JBool true); ("issues", JObj [("length", JStr "0x10")])] = false /\
  exists st',
    step awaitingBody
         (JsonSettles 1 (ret (JObj [("success", JBool true); ("message", JStr "done")]))
                      1735732800000 "1/1/2025, 12:00:00 PM" true) = Some st' /\
    inputText st' = "" /\
    List.length (elements (operationHistory st')) = 1%nat.
Proof.
  split; [reflexivity | split; [reflexivity |]].
  destruct (shaped_response_succeeds
              awaitingBody 1 "Audit my formulas"
              [("success", JBool true); ("message", JStr "done")]
              1735732800000%Z "1/1/2025, 12:00:00 PM" true [])
    as [_ Hsucceeds].
  destruct (Hsucceeds eq_refl eq_refl eq_refl eq_refl eq_refl)
    as [st' [Hstep [Hinput [Hhistory _]]]].
  exists st'. split; [exact Hstep | split; [exact Hinput |]].
  rewrite Hhistory. reflexivity.
Defined.

(** ** Quick actions and error reports *)

(** X19. The audit and explain buttons do not go through the submit button:
    in every state, whatever the connection status and whether or not the
    submit button is disabled, a click replaces the input by the button's
    phrase and starts a request for it.  The audit phrase is routed to
    /audit_formulas, or to /smart_analysis when files are selected; the
    explain phrase always to /explain_sheet.  The consolidate button only
    fills in its phrase and opens the file section, without a request; the
    phrase, once submitted, is routed to /consolidate_files. *)
Theorem quick_actions_submit (st : App) (h : HostRun) :
  let n := List.length (pending st) in
  let audit := "Audit all formulas in the current sheet for errors and issues" in
  let explain := "Explain all formulas in the current sheet in plain English" in
  let consolidate := "Consolidate multiple Excel files into a single summary report" in
  let request query endpoint context :=
    AwaitFetch query (serviceUrl st ++ endpoint)
      (JObj [("query", JStr query);
             ("files", JArr (map fileJson (selectedFiles st)));
             ("context", context)]) in
  exists context,
    getCurrentExcelContext h = Resolved context /\
    (exists st',
        run st [ClickAuditSheet; ContextSettles n h] = Some st' /\
        loadingShown st' = true /\
        pending st' =
          pending st ++
          [request audit
             (if (0 <? List.length (selectedFiles st))%nat
              then "/smart_analysis" else "/audit_formulas") context]) /\
    (exists st',
        run st [ClickExplainFormulas; ContextSettles n h] = Some st' /\
        loadingShown st' = true /\
        pending st' = pending st ++ [request explain "/explain_sheet" context]) /\
    (exists st',
        step st ClickConsolidateFiles = Some st' /\
        inputText st' = consolidate /\
        pending st' = pending st /\
        display (getElementById st' "file-selection-section") = "block") /\
    (exists st',
        run st [ClickConsolidateFiles; KeyCtrlEnter; ContextSettles n h] = Some st' /\
        pending st' = pending st ++ [request consolidate "/consolidate_files" context]).
Proof.
  intros n audit explain consolidate request.
  destruct (getCurrentExcelContext_resolves h) as [context Hcontext].
  exists context. split; [exact Hcontext |].
  assert (Hsubmit : forall phrase : string,
             trim phrase <> "" ->
             handleSubmitRequest (setEl "natural-language-input" (setValue phrase) st) =
             with_pending (pending st ++ [AwaitContext (trim phrase)])
               (showLoading true (setEl "natural-language-input" (setValue phrase) st))).
  { intros phrase Hphrase.
    exact (handleSubmitRequest_accepts
             (setEl "natural-language-input" (setValue phrase) st) Hphrase). }
  assert (Haudit : trim audit = audit) by (vm_compute; reflexivity).
  assert (Hexplain : trim explain = explain) by (vm_compute; reflexivity).
  assert (Hconsolidate : trim consolidate = consolidate) by (vm_compute; reflexivity).
  assert (Hrouted : forall st1 : App,
             selectedFiles st1 = selectedFiles st ->
             determineEndpoint st1 audit =
               (if (0 <? List.length (selectedFiles st))%nat
                then "/smart_analysis" else "/audit_formulas") /\
             determineEndpoint st1 explain = "/explain_sheet" /\
             determineEndpoint st1 consolidate = "/consolidate_files").
  { intros st1 Hfiles. unfold determineEndpoint. rewrite Hfiles.
    destruct (0 <? List.length (selectedFiles st))%nat; repeat split. }
  split; [| split; [| split]].
  - cbn [run step]. fold audit. rewrite (Hsubmit audit), Haudit by (vm_compute; discriminate).
    cbn [pending with_pending]. unfold n.
    rewrite nth_error_last, Hcontext, replaceAt_last.
    eexists. split; [reflexivity | split; [reflexivity |]].
    cbn [pending with_pending]. unfold sendRequest, request.
    match goal with
    | |- context [determineEndpoint ?s _] =>
        now rewrite (proj1 (Hrouted s eq_refl))
    end.
  - cbn [run step]. fold explain.
    rewrite (Hsubmit explain), Hexplain by (vm_compute; discriminate).
    cbn [pending with_pending]. unfold n.
    rewrite nth_error_last, Hcontext, replaceAt_last.
    eexists. split; [reflexivity | split; [reflexivity |]].
    cbn [pending with_pending]. unfold sendRequest, request.
    match goal with
    | |- context [determineEndpoint ?s _] =>
        now rewrite (proj1 (proj2 (Hrouted s eq_refl)))
    end.
  - eexists. split; [reflexivity |]. repeat split.
  - cbn [run step]. fold consolidate.
    rewrite (handleSubmitRequest_accepts
               (showFileSelection
                  (setEl "natural-language-input" (setValue consolidate) st)))
      by (vm_compute; discriminate).
    change (trim (inputText (showFileSelection
                    (setEl "natural-language-input" (setValue consolidate) st))))
      with (trim consolidate).
    rewrite Hconsolidate.
    cbn [pending with_pending]. unfold n.
    change (pending (showFileSelection
                       (setEl "natural-language-input" (setValue consolidate) st)))
      with (pending st).
    rewrite nth_error_last, Hcontext, replaceAt_last.
    eexists. split; [reflexivity |].
    cbn [pending with_pending]. unfold sendRequest, request.
    match goal with
    | |- context [determineEndpoint ?s _] =>
        now rewrite (proj2 (proj2 (Hrouted s eq_refl)))
    end.
Qed.

Lemma requestFailed_shown (e : thrown) (st : App) :
  errorShown (requestFailed e st) ("Request failed: " ++ message e).
Proof.
  eexists. reflexivity.
Qed.

(** X20. However a submission fails, the results panel ends up holding the
    error panel and nothing else; anything rendered before a renderer threw is
    replaced.  The message is "Request failed: " followed by the error's
    message for a network error, an unreadable body or an exception in a
    renderer, and "Request failed: HTTP <status>: <status text>" for a
    non-2xx response; a response with a falsy success field shows its error
    text as it is, or "Operation failed" when it carries none.  A result
    that was rendered is replaced in the same way when the history does not
    take its entry. *)
Theorem failed_submission_shows_error (st : App) (i : nat) (query : string) (t : task) :
  nth_error (pending st) i = Some t ->
  (forall url data r,
      t = AwaitFetch query url data -> refused r = true ->
      exists st',
        step st (FetchSettles i r) = Some st' /\
        errorShown st'
          ("Request failed: " ++
           match r with
           | NetworkError e => message e
           | Response status statusText =>
               "HTTP " ++ Z_to_string status ++ ": " ++ statusText
           end)) /\
  (forall body now nowText accepted,
      t = AwaitJson query ->
      reportsSuccess body && rendersCleanly body = false ->
      exists st' msg,
        step st (JsonSettles i body now nowText accepted) = Some st' /\
        errorShown st' msg /\
        (forall e, body = throw e -> msg = ("Request failed: " ++ message e)%string) /\
        (forall result e,
            body = ret result -> reportsSuccess body = true ->
            snd (renderResult result []) = throw e ->
            msg = ("Request failed: " ++ message e)%string) /\
        (forall fs,
            body = ret (JObj fs) -> truthy (field "success" fs) = false ->
            (forall text, field "error" fs = JStr text -> text <> "" -> msg = text) /\
            (truthy (field "error" fs) = false -> msg = "Operation failed"))) /\
  (forall result now nowText accepted,
      t = AwaitJson query ->
      reportsSuccess (ret result) = true -> rendersCleanly (ret result) = true ->
      acceptsEntry (operationHistory st) = false ->
      exists st' e,
        step st (JsonSettles i (ret result) now nowText accepted) = Some st' /\
        errorShown st' ("Request failed: " ++ message e)).
Proof.
  intros Hi. split; [| split].
  - intros url data r -> Hrefused. cbn [step]. rewrite Hi.
    destruct r as [e | status statusText]; cbn [onResponse refused] in *.
    + eexists. split; [reflexivity |]. eexists. reflexivity.
    + apply negb_true_iff in Hrefused. rewrite Hrefused.
      eexists. split; [reflexivity |]. eexists. reflexivity.
  - intros body now nowText accepted -> Hfailed. cbn [step]. rewrite Hi.
    set (st0 := with_pending (removeAt i (pending st)) st).
    unfold reportsSuccess, rendersCleanly in Hfailed.
    destruct body as [e | result].
    { exists (onResult query (inl e) now nowText accepted st0),
             ("Request failed: " ++ message e)%string.
      split; [reflexivity | split; [apply requestFailed_shown |]].
      split; [intros e' [= <-]; reflexivity |].
      split; [intros result e' [=] | intros fs [=]]. }
    destruct (getProp result "success") as [e | success] eqn:Esuccess.
    { exists (onResult query (inr result) now nowText accepted st0),
             ("Request failed: " ++ message e)%string.
      split; [reflexivity |].
      split; [unfold onResult; rewrite Esuccess; apply requestFailed_shown |].
      split; [intros e' [=] |].
      split.
      - intros result' e' [= <-] Hreported.
        unfold reportsSuccess, ret in Hreported. rewrite Esuccess in Hreported.
        discriminate.
      - intros fs [= ->]. rewrite getProp_object in Esuccess. discriminate. }
    destruct (truthy success) eqn:Etruthy; cbn [andb] in Hfailed.
    { destruct (snd (renderResult result [])) as [e | u] eqn:Erendered; [| discriminate].
      exists (onResult query (inr result) now nowText accepted st0),
             ("Request failed: " ++ message e)%string.
      split; [reflexivity |].
      split.
      { unfold onResult, showResults. rewrite Esuccess, Etruthy, Erendered.
        apply requestFailed_shown. }
      split; [intros e' [=] |].
      split.
      - intros result' e' [= <-] _ Hthrown. unfold throw in Hthrown.
        rewrite Erendered in Hthrown. injection Hthrown as <-. reflexivity.
      - intros fs [= ->] Hfalsy. rewrite getProp_object in Esuccess.
        injection Esuccess as <-. congruence. }
    destruct (error <- getProp result "error" ;;
              toStr (jsOr error (JStr "Operation failed"))) as [e | msg] eqn:Emsg.
    { exists (onResult query (inr result) now nowText accepted st0),
             ("Request failed: " ++ message e)%string.
      split; [reflexivity |].
      split.
      { unfold onResult. rewrite Esuccess, Etruthy, Emsg. apply requestFailed_shown. }
      split; [intros e' [=] |].
      split.
      - intros result' e' [= <-] Hreported.
        unfold reportsSuccess, ret in Hreported. rewrite Esuccess in Hreported.
        congruence.
      - intros fs [= ->] _. rewrite getProp_object in Emsg. cbn [bind ret] in Emsg.
        split.
        + intros text Htext Hnonempty. rewrite Htext in Emsg.
          destruct text; [congruence | discriminate].
        + intros Hfalsy. unfold jsOr in Emsg. rewrite Hfalsy in Emsg. discriminate. }
    exists (onResult query (inr result) now nowText accepted st0), msg.
    split; [reflexivity |].
    split.
    { unfold onResult. rewrite Esuccess, Etruthy, Emsg. eexists. reflexivity. }
    split; [intros e' [=] |].
    split.
    + intros result' e' [= <-] Hreported.
      unfold reportsSuccess, ret in Hreported. rewrite Esuccess in Hreported.
      congruence.
    + intros fs [= ->] _. rewrite getProp_object in Emsg. cbn [bind ret] in Emsg.
      split.
      * intros text Htext Hnonempty. rewrite Htext in Emsg.
        destruct text; [congruence |]. cbn in Emsg. unfold ret in Emsg. congruence.
      * intros Hfalsy. unfold jsOr in Emsg. rewrite Hfalsy in Emsg.
        cbn in Emsg. unfold ret in Emsg. congruence.
  - intros result now nowText accepted -> Hreported Hrendered Hrefused.
    cbn [step]. rewrite Hi.
    destruct (onResult_refused query result now nowText accepted
                (with_pending (removeAt i (pending st)) st) Hreported Hrendered Hrefused)
      as [_ [_ [_ [e Hshown]]]].
    eexists. exists e. split; [reflexivity | exact Hshown].
Qed.

(** The body {success: false, error: "No formulas found"} for the submission
    of [awaitingBody]. *)
Lemma failed_submission_shows_error_witness :
  exists st',
    step awaitingBody
         (JsonSettles 1 (ret (JObj [("success", JBool false);
                                    ("error", JStr "No formulas found")]))
                      1735732800000 "1/1/2025, 12:00:00 PM" true) = Some st' /\
    errorShown st' "No formulas found".
Proof.
  destruct (failed_submission_shows_error awaitingBody 1 "Audit my formulas"
              (AwaitJson "Audit my formulas") eq_refl) as [_ [Hbody _]].
  destruct (Hbody (ret (JObj [("success", JBool false); ("error", JStr "No formulas found")]))
                  1735732800000%Z "1/1/2025, 12:00:00 PM" true eq_refl eq_refl)
    as [st' [msg [Hstep [Hshown [_ [_ Hmsg]]]]]].
  destruct (Hmsg [("success", JBool false); ("error", JStr "No formulas found")]
                 eq_refl eq_refl) as [Htext _].
  assert (Hnonempty : "No formulas found" <> "") by discriminate.
  rewrite (Htext "No formulas found" eq_refl Hnonempty) in Hshown.
  exists st'. split; [exact Hstep | exact Hshown].
Defined.

(** ** The file-selection section *)

Lemma fileSection_onResult (query : string) (body : Exc jsval) (now : Z) (nowText : string)
      (accepted : bool) (st : App) :
  (reportsSuccess body && rendersCleanly body = true /\
   acceptsEntry (operationHistory st) = true /\
   fileSectionDisplay (onResult query body now nowText accepted st) = "none") \/
  fileSectionDisplay (onResult query body now nowText accepted st) = fileSectionDisplay st.
Proof.
  unfold reportsSuccess, rendersCleanly, onResult, showResults.
  destruct body as [e | result]; [right; reflexivity |].
  destruct (getProp result "success") as [e | success]; [right; reflexivity |].
  destruct (truthy success); cbn [andb].
  - destruct (snd (renderResult result [])) as [e | u]; [right; reflexivity |].
    destruct (addToHistory_cases
                query result now nowText accepted
                (setEl "results-content" (setInnerHTML (fst (renderResult result []))) st))
      as [[_ [e ->]] | [items [Hitems [[Hshown [markup [_ ->]]] | [_ [e ->]]]]]].
    + right. reflexivity.
    + left. split; [reflexivity |].
      cbn [operationHistory setEl with_document] in Hitems.
      split; [now rewrite Hitems |].
      unfold saveHistory, setItem_history. destruct accepted; reflexivity.
    + right. reflexivity.
  - right.
    destruct (error <- getProp result "error" ;; toStr (jsOr error (JStr "Operation failed")));
      reflexivity.
Qed.

Lemma fileSection_connectionChecked (body : Exc jsval) (st : App) :
  fileSectionDisplay (connectionChecked body st) = fileSectionDisplay st.
Proof.
  unfold connectionChecked, fileSectionDisplay. split_cases.
Qed.

(** What each event may do to the file-selection section. *)
Lemma step_fileSection (st st' : App) (ev : event) :
  step st ev = Some st' ->
  match ev with
  | ClickConsolidateFiles | InputMonitorTimer =>
      fileSectionDisplay st' = "block" \/ fileSectionDisplay st' = fileSectionDisplay st
  | JsonSettles i body _ _ _ =>
      (fileSectionDisplay st' = "none" /\
       exists query,
         nth_error (pending st) i = Some (AwaitJson query) /\
         reportsSuccess body && rendersCleanly body = true /\
         acceptsEntry (operationHistory st) = true) \/
      fileSectionDisplay st' = fileSectionDisplay st
  | _ => fileSectionDisplay st' = fileSectionDisplay st
  end.
Proof.
  unfold fileSectionDisplay.
  destruct ev; cbn [step]; intros H; try discriminate;
    try (injection H as <-; reflexivity).
  - destruct (disabled _); [discriminate | injection H as <-].
    unfold handleSubmitRequest; split_cases.
  - injection H as <-. left; reflexivity.
  - injection H as <-.
    rewrite clearHistory_eq. unfold saveHistory, setItem_history; split_cases.
  - injection H as <-. unfold saveSettings, setItem_settings; split_cases.
  - injection H as <-. unfold handleSubmitRequest; split_cases.
  - injection H as <-. unfold inputMonitor.
    destruct (_ || _); [| right; reflexivity].
    destruct (selectedFiles st); [left | right]; reflexivity.
  - destruct (nth_error _ _) as [[]|]; try discriminate.
    destruct (getCurrentExcelContext h); try discriminate;
      injection H as <-; reflexivity.
  - destruct (nth_error _ _) as [[]|]; try discriminate.
    + unfold onResponse in H. destruct r as [e | status statusText].
      * injection H as <-; reflexivity.
      * destruct (ok status); injection H as <-; reflexivity.
    + destruct r as [e | status statusText].
      * injection H as <-; reflexivity.
      * destruct (ok status); injection H as <-; reflexivity.
  - destruct (nth_error (pending st) i) as [[]|] eqn:Hi; try discriminate;
      injection H as <-.
    + destruct (fileSection_onResult query body now nowText accepted
                  (with_pending (removeAt i (pending st)) st))
        as [[Hok [Htaken Hnone]] | Hsame].
      * left. split; [exact Hnone |]. exists query.
        split; [reflexivity | split; [exact Hok | exact Htaken]].
      * right. exact Hsame.
    + right. apply (fileSection_connectionChecked body
                      (with_pending (removeAt i (pending st)) st)).
Qed.

(** X21. The file-selection section is opened only by the consolidate button
    and by the input monitor, and closed only by a submission that ends as a
    success (a body with a truthy success field that is rendered and of which
    the history takes the entry): every other event leaves its display as it
    is.  Removing files, even the last one, a failed submission, a health
    check or a click in the history do not close it. *)
Theorem file_section_closed_only_by_success (st st' : App) (ev : event) :
  step st ev = Some st' ->
  fileSectionDisplay st' <> fileSectionDisplay st ->
  (fileSectionDisplay st' = "block" /\
   (ev = ClickConsolidateFiles \/ ev = InputMonitorTimer)) \/
  (fileSectionDisplay st' = "none" /\
   exists i body now nowText accepted query,
     ev = JsonSettles i body now nowText accepted /\
     nth_error (pending st) i = Some (AwaitJson query) /\
     reportsSuccess body && rendersCleanly body = true /\
     acceptsEntry (operationHistory st) = true).
Proof.
  intros Hstep Hchanged.
  pose proof (step_fileSection st st' ev Hstep) as H.
  destruct ev; try contradiction.
  - destruct H as [H | H]; [| contradiction]. left. split; [exact H | now left].
  - destruct H as [H | H]; [| contradiction]. left. split; [exact H | now right].
  - destruct H as [[H [query [Hi [Hok Htaken]]]] | H]; [| contradiction].
    right. split; [exact H |].
    exists i, body, now, nowText, accepted, query. repeat split; assumption.
Qed.

(** The file section open while the submission of [awaitingBody] waits for
    its body; a successful body closes it. *)
Lemma file_section_closed_only_by_success_witness :
  exists st',
    step (showFileSelection awaitingBody)
         (JsonSettles 1 (ret (JObj [("success", JBool true)]))
                      1735732800000 "1/1/2025, 12:00:00 PM" true) = Some st' /\
    fileSectionDisplay (showFileSelection awaitingBody) = "block" /\
    fileSectionDisplay st' = "none".
Proof.
  eexists. split; [reflexivity |]. split; [reflexivity |].
  destruct (file_section_closed_only_by_success
              (showFileSelection awaitingBody) _
              (JsonSettles 1 (ret (JObj [("success", JBool true)]))
                           1735732800000%Z "1/1/2025, 12:00:00 PM" true) eq_refl)
    as [[_ [Hev | Hev]] | [Hnone _]].
  - vm_compute. discriminate.
  - discriminate Hev.
  - discriminate Hev.
  - exact Hnone.
Defined.
